(** * RUNSTR-PWA: the GPS tracking core

    A shallow embedding of the position filters ([utils/kalmanFilter.js]),
    the trajectory predictor and gap filler ([utils/trajectoryPrediction.js]),
    the step counter, activity classifier and dead reckoning
    ([utils/sensorFusion.js]) and the tracking session
    ([services/RunTracker.js]), with the properties the specification
    states about them and further properties of the code.

    Numbers.  A JavaScript number is modelled by [num]: the three special
    values NaN, +Infinity and -Infinity, or a finite value carried as an
    exact rational.  The special values follow IEEE 754 (NaN is contagious
    and compares false with everything, 1/0 is +Infinity, Infinity/Infinity
    and 0 * Infinity are NaN).  Finite arithmetic is exact: rounding,
    overflow and the sign of zero are abstracted away.  Where the rounding
    decides which branch is taken, in the split evaluation, the code is
    embedded a second time over the binary64 numbers themselves
    ([Binary64]).

    Effects.  Every method takes the receiver and returns the updated
    receiver; [emit] is modelled by returning the list of events emitted
    during the call; [Date.now()] is an explicit argument. *)

From Stdlib Require Import QArith Qround Qabs ZArith List String Bool Lia Lqa.
From Stdlib Require Floats.
Import ListNotations.

Set Implicit Arguments.

(* ================================================================== *)
(** * JavaScript numbers *)
(* ================================================================== *)

Module JS.

Inductive num : Type :=
| NaN
| PInf
| NInf
| Fin (q : Q).

Declare Scope num_scope.
Delimit Scope num_scope with num.
Bind Scope num_scope with num.

Definition Qlt_bool (x y : Q) : bool := negb (Qle_bool y x).

(** Sign of a finite value: [Gt] positive, [Eq] zero, [Lt] negative. *)
Definition Qsign (q : Q) : comparison := (q ?= 0)%Q.

Definition neg (a : num) : num :=
  match a with
  | NaN => NaN
  | PInf => NInf
  | NInf => PInf
  | Fin q => Fin (- q)
  end.

(** Addition.  A finite sum is the exact one: the rounding to binary64,
    the overflow to an infinity and the underflow to 0 are not modelled.
    The same holds for the product and the quotient below. *)
Definition add (a b : num) : num :=
  match a, b with
  | NaN, _ | _, NaN => NaN
  | PInf, NInf | NInf, PInf => NaN
  | PInf, _ | _, PInf => PInf
  | NInf, _ | _, NInf => NInf
  | Fin x, Fin y => Fin (x + y)
  end.

Definition sub (a b : num) : num := add a (neg b).

(** [inf_of_sign s]: the infinity of sign [s]; a zero sign gives NaN. *)
Definition inf_of_sign (s : comparison) : num :=
  match s with
  | Gt => PInf
  | Lt => NInf
  | Eq => NaN
  end.

Definition mul (a b : num) : num :=
  match a, b with
  | NaN, _ | _, NaN => NaN
  | PInf, PInf | NInf, NInf => PInf
  | PInf, NInf | NInf, PInf => NInf
  | PInf, Fin y | Fin y, PInf => inf_of_sign (Qsign y)
  | NInf, Fin y | Fin y, NInf => inf_of_sign (Qsign (- y))
  | Fin x, Fin y => Fin (x * y)
  end.

(** Division.  A finite zero divisor is +0: [x / 0] is the infinity of the
    sign of [x], and [0 / 0] is NaN. *)
Definition div (a b : num) : num :=
  match a, b with
  | NaN, _ | _, NaN => NaN
  | (PInf | NInf), (PInf | NInf) => NaN
  | PInf, Fin y => match Qsign y with Lt => NInf | _ => PInf end
  | NInf, Fin y => match Qsign y with Lt => PInf | _ => NInf end
  | Fin _, (PInf | NInf) => Fin 0
  | Fin x, Fin y =>
      match Qsign y with
      | Eq => inf_of_sign (Qsign x)
      | _ => Fin (x / y)
      end
  end.

(** The relational operators; every comparison with NaN is [false]. *)
Definition lt (a b : num) : bool :=
  match a, b with
  | NaN, _ | _, NaN => false
  | _, NInf => false
  | NInf, _ => true
  | PInf, _ => false
  | Fin _, PInf => true
  | Fin x, Fin y => Qlt_bool x y
  end.

Definition le (a b : num) : bool :=
  match a, b with
  | NaN, _ | _, NaN => false
  | NInf, _ => true
  | _, PInf => true
  | _, NInf => false
  | PInf, _ => false
  | Fin x, Fin y => Qle_bool x y
  end.

Definition gt (a b : num) : bool := lt b a.
Definition ge (a b : num) : bool := le b a.

Definition isNaN (a : num) : bool :=
  match a with NaN => true | _ => false end.

Definition isFinite (a : num) : bool :=
  match a with Fin _ => true | _ => false end.

(** Truthiness of a number: everything but NaN and 0. *)
Definition truthy (a : num) : bool :=
  match a with
  | NaN => false
  | Fin q => negb (Qeq_bool q 0)
  | _ => true
  end.

(** [Math.max], [Math.min], [Math.abs], [Math.floor], [Math.round]. *)
Definition max (a b : num) : num :=
  match a, b with
  | NaN, _ | _, NaN => NaN
  | _, _ => if lt a b then b else a
  end.

Definition min (a b : num) : num :=
  match a, b with
  | NaN, _ | _, NaN => NaN
  | _, _ => if lt b a then b else a
  end.

Definition abs (a : num) : num :=
  match a with
  | NaN => NaN
  | PInf | NInf => PInf
  | Fin q => Fin (Qabs q)
  end.

Definition floor (a : num) : num :=
  match a with
  | Fin q => Fin (inject_Z (Qfloor q))
  | _ => a
  end.

Definition round (a : num) : num :=
  match a with
  | Fin q => Fin (inject_Z (Qfloor (q + (1 # 2))))
  | _ => a
  end.

(** Equality of numbers as values: rationals up to [Qeq].  (This is not
    [===], which is false on NaN; it is the identity of the value held.) *)
Definition same (a b : num) : Prop :=
  match a, b with
  | NaN, NaN | PInf, PInf | NInf, NInf => True
  | Fin x, Fin y => (x == y)%Q
  | _, _ => False
  end.

(** [a || b] on numbers and [a ?? b] on possibly missing values. *)
Definition or_else (a b : num) : num := if truthy a then a else b.

Definition nullish {A : Type} (a : option A) (b : A) : A :=
  match a with Some v => v | None => b end.

(** [a ?? b] where [b] may itself be missing. *)
Definition nullish_opt {A : Type} (a b : option A) : option A :=
  match a with Some _ => a | None => b end.

(** ToNumber of a possibly [undefined] value. *)
Definition of_undefined (a : option num) : num := nullish a NaN.

End JS.

Import JS.

Notation "x + y" := (add x y) : num_scope.
Notation "x - y" := (sub x y) : num_scope.
Notation "x * y" := (mul x y) : num_scope.
Notation "x / y" := (div x y) : num_scope.
Notation "x <? y" := (lt x y) : num_scope.
Notation "x <=? y" := (le x y) : num_scope.
Notation "x >? y" := (gt x y) (at level 70) : num_scope.
Notation "x >=? y" := (ge x y) (at level 70) : num_scope.

(** Integer and decimal literals. *)
Definition nz (z : Z) : num := Fin (inject_Z z).
Definition nq (a : Z) (b : positive) : num := Fin (a # b).

Coercion nz : Z >-> num.

Local Open Scope num_scope.

(* ================================================================== *)
(** * utils/kalmanFilter.js *)
(* ================================================================== *)

(** ** KalmanFilter1D *)

Record KalmanFilter1D : Type := mkKalman {
  kf_Q : num;          (* process noise covariance *)
  kf_R : num;          (* measurement noise covariance *)
  kf_x : option num;   (* state estimate, [null] before the first call *)
  kf_P : num;          (* estimation error covariance *)
  kf_K : num           (* Kalman gain *)
}.

Module KalmanFilter1D.

(** [new KalmanFilter1D({Q, R})]; a missing or falsy option falls back to
    the default ([options.Q || 3], [options.R || 0.01]). *)
Definition constructor (optQ optR : option num) : KalmanFilter1D :=
  {| kf_Q := or_else (of_undefined optQ) 3%Z;
     kf_R := or_else (of_undefined optR) (nq 1 100);
     kf_x := None;
     kf_P := 1%Z;
     kf_K := 0%Z |}.

Definition filter (measurement : num) (f : KalmanFilter1D)
  : num * KalmanFilter1D :=
  match kf_x f with
  | None =>
      (measurement,
       {| kf_Q := kf_Q f; kf_R := kf_R f; kf_x := Some measurement;
          kf_P := kf_P f; kf_K := kf_K f |})
  | Some x =>
      let x_pred := x in
      let P_pred := kf_P f + kf_Q f in
      let K := P_pred / (P_pred + kf_R f) in
      let x' := x_pred + K * (measurement - x_pred) in
      let P' := (1%Z - K) * P_pred in
      (x',
       {| kf_Q := kf_Q f; kf_R := kf_R f; kf_x := Some x';
          kf_P := P'; kf_K := K |})
  end.

Definition adjustParameters (accuracy : num) (f : KalmanFilter1D)
  : KalmanFilter1D :=
  {| kf_Q := kf_Q f;
     kf_R := JS.max (nq 1 1000) (accuracy / 20%Z);
     kf_x := kf_x f; kf_P := kf_P f; kf_K := kf_K f |}.

Definition reset (f : KalmanFilter1D) : KalmanFilter1D :=
  {| kf_Q := kf_Q f; kf_R := kf_R f;
     kf_x := None; kf_P := 1%Z; kf_K := 0%Z |}.

(** [this.latFilter.Q = q] *)
Definition set_Q (q : num) (f : KalmanFilter1D) : KalmanFilter1D :=
  {| kf_Q := q; kf_R := kf_R f;
     kf_x := kf_x f; kf_P := kf_P f; kf_K := kf_K f |}.

End KalmanFilter1D.

(** ** WeightedGPSFilter *)

Record Reading : Type := mkReading {
  rd_lat : num;
  rd_lon : num;
  rd_accuracy : num;
  rd_timestamp : num
}.

Record WeightedResult : Type := mkWeightedResult {
  wr_lat : num;
  wr_lon : num;
  wr_accuracy : num
}.

Record WeightedGPSFilter : Type := mkWeighted {
  wf_windowSize : nat;
  wf_readings : list Reading
}.

Module WeightedGPSFilter.

Definition constructor (windowSize : nat) : WeightedGPSFilter :=
  {| wf_windowSize := windowSize; wf_readings := [] |}.

Definition getAverageAccuracy (f : WeightedGPSFilter) : num :=
  match wf_readings f with
  | [] => 0%Z
  | rs =>
      let sum := fold_left (fun acc r => acc + rd_accuracy r) rs (nz 0) in
      sum / nz (Z.of_nat (List.length rs))
  end.

(** The accumulators of the [forEach] loop:
    (totalWeight, weightedLat, weightedLon). *)
Definition accumulate (acc : num * num * num) (reading : Reading)
  : num * num * num :=
  let '(totalWeight, weightedLat, weightedLon) := acc in
  let weight := 1%Z / (rd_accuracy reading * rd_accuracy reading) in
  (totalWeight + weight,
   weightedLat + rd_lat reading * weight,
   weightedLon + rd_lon reading * weight).

Definition getWeightedAverage (f : WeightedGPSFilter)
  : option WeightedResult :=
  match wf_readings f with
  | [] => None
  | rs =>
      let '(totalWeight, weightedLat, weightedLon) :=
        fold_left accumulate rs (nz 0, nz 0, nz 0) in
      Some {| wr_lat := weightedLat / totalWeight;
              wr_lon := weightedLon / totalWeight;
              wr_accuracy := getAverageAccuracy f |}
  end.

(** [push] then, when the window is exceeded, [shift]. *)
Definition addReading (reading : Reading) (f : WeightedGPSFilter)
  : option WeightedResult * WeightedGPSFilter :=
  let pushed := wf_readings f ++ [reading] in
  let kept :=
    if (wf_windowSize f <? List.length pushed)%nat then tl pushed else pushed in
  let f' := {| wf_windowSize := wf_windowSize f; wf_readings := kept |} in
  (getWeightedAverage f', f').

Definition reset (f : WeightedGPSFilter) : WeightedGPSFilter :=
  {| wf_windowSize := wf_windowSize f; wf_readings := [] |}.

End WeightedGPSFilter.

(* ================================================================== *)
(** * The transcendental functions of [Math] *)
(* ================================================================== *)

(** [Math.sin], [Math.cos], [Math.sqrt], [Math.atan2], [Math.exp] and
    [Math.PI] are implementation-approximated by the language standard.
    The code is embedded over any implementation of them; the theorems hold
    for every one.  [RefMath] below is a rational implementation with which
    concrete scenarios are evaluated. *)
Record MathLib : Type := mkMath {
  Math_PI : num;
  Math_sin : num -> num;
  Math_cos : num -> num;
  Math_sqrt : num -> num;
  Math_atan2 : num -> num -> num;
  Math_exp : num -> num
}.

(** [arr.push(x)] followed by [if (arr.length > size) arr.shift()]. *)
Definition push_bounded {A : Type} (size : nat) (arr : list A) (x : A)
  : list A :=
  let pushed := arr ++ [x] in
  if (size <? List.length pushed)%nat then tl pushed else pushed.

(** [arr[arr.length - 1]] *)
Definition last_of {A : Type} (arr : list A) : option A :=
  match rev arr with
  | x :: _ => Some x
  | [] => None
  end.

(* ================================================================== *)
(** * utils/kalmanFilter.js: the two-dimensional filter *)
(* ================================================================== *)

(** The class [KalmanFilter], kept by the file for backward
    compatibility.  Its arguments are numbers: the branch that returns
    the arguments unchanged when one of them is not of type number is
    outside the embedding. *)
Record KalmanFilter : Type := mkKalmanFilter {
  kl_latFilter : KalmanFilter1D;
  kl_lonFilter : KalmanFilter1D;
  kl_lat : num;
  kl_lng : num;
  kl_variance : num;
  kl_lastTimestamp : num;
  kl_lastSpeed : num;
  kl_speedVariance : num;
  kl_Q : num;
  kl_R_scale : num;
  kl_maxSpeed : num;
  kl_maxAcceleration : num;
  kl_minVariance : num
}.

(** The object [{lat, lng, accuracy}] that [update] returns. *)
Record FilteredFix : Type := mkFilteredFix {
  ff_lat : num;
  ff_lng : num;
  ff_accuracy : num
}.

Module KalmanFilter.

Definition constructor : KalmanFilter :=
  {| kl_latFilter :=
       KalmanFilter1D.constructor (Some (nz 3)) (Some (nq 1 100));
     kl_lonFilter :=
       KalmanFilter1D.constructor (Some (nz 3)) (Some (nq 1 100));
     kl_lat := 0%Z;
     kl_lng := 0%Z;
     kl_variance := 100%Z;
     kl_lastTimestamp := 0%Z;
     kl_lastSpeed := 0%Z;
     kl_speedVariance := 1%Z;
     kl_Q := nq 1 10000;
     kl_R_scale := nq 25 1000;
     kl_maxSpeed := 18%Z;
     kl_maxAcceleration := nq 25 10;
     kl_minVariance := 10%Z |}.

(** [a === 0] *)
Definition is_zero (a : num) : bool :=
  match a with
  | Fin q => Qeq_bool q 0
  | _ => false
  end.

Section WithMath.
Variable Math : MathLib.

Definition calculateDistance (lat2 lng2 : num) (f : KalmanFilter) : num :=
  let R := nz 6371000 in
  let phi1 := (kl_lat f * Math_PI Math) / 180%Z in
  let phi2 := (lat2 * Math_PI Math) / 180%Z in
  let dphi := ((lat2 - kl_lat f) * Math_PI Math) / 180%Z in
  let dlambda := ((lng2 - kl_lng f) * Math_PI Math) / 180%Z in
  let a :=
    Math_sin Math (dphi / 2%Z) * Math_sin Math (dphi / 2%Z)
    + Math_cos Math phi1 * Math_cos Math phi2
      * Math_sin Math (dlambda / 2%Z) * Math_sin Math (dlambda / 2%Z) in
  let c :=
    2%Z * Math_atan2 Math (Math_sqrt Math a) (Math_sqrt Math (1%Z - a)) in
  R * c.

(** The same computation under its second name. *)
Definition calculateDistanceToPoint (lat2 lng2 : num) (f : KalmanFilter)
  : num :=
  let R := nz 6371000 in
  let phi1 := (kl_lat f * Math_PI Math) / 180%Z in
  let phi2 := (lat2 * Math_PI Math) / 180%Z in
  let dphi := ((lat2 - kl_lat f) * Math_PI Math) / 180%Z in
  let dlambda := ((lng2 - kl_lng f) * Math_PI Math) / 180%Z in
  let a :=
    Math_sin Math (dphi / 2%Z) * Math_sin Math (dphi / 2%Z)
    + Math_cos Math phi1 * Math_cos Math phi2
      * Math_sin Math (dlambda / 2%Z) * Math_sin Math (dlambda / 2%Z) in
  let c :=
    2%Z * Math_atan2 Math (Math_sqrt Math a) (Math_sqrt Math (1%Z - a)) in
  R * c.

Definition calculateMaxDistance (timeDiff : num) (f : KalmanFilter) : num :=
  let maxSpeedIncrease := kl_maxAcceleration f * timeDiff in
  let maxPossibleSpeed :=
    JS.min (kl_maxSpeed f) (kl_lastSpeed f + maxSpeedIncrease) in
  JS.min (kl_maxSpeed f * timeDiff)
    ((kl_lastSpeed f + maxPossibleSpeed) * nq 5 10 * timeDiff).

(** [timestamp] is the fourth argument, [Date.now()] by default. *)
Definition update (lat lng accuracy timestamp : num) (f : KalmanFilter)
  : FilteredFix * KalmanFilter :=
  if is_zero (kl_lat f) && is_zero (kl_lng f) then
    ({| ff_lat := lat; ff_lng := lng; ff_accuracy := accuracy |},
     {| kl_latFilter := kl_latFilter f;
        kl_lonFilter := kl_lonFilter f;
        kl_lat := lat;
        kl_lng := lng;
        kl_variance := JS.max (accuracy * accuracy) (kl_minVariance f);
        kl_lastTimestamp := timestamp;
        kl_lastSpeed := kl_lastSpeed f;
        kl_speedVariance := kl_speedVariance f;
        kl_Q := kl_Q f;
        kl_R_scale := kl_R_scale f;
        kl_maxSpeed := kl_maxSpeed f;
        kl_maxAcceleration := kl_maxAcceleration f;
        kl_minVariance := kl_minVariance f |})
  else
    let latF := KalmanFilter1D.adjustParameters accuracy (kl_latFilter f) in
    let lonF := KalmanFilter1D.adjustParameters accuracy (kl_lonFilter f) in
    let timeDiff :=
      JS.max ((timestamp - kl_lastTimestamp f) / 1000%Z) (nq 1 1000) in
    let travelled := calculateDistance lat lng f in
    let currentSpeed := travelled / timeDiff in
    let acceleration :=
      JS.abs (currentSpeed - kl_lastSpeed f) / timeDiff in
    let isReasonableAcceleration :=
      acceleration <=? kl_maxAcceleration f in
    let q :=
      if currentSpeed <? nq 5 10 then nq 1 10
      else if currentSpeed >? 10%Z then nz 3
      else nz 1 in
    let '(filteredLat, latF') :=
      KalmanFilter1D.filter lat (KalmanFilter1D.set_Q q latF) in
    let '(filteredLon, lonF') :=
      KalmanFilter1D.filter lng (KalmanFilter1D.set_Q q lonF) in
    let filteredDistance :=
      calculateDistanceToPoint filteredLat filteredLon f in
    let filteredSpeed := filteredDistance / timeDiff in
    if (filteredSpeed >? kl_maxSpeed f) && negb isReasonableAcceleration
    then
      ({| ff_lat := kl_lat f;
          ff_lng := kl_lng f;
          ff_accuracy := Math_sqrt Math (kl_variance f) |},
       {| kl_latFilter := latF';
          kl_lonFilter := lonF';
          kl_lat := kl_lat f;
          kl_lng := kl_lng f;
          kl_variance := kl_variance f;
          kl_lastTimestamp := kl_lastTimestamp f;
          kl_lastSpeed := kl_lastSpeed f;
          kl_speedVariance := kl_speedVariance f;
          kl_Q := kl_Q f;
          kl_R_scale := kl_R_scale f;
          kl_maxSpeed := kl_maxSpeed f;
          kl_maxAcceleration := kl_maxAcceleration f;
          kl_minVariance := kl_minVariance f |})
    else
      let variance :=
        JS.max ((kf_P latF' + kf_P lonF') / 2%Z * accuracy * accuracy)
          (kl_minVariance f) in
      ({| ff_lat := filteredLat;
          ff_lng := filteredLon;
          ff_accuracy := Math_sqrt Math variance |},
       {| kl_latFilter := latF';
          kl_lonFilter := lonF';
          kl_lat := filteredLat;
          kl_lng := filteredLon;
          kl_variance := variance;
          kl_lastTimestamp := timestamp;
          kl_lastSpeed :=
            if isReasonableAcceleration then currentSpeed
            else kl_lastSpeed f;
          kl_speedVariance := kl_speedVariance f;
          kl_Q := kl_Q f;
          kl_R_scale := kl_R_scale f;
          kl_maxSpeed := kl_maxSpeed f;
          kl_maxAcceleration := kl_maxAcceleration f;
          kl_minVariance := kl_minVariance f |}).

End WithMath.

Definition reset (f : KalmanFilter) : KalmanFilter :=
  {| kl_latFilter := KalmanFilter1D.reset (kl_latFilter f);
     kl_lonFilter := KalmanFilter1D.reset (kl_lonFilter f);
     kl_lat := 0%Z;
     kl_lng := 0%Z;
     kl_variance := 100%Z;
     kl_lastTimestamp := 0%Z;
     kl_lastSpeed := 0%Z;
     kl_speedVariance := 1%Z;
     kl_Q := kl_Q f;
     kl_R_scale := kl_R_scale f;
     kl_maxSpeed := kl_maxSpeed f;
     kl_maxAcceleration := kl_maxAcceleration f;
     kl_minVariance := kl_minVariance f |}.

End KalmanFilter.

(* ================================================================== *)
(** * utils/trajectoryPrediction.js *)
(* ================================================================== *)

(** ** LinearRegression *)

Record Point : Type := mkPoint { pt_x : num; pt_y : num }.

Record LinearRegression : Type := mkRegression {
  lr_slope : num;
  lr_intercept : num;
  lr_trained : bool
}.

Module LinearRegression.

Definition constructor : LinearRegression :=
  {| lr_slope := 0%Z; lr_intercept := 0%Z; lr_trained := false |}.

(** The loop accumulators (sumX, sumY, sumXY, sumXX). *)
Definition sums (acc : num * num * num * num) (point : Point)
  : num * num * num * num :=
  let '(sumX, sumY, sumXY, sumXX) := acc in
  (sumX + pt_x point,
   sumY + pt_y point,
   sumXY + pt_x point * pt_y point,
   sumXX + pt_x point * pt_x point).

Definition train (data : list Point) (m : LinearRegression)
  : LinearRegression :=
  if (List.length data <? 2)%nat then m
  else
    let n := nz (Z.of_nat (List.length data)) in
    let '(sumX, sumY, sumXY, sumXX) :=
      fold_left sums data (nz 0, nz 0, nz 0, nz 0) in
    let slope := (n * sumXY - sumX * sumY) / (n * sumXX - sumX * sumX) in
    {| lr_slope := slope;
       lr_intercept := (sumY - slope * sumX) / n;
       lr_trained := true |}.

(** [null] when the model has not been trained. *)
Definition predict (x : num) (m : LinearRegression) : option num :=
  if lr_trained m then Some (lr_slope m * x + lr_intercept m) else None.

End LinearRegression.

(** ** MovementPatternAnalyzer *)

(** A history entry [{lat, lon, timestamp, speed, heading}]; a field that
    may be [undefined] is an [option]. *)
Record HistoryPosition : Type := mkHistoryPosition {
  hp_lat : option num;
  hp_lon : option num;
  hp_timestamp : num;
  hp_speed : option num;
  hp_heading : option num
}.

Record Velocity : Type := mkVelocity {
  vel_lat : num;
  vel_lon : num;
  vel_timestamp : num
}.

Record PredictedPosition : Type := mkPredicted {
  pp_lat : num;
  pp_lon : num;
  pp_timestamp : num;
  pp_confidence : num;
  pp_isPredicted : bool
}.

Record MovementPatternAnalyzer : Type := mkAnalyzer {
  pa_historySize : nat;
  pa_positionHistory : list HistoryPosition;
  pa_velocityHistory : list Velocity;
  pa_accelerationHistory : list Velocity;
  pa_latModel : LinearRegression;
  pa_lonModel : LinearRegression;
  pa_speedModel : LinearRegression;
  pa_headingModel : LinearRegression
}.

Module MovementPatternAnalyzer.

Definition constructor (historySize : nat) : MovementPatternAnalyzer :=
  {| pa_historySize := historySize;
     pa_positionHistory := [];
     pa_velocityHistory := [];
     pa_accelerationHistory := [];
     pa_latModel := LinearRegression.constructor;
     pa_lonModel := LinearRegression.constructor;
     pa_speedModel := LinearRegression.constructor;
     pa_headingModel := LinearRegression.constructor |}.

Definition set_histories (ph : list HistoryPosition) (vh ah : list Velocity)
  (a : MovementPatternAnalyzer) : MovementPatternAnalyzer :=
  {| pa_historySize := pa_historySize a;
     pa_positionHistory := ph;
     pa_velocityHistory := vh;
     pa_accelerationHistory := ah;
     pa_latModel := pa_latModel a;
     pa_lonModel := pa_lonModel a;
     pa_speedModel := pa_speedModel a;
     pa_headingModel := pa_headingModel a |}.

Definition set_models (latM lonM speedM headingM : LinearRegression)
  (a : MovementPatternAnalyzer) : MovementPatternAnalyzer :=
  {| pa_historySize := pa_historySize a;
     pa_positionHistory := pa_positionHistory a;
     pa_velocityHistory := pa_velocityHistory a;
     pa_accelerationHistory := pa_accelerationHistory a;
     pa_latModel := latM;
     pa_lonModel := lonM;
     pa_speedModel := speedM;
     pa_headingModel := headingM |}.

Definition updateVelocityAndAcceleration (a : MovementPatternAnalyzer)
  : MovementPatternAnalyzer :=
  match rev (pa_positionHistory a) with
  | current :: previous :: _ =>
      let dt := (hp_timestamp current - hp_timestamp previous) / 1000%Z in
      if dt <=? 0%Z then a
      else
        let latVel :=
          (of_undefined (hp_lat current) - of_undefined (hp_lat previous))
          / dt in
        let lonVel :=
          (of_undefined (hp_lon current) - of_undefined (hp_lon previous))
          / dt in
        let velocity :=
          {| vel_lat := latVel; vel_lon := lonVel;
             vel_timestamp := hp_timestamp current |} in
        let vh :=
          push_bounded (pa_historySize a) (pa_velocityHistory a) velocity in
        let ah :=
          match rev vh with
          | currVel :: prevVel :: _ =>
              let accDt :=
                (vel_timestamp currVel - vel_timestamp prevVel) / 1000%Z in
              if accDt >? 0%Z then
                push_bounded (pa_historySize a) (pa_accelerationHistory a)
                  {| vel_lat := (vel_lat currVel - vel_lat prevVel) / accDt;
                     vel_lon := (vel_lon currVel - vel_lon prevVel) / accDt;
                     vel_timestamp := vel_timestamp currVel |}
              else pa_accelerationHistory a
          | _ => pa_accelerationHistory a
          end in
        set_histories (pa_positionHistory a) vh ah a
  | _ => a
  end.

(** The training sets built by the loop of [trainModels]. *)
Definition relativeTime (baseTime : num) (pos : HistoryPosition) : num :=
  (hp_timestamp pos - baseTime) / 1000%Z.

Definition optional_points (baseTime : num)
  (field : HistoryPosition -> option num) (h : list HistoryPosition)
  : list Point :=
  flat_map
    (fun pos =>
       match field pos with
       | Some v => [ {| pt_x := relativeTime baseTime pos; pt_y := v |} ]
       | None => []
       end) h.

Definition trainModels (a : MovementPatternAnalyzer)
  : MovementPatternAnalyzer :=
  if (List.length (pa_positionHistory a) <? 3)%nat then a
  else
    match pa_positionHistory a with
    | [] => a
    | first :: _ =>
        let baseTime := hp_timestamp first in
        let h := pa_positionHistory a in
        let latData :=
          map (fun pos => {| pt_x := relativeTime baseTime pos;
                             pt_y := of_undefined (hp_lat pos) |}) h in
        let lonData :=
          map (fun pos => {| pt_x := relativeTime baseTime pos;
                             pt_y := of_undefined (hp_lon pos) |}) h in
        let speedData := optional_points baseTime hp_speed h in
        let headingData := optional_points baseTime hp_heading h in
        set_models
          (LinearRegression.train latData (pa_latModel a))
          (LinearRegression.train lonData (pa_lonModel a))
          (if (2 <=? List.length speedData)%nat
           then LinearRegression.train speedData (pa_speedModel a)
           else pa_speedModel a)
          (if (2 <=? List.length headingData)%nat
           then LinearRegression.train headingData (pa_headingModel a)
           else pa_headingModel a)
          a
    end.

Definition addPosition (position : HistoryPosition)
  (a : MovementPatternAnalyzer) : MovementPatternAnalyzer :=
  let a1 :=
    set_histories
      (push_bounded (pa_historySize a) (pa_positionHistory a) position)
      (pa_velocityHistory a) (pa_accelerationHistory a) a in
  trainModels (updateVelocityAndAcceleration a1).

Section WithMath.
Variable Math : MathLib.

Definition predictPosition (futureTimestamp : num)
  (a : MovementPatternAnalyzer) : option PredictedPosition :=
  if (List.length (pa_positionHistory a) <? 3)%nat then None
  else
    match pa_positionHistory a, last_of (pa_positionHistory a) with
    | first :: _, Some lastPosition =>
        let baseTime := hp_timestamp first in
        let relativeFutureTime := (futureTimestamp - baseTime) / 1000%Z in
        match LinearRegression.predict relativeFutureTime (pa_latModel a),
              LinearRegression.predict relativeFutureTime (pa_lonModel a) with
        | Some predictedLat, Some predictedLon =>
            let timeGap :=
              (futureTimestamp - hp_timestamp lastPosition) / 1000%Z in
            let baseConfidence := nq 9 10 in
            let timeDecay := Math_exp Math (neg timeGap / 30%Z) in
            let confidence := baseConfidence * timeDecay in
            Some {| pp_lat := predictedLat;
                    pp_lon := predictedLon;
                    pp_timestamp := futureTimestamp;
                    pp_confidence := JS.max (nq 1 10) confidence;
                    pp_isPredicted := true |}
        | _, _ => None
        end
    | _, _ => None
    end.

End WithMath.

Definition reset (a : MovementPatternAnalyzer) : MovementPatternAnalyzer :=
  {| pa_historySize := pa_historySize a;
     pa_positionHistory := [];
     pa_velocityHistory := [];
     pa_accelerationHistory := [];
     pa_latModel := LinearRegression.constructor;
     pa_lonModel := LinearRegression.constructor;
     pa_speedModel := LinearRegression.constructor;
     pa_headingModel := LinearRegression.constructor |}.

End MovementPatternAnalyzer.

(** ** GPSGapFiller *)

(** The argument of [processPosition]: the fields it reads. *)
Record GapInput : Type := mkGapInput {
  gi_lat : option num;
  gi_lon : option num;
  gi_coords_latitude : option num;   (* [position.coords?.latitude] *)
  gi_coords_longitude : option num;  (* [position.coords?.longitude] *)
  gi_timestamp : option num;
  gi_speed : option num;
  gi_heading : option num;
  gi_isPredicted : bool
}.

Record GPSGapFiller : Type := mkGapFiller {
  gf_patternAnalyzer : MovementPatternAnalyzer;
  gf_isInGap : bool;
  gf_gapStartTime : num;
  gf_lastKnownPosition : option GapInput;
  gf_maxGapDuration : num
}.

Module GPSGapFiller.

Definition constructor : GPSGapFiller :=
  {| gf_patternAnalyzer := MovementPatternAnalyzer.constructor 20;
     gf_isInGap := false;
     gf_gapStartTime := 0%Z;
     gf_lastKnownPosition := None;
     gf_maxGapDuration := 60000%Z |}.

(** [a || b] where [a] and [b] may be [undefined]. *)
Definition or_undefined (a b : option num) : option num :=
  match a with
  | Some v => if truthy v then a else b
  | None => b
  end.

Section WithMath.
Variable Math : MathLib.

(** [now] is the value of [Date.now()]. *)
Definition fillGap (now : num) (g : GPSGapFiller)
  : option PredictedPosition :=
  let gapDuration := now - gf_gapStartTime g in
  if gapDuration >? gf_maxGapDuration g then None
  else
    match MovementPatternAnalyzer.predictPosition Math now
            (gf_patternAnalyzer g) with
    | Some predicted =>
        if pp_confidence predicted >? nq 3 10 then Some predicted else None
    | None => None
    end.

(** Returns the position handed in (left) or the result of [fillGap]
    (right). *)
Definition processPosition (now : num) (position : option GapInput)
  (g : GPSGapFiller)
  : option (GapInput + PredictedPosition) * GPSGapFiller :=
  match position with
  | Some p =>
      if negb (gi_isPredicted p) then
        let entry :=
          {| hp_lat := or_undefined (gi_lat p) (gi_coords_latitude p);
             hp_lon := or_undefined (gi_lon p) (gi_coords_longitude p);
             hp_timestamp :=
               or_else (of_undefined (gi_timestamp p)) now;
             hp_speed := gi_speed p;
             hp_heading := gi_heading p |} in
        (Some (inl p),
         {| gf_patternAnalyzer :=
              MovementPatternAnalyzer.addPosition entry
                (gf_patternAnalyzer g);
            gf_isInGap := false;
            gf_gapStartTime := gf_gapStartTime g;
            gf_lastKnownPosition := Some p;
            gf_maxGapDuration := gf_maxGapDuration g |})
      else
        let g1 :=
          if gf_isInGap g then g
          else {| gf_patternAnalyzer := gf_patternAnalyzer g;
                  gf_isInGap := true;
                  gf_gapStartTime := now;
                  gf_lastKnownPosition := gf_lastKnownPosition g;
                  gf_maxGapDuration := gf_maxGapDuration g |} in
        (option_map inr (fillGap now g1), g1)
  | None =>
      let g1 :=
        if gf_isInGap g then g
        else {| gf_patternAnalyzer := gf_patternAnalyzer g;
                gf_isInGap := true;
                gf_gapStartTime := now;
                gf_lastKnownPosition := gf_lastKnownPosition g;
                gf_maxGapDuration := gf_maxGapDuration g |} in
      (option_map inr (fillGap now g1), g1)
  end.

End WithMath.

Definition reset (g : GPSGapFiller) : GPSGapFiller :=
  {| gf_patternAnalyzer :=
       MovementPatternAnalyzer.reset (gf_patternAnalyzer g);
     gf_isInGap := false;
     gf_gapStartTime := 0%Z;
     gf_lastKnownPosition := None;
     gf_maxGapDuration := gf_maxGapDuration g |}.

End GPSGapFiller.

(* ================================================================== *)
(** * utils/sensorFusion.js: the dead-reckoning record of the last fix *)
(* ================================================================== *)

Record DeadReckoning : Type := mkDeadReckoning {
  dr_lastKnownPosition : option (num * num * num);  (* lat, lon, timestamp *)
  dr_heading : option num;                          (* [null] is [None] *)
  dr_stepLength : num;
  dr_stepsSinceLastGPS : num;
  dr_confidenceDecayRate : num;
  dr_currentConfidence : num
}.

(** The result of [estimatePosition]; [isEstimated] is set on a
    dead-reckoned position only. *)
Record EstimatedPosition : Type := mkEstimated {
  ep_lat : num;
  ep_lon : num;
  ep_confidence : num;
  ep_isEstimated : bool
}.

Module DeadReckoning.

Definition constructor : DeadReckoning :=
  {| dr_lastKnownPosition := None;
     dr_heading := Some (nz 0);
     dr_stepLength := nq 75 100;
     dr_stepsSinceLastGPS := 0%Z;
     dr_confidenceDecayRate := nq 95 100;
     dr_currentConfidence := 1%Z |}.

(** [heading] is [Some h] when the caller passes a value other than
    [undefined]; the tracker always passes [null], that is [Some None]. *)
Definition updateGPSPosition (now lat lon : num)
  (heading : option (option num)) (d : DeadReckoning) : DeadReckoning :=
  {| dr_lastKnownPosition := Some (lat, lon, now);
     dr_heading := match heading with Some h => h | None => dr_heading d end;
     dr_stepLength := dr_stepLength d;
     dr_stepsSinceLastGPS := 0%Z;
     dr_confidenceDecayRate := dr_confidenceDecayRate d;
     dr_currentConfidence := 1%Z |}.

Definition reset (d : DeadReckoning) : DeadReckoning :=
  {| dr_lastKnownPosition := None;
     dr_heading := dr_heading d;
     dr_stepLength := dr_stepLength d;
     dr_stepsSinceLastGPS := 0%Z;
     dr_confidenceDecayRate := dr_confidenceDecayRate d;
     dr_currentConfidence := 1%Z |}.

Definition updateHeading (heading : option num) (d : DeadReckoning)
  : DeadReckoning :=
  {| dr_lastKnownPosition := dr_lastKnownPosition d;
     dr_heading := heading;
     dr_stepLength := dr_stepLength d;
     dr_stepsSinceLastGPS := dr_stepsSinceLastGPS d;
     dr_confidenceDecayRate := dr_confidenceDecayRate d;
     dr_currentConfidence := dr_currentConfidence d |}.

Definition setStepLength (lengthMeters : num) (d : DeadReckoning)
  : DeadReckoning :=
  {| dr_lastKnownPosition := dr_lastKnownPosition d;
     dr_heading := dr_heading d;
     dr_stepLength := lengthMeters;
     dr_stepsSinceLastGPS := dr_stepsSinceLastGPS d;
     dr_confidenceDecayRate := dr_confidenceDecayRate d;
     dr_currentConfidence := dr_currentConfidence d |}.

(** ToNumber of the heading: [null] is 0. *)
Definition heading_number (d : DeadReckoning) : num :=
  match dr_heading d with
  | Some h => h
  | None => nz 0
  end.

Section WithMath.
Variable Math : MathLib.

(** [Math.pow], which [MathLib] does not hold. *)
Variable Math_pow : num -> num -> num.

Definition estimatePosition (stepCount : num) (d : DeadReckoning)
  : option EstimatedPosition * DeadReckoning :=
  match dr_lastKnownPosition d with
  | None => (None, d)
  | Some (lat, lon, _) =>
      let stepsDelta := stepCount - dr_stepsSinceLastGPS d in
      if stepsDelta <=? 0%Z then
        (Some {| ep_lat := lat;
                 ep_lon := lon;
                 ep_confidence := dr_currentConfidence d;
                 ep_isEstimated := false |},
         d)
      else
        let travelled := stepsDelta * dr_stepLength d in
        let headingRad := heading_number d * Math_PI Math / 180%Z in
        let R := nz 6371000 in
        let latRad := lat * Math_PI Math / 180%Z in
        let newLat :=
          lat
          + (travelled * Math_cos Math headingRad) / R
            * (180%Z / Math_PI Math) in
        let newLon :=
          lon
          + (travelled * Math_sin Math headingRad)
            / (R * Math_cos Math latRad)
            * (180%Z / Math_PI Math) in
        let confidence :=
          dr_currentConfidence d
          * Math_pow (dr_confidenceDecayRate d) stepsDelta in
        (Some {| ep_lat := newLat;
                 ep_lon := newLon;
                 ep_confidence := confidence;
                 ep_isEstimated := true |},
         {| dr_lastKnownPosition := dr_lastKnownPosition d;
            dr_heading := dr_heading d;
            dr_stepLength := dr_stepLength d;
            dr_stepsSinceLastGPS := stepCount;
            dr_confidenceDecayRate := dr_confidenceDecayRate d;
            dr_currentConfidence := confidence |})
  end.

End WithMath.

End DeadReckoning.

(* ================================================================== *)
(** * utils/sensorFusion.js: the step counter and the classifier *)
(* ================================================================== *)

(** ** StepCounter *)

(** An accelerometer reading [{x, y, z}]. *)
Record Acceleration : Type := mkAcceleration {
  ac_x : num;
  ac_y : num;
  ac_z : num
}.

Record StepCounter : Type := mkStepCounter {
  sc_lastAcceleration : option num;   (* [null] is [None] *)
  sc_peakCount : num;
  sc_stepCount : num;
  sc_lastPeakTime : num;
  sc_threshold : num;
  sc_minTimeBetweenSteps : num;
  sc_accelerationHistory : list num;
  sc_historySize : nat
}.

Module StepCounter.

Definition constructor : StepCounter :=
  {| sc_lastAcceleration := None;
     sc_peakCount := 0%Z;
     sc_stepCount := 0%Z;
     sc_lastPeakTime := 0%Z;
     sc_threshold := 12%Z;
     sc_minTimeBetweenSteps := 250%Z;
     sc_accelerationHistory := [];
     sc_historySize := 10 |}.

Section WithMath.
Variable Math : MathLib.

Definition magnitudeOf (acceleration : Acceleration) : num :=
  Math_sqrt Math
    (ac_x acceleration * ac_x acceleration
     + ac_y acceleration * ac_y acceleration
     + ac_z acceleration * ac_z acceleration).

(** [now] is the value of [Date.now()].  The boolean is the value
    returned: a step was detected. *)
Definition processAcceleration (now : num) (acceleration : Acceleration)
  (s : StepCounter) : bool * StepCounter :=
  let magnitude := magnitudeOf acceleration in
  let history :=
    push_bounded (sc_historySize s) (sc_accelerationHistory s) magnitude in
  let timeSinceLastPeak := now - sc_lastPeakTime s in
  let crossed :=
    match sc_lastAcceleration s with
    | Some lastAcceleration =>
        (magnitude >? sc_threshold s)
        && (lastAcceleration <=? sc_threshold s)
        && (timeSinceLastPeak >? sc_minTimeBetweenSteps s)
    | None => false
    end in
  if crossed then
    (true,
     {| sc_lastAcceleration := Some magnitude;
        sc_peakCount := sc_peakCount s;
        sc_stepCount := sc_stepCount s + 1%Z;
        sc_lastPeakTime := now;
        sc_threshold := sc_threshold s;
        sc_minTimeBetweenSteps := sc_minTimeBetweenSteps s;
        sc_accelerationHistory := history;
        sc_historySize := sc_historySize s |})
  else
    (false,
     {| sc_lastAcceleration := Some magnitude;
        sc_peakCount := sc_peakCount s;
        sc_stepCount := sc_stepCount s;
        sc_lastPeakTime := sc_lastPeakTime s;
        sc_threshold := sc_threshold s;
        sc_minTimeBetweenSteps := sc_minTimeBetweenSteps s;
        sc_accelerationHistory := history;
        sc_historySize := sc_historySize s |}).

End WithMath.

Definition getStepCount (s : StepCounter) : num := sc_stepCount s.

Definition reset (s : StepCounter) : StepCounter :=
  {| sc_lastAcceleration := None;
     sc_peakCount := sc_peakCount s;
     sc_stepCount := 0%Z;
     sc_lastPeakTime := 0%Z;
     sc_threshold := sc_threshold s;
     sc_minTimeBetweenSteps := sc_minTimeBetweenSteps s;
     sc_accelerationHistory := [];
     sc_historySize := sc_historySize s |}.

End StepCounter.

(** ** ActivityClassifier *)

(** A gyroscope reading [{alpha, beta, gamma}]. *)
Record RotationRate : Type := mkRotationRate {
  rr_alpha : num;
  rr_beta : num;
  rr_gamma : num
}.

(** The argument of [addSample]: a member that is missing or [null] is
    [None]. *)
Record Motion : Type := mkMotion {
  mo_acceleration : option Acceleration;
  mo_rotationRate : option RotationRate
}.

(** The buffers hold each reading with the time it was added at. *)
Record ActivityClassifier : Type := mkClassifier {
  cl_accelerationBuffer : list (Acceleration * num);
  cl_rotationBuffer : list (RotationRate * num);
  cl_bufferSize : nat;
  cl_sampleRate : num
}.

Record Features : Type := mkFeatures {
  ft_avgMagnitude : num;
  ft_variance : num;
  ft_peakFrequency : num;
  ft_avgRotation : num
}.

Record Classification : Type := mkClassification {
  cf_activity : string;
  cf_confidence : num
}.

Module ActivityClassifier.

Definition constructor : ActivityClassifier :=
  {| cl_accelerationBuffer := [];
     cl_rotationBuffer := [];
     cl_bufferSize := 50;
     cl_sampleRate := 20%Z |}.

(** [if (buffer.length > size) buffer.shift()] *)
Definition shift_over {A : Type} (size : nat) (buffer : list A) : list A :=
  if (size <? List.length buffer)%nat then tl buffer else buffer.

(** [now] is the value of [Date.now()]. *)
Definition addSample (now : num) (motion : Motion) (c : ActivityClassifier)
  : ActivityClassifier :=
  let accelerationBuffer :=
    match mo_acceleration motion with
    | Some acceleration => cl_accelerationBuffer c ++ [(acceleration, now)]
    | None => cl_accelerationBuffer c
    end in
  let rotationBuffer :=
    match mo_rotationRate motion with
    | Some rotationRate => cl_rotationBuffer c ++ [(rotationRate, now)]
    | None => cl_rotationBuffer c
    end in
  {| cl_accelerationBuffer :=
       shift_over (cl_bufferSize c) accelerationBuffer;
     cl_rotationBuffer := shift_over (cl_bufferSize c) rotationBuffer;
     cl_bufferSize := cl_bufferSize c;
     cl_sampleRate := cl_sampleRate c |}.

(** The loop of [extractFeatures] that counts the local maxima. *)
Fixpoint count_peaks (magnitudes : list num) : nat :=
  match magnitudes with
  | before :: ((m :: after :: _) as rest) =>
      ((if (m >? before) && (m >? after) then 1 else 0)
       + count_peaks rest)%nat
  | _ => 0%nat
  end.

Definition length_of {A : Type} (arr : list A) : num :=
  nz (Z.of_nat (List.length arr)).

Section WithMath.
Variable Math : MathLib.

(** [Math.pow], which [MathLib] does not hold. *)
Variable Math_pow : num -> num -> num.

Definition extractFeatures (c : ActivityClassifier) : Features :=
  let magnitudes :=
    map (fun a =>
           Math_sqrt Math
             (ac_x (fst a) * ac_x (fst a)
              + ac_y (fst a) * ac_y (fst a)
              + ac_z (fst a) * ac_z (fst a)))
      (cl_accelerationBuffer c) in
  let avgMagnitude :=
    fold_left (fun sum m => sum + m) magnitudes (nz 0)
    / length_of magnitudes in
  let variance :=
    fold_left (fun sum m => sum + Math_pow (m - avgMagnitude) 2%Z)
      magnitudes (nz 0)
    / length_of magnitudes in
  let peaks := nz (Z.of_nat (count_peaks magnitudes)) in
  let peakFrequency :=
    peaks / (length_of (cl_accelerationBuffer c) / cl_sampleRate c) in
  let avgRotation :=
    if (0 <? List.length (cl_rotationBuffer c))%nat then
      fold_left
        (fun sum r =>
           sum
           + Math_sqrt Math
               (rr_alpha (fst r) * rr_alpha (fst r)
                + rr_beta (fst r) * rr_beta (fst r)
                + rr_gamma (fst r) * rr_gamma (fst r)))
        (cl_rotationBuffer c) (nz 0)
      / length_of (cl_rotationBuffer c)
    else nz 0 in
  {| ft_avgMagnitude := avgMagnitude;
     ft_variance := variance;
     ft_peakFrequency := peakFrequency;
     ft_avgRotation := avgRotation |}.

Definition classifyActivity (c : ActivityClassifier) : Classification :=
  if (List.length (cl_accelerationBuffer c) <? 10)%nat then
    {| cf_activity := "unknown"; cf_confidence := 0%Z |}
  else
    let features := extractFeatures c in
    if ft_avgMagnitude features <? nq 105 10 then
      {| cf_activity := "stationary"; cf_confidence := nq 9 10 |}
    else if ft_peakFrequency features <? nq 15 10 then
      if ft_avgRotation features >? 20%Z then
        {| cf_activity := "cycle"; cf_confidence := nq 8 10 |}
      else {| cf_activity := "walk"; cf_confidence := nq 85 100 |}
    else if ft_peakFrequency features >? nq 25 10 then
      {| cf_activity := "run"; cf_confidence := nq 85 100 |}
    else if ft_variance features >? 5%Z then
      {| cf_activity := "run"; cf_confidence := nq 7 10 |}
    else {| cf_activity := "walk"; cf_confidence := nq 7 10 |}.

End WithMath.

Definition reset (c : ActivityClassifier) : ActivityClassifier :=
  {| cl_accelerationBuffer := [];
     cl_rotationBuffer := [];
     cl_bufferSize := cl_bufferSize c;
     cl_sampleRate := cl_sampleRate c |}.

End ActivityClassifier.

(** ** SensorFusionManager *)

(** The manager and the methods the tracker calls on it between motion
    events.  The motion listener and the step callback are not
    embedded. *)
Record SensorFusionManager : Type := mkSensorFusionManager {
  sf_stepCounter : StepCounter;
  sf_activityClassifier : ActivityClassifier;
  sf_deadReckoning : DeadReckoning;
  sf_isMotionAvailable : bool
}.

Module SensorFusionManager.

Definition constructor : SensorFusionManager :=
  {| sf_stepCounter := StepCounter.constructor;
     sf_activityClassifier := ActivityClassifier.constructor;
     sf_deadReckoning := DeadReckoning.constructor;
     sf_isMotionAvailable := false |}.

(** [now] is the value of [Date.now()]; [heading] is [Some h] when the
    caller passes a value other than [undefined]. *)
Definition updateGPSPosition (now lat lon : num)
  (heading : option (option num)) (m : SensorFusionManager)
  : SensorFusionManager :=
  {| sf_stepCounter := sf_stepCounter m;
     sf_activityClassifier := sf_activityClassifier m;
     sf_deadReckoning :=
       DeadReckoning.updateGPSPosition now lat lon heading
         (sf_deadReckoning m);
     sf_isMotionAvailable := sf_isMotionAvailable m |}.

Definition getStepCount (m : SensorFusionManager) : num :=
  StepCounter.getStepCount (sf_stepCounter m).

Section WithMath.
Variable Math : MathLib.
Variable Math_pow : num -> num -> num.

Definition getEstimatedPosition (m : SensorFusionManager)
  : option EstimatedPosition * SensorFusionManager :=
  let stepCount := StepCounter.getStepCount (sf_stepCounter m) in
  let '(estimated, d) :=
    DeadReckoning.estimatePosition Math Math_pow stepCount
      (sf_deadReckoning m) in
  (estimated,
   {| sf_stepCounter := sf_stepCounter m;
      sf_activityClassifier := sf_activityClassifier m;
      sf_deadReckoning := d;
      sf_isMotionAvailable := sf_isMotionAvailable m |}).

Definition getCurrentActivity (m : SensorFusionManager) : Classification :=
  ActivityClassifier.classifyActivity Math Math_pow
    (sf_activityClassifier m).

End WithMath.

Definition reset (m : SensorFusionManager) : SensorFusionManager :=
  {| sf_stepCounter := StepCounter.reset (sf_stepCounter m);
     sf_activityClassifier :=
       ActivityClassifier.reset (sf_activityClassifier m);
     sf_deadReckoning := DeadReckoning.reset (sf_deadReckoning m);
     sf_isMotionAvailable := sf_isMotionAvailable m |}.

End SensorFusionManager.

(* ================================================================== *)
(** * services/RunTracker.js *)
(* ================================================================== *)

(** ** Data *)

(** A position object as the location source delivers it and as the
    tracker stores it: every field may be missing. *)
Record RawCoords : Type := mkRawCoords {
  rc_latitude : option num;
  rc_longitude : option num;
  rc_accuracy : option num;
  rc_altitude : option num
}.

Record Position : Type := mkPosition {
  ps_latitude : option num;
  ps_longitude : option num;
  ps_accuracy : option num;
  ps_altitude : option num;
  ps_timestamp : option num;
  ps_coords : option RawCoords
}.

(** The canonical shape produced by [standardise]: the fields of the
    original object ([...pos]), a timestamp and a [coords] object. *)
Record Coords : Type := mkCoords {
  co_latitude : num;
  co_longitude : num;
  co_accuracy : num;
  co_altitude : option num
}.

Record StdPosition : Type := mkStdPosition {
  sp_rest : Position;
  sp_timestamp : num;
  sp_coords : Coords
}.

Record Elevation : Type := mkElevation {
  el_current : option num;
  el_gain : num;
  el_loss : num;
  el_lastAltitude : option num
}.

Record Split : Type := mkSplit {
  split_km : num;
  split_time : num;
  split_pace : num;
  split_isPartial : bool
}.

Inductive Event : Type :=
| DurationChange (duration : num)
| DistanceChange (distance : num)
| GoalReached (distance goal : num)
| StepsChange (steps : num)
| ElevationChange (elevation : Elevation)
| SplitRecorded (splits : list Split)
| StatusChange (isTracking isPaused : bool).

(** Modelled from the spec: the activity type constants [ACTIVITY_TYPES]
    of [services/RunDataService], which is not among the sources; the
    specification names the three activity types run, walk and cycle. *)
Module ACTIVITY_TYPES.
Definition RUN : string := "run".
Definition WALK : string := "walk".
Definition CYCLE : string := "cycle".
End ACTIVITY_TYPES.

(** The keys of [localStorage] the tracker reads. *)
Record LocalStorage : Type := mkLocalStorage {
  ls_distanceUnit : option string;
  ls_activityMode : option string;
  ls_gpsFilteringMode : option string
}.

(** [localStorage.getItem(key) || fallback] *)
Definition getItem_or (item : option string) (fallback : string) : string :=
  match item with
  | Some s => if String.eqb s "" then fallback else s
  | None => fallback
  end.

Record RunTracker : Type := mkRunTracker {
  distance : num;
  duration : num;
  estimatedSteps : num;
  splits : list Split;
  positions : list Position;
  distanceGoal : option num;
  strideLength : num;
  elevation : Elevation;
  isTracking : bool;
  isPaused : bool;
  startTime : num;
  pausedTime : num;
  lastPauseTime : num;
  lastSplitDistance : num;
  activityType : string;
  latFilter : KalmanFilter1D;
  lonFilter : KalmanFilter1D;
  altFilter : KalmanFilter1D;
  weightedFilter : WeightedGPSFilter;
  gpsFilteringMode : string;
  sensorFusion : DeadReckoning;
  lastGPSTime : num;
  gpsGapFiller : GPSGapFiller
}.

(** What [getBatteryLevel()] evaluates to: [null], or the promise returned
    by [navigator.getBattery().then(...)], which the method does not await.
    [JNumber] is a plain number, the type the documentation of the method
    announces. *)
Inductive JSValue : Type :=
| JNull
| JNumber (n : num)
| JPromise (resolution : option num).

(** ToNumber: [null] is 0, an object without a numeric primitive is NaN. *)
Definition to_number (v : JSValue) : num :=
  match v with
  | JNull => 0%Z
  | JNumber n => n
  | JPromise _ => NaN
  end.

(** [v !== null] *)
Definition not_null (v : JSValue) : bool :=
  match v with JNull => false | _ => true end.

(** ** Readouts, saved sessions and final results *)

(** A speed readout [{value, unit}]; [value] is the number the member
    holds or, where it is the string of a [toFixed], denotes. *)
Record Speed : Type := mkSpeed {
  spd_value : num;
  spd_unit : string
}.

(** The members of the tracker that [addPosition] neither reads nor
    writes: [this.pace], [this.currentSpeed] and [this.smoothedSpeedMps]. *)
Record Readouts : Type := mkReadouts {
  ro_pace : num;
  ro_currentSpeed : Speed;
  ro_smoothedSpeedMps : num
}.

(** The argument of [restoreTracking] and [restoreTrackingPaused]: the
    members they read; one that may be missing is an [option]. *)
Record SavedState : Type := mkSavedState {
  sv_distance : num;
  sv_duration : num;
  sv_pace : num;
  sv_splits : list Split;
  sv_estimatedTotalSteps : option num;
  sv_averageSpeed : option Speed;
  sv_elevation : Elevation;
  sv_activityType : option string;
  sv_timestamp : num
}.

(** The object [stop()] returns and hands to [runCompleted]. *)
Record FinalResults : Type := mkFinalResults {
  fr_distance : num;
  fr_duration : num;
  fr_pace : num;
  fr_splits : list Split;
  fr_elevation_gain : num;
  fr_elevation_loss : num;
  fr_unit : string;
  fr_activityType : string;
  fr_averageSpeed : option Speed;
  fr_estimatedTotalSteps : option num
}.

(** What the methods below emit: the events of [addPosition], and those
    that carry a readout or the final results. *)
Inductive Notification : Type :=
| Tracked (event : Event)
| PaceChange (pace : num)
| SpeedChange (speed : Speed)
| RunCompleted (results : FinalResults).

Module RunTracker.

Definition AVERAGE_STRIDE_LENGTH_METERS : num := nq 62 100.

Definition getDistanceUnit (ls : LocalStorage) : string :=
  getItem_or (ls_distanceUnit ls) "km".

(** ** Field updates *)

Definition with_distance (v : num) (t : RunTracker) : RunTracker :=
  mkRunTracker v (duration t) (estimatedSteps t) (splits t) (positions t)
    (distanceGoal t) (strideLength t) (elevation t) (isTracking t)
    (isPaused t) (startTime t) (pausedTime t) (lastPauseTime t)
    (lastSplitDistance t) (activityType t) (latFilter t) (lonFilter t)
    (altFilter t) (weightedFilter t) (gpsFilteringMode t) (sensorFusion t)
    (lastGPSTime t) (gpsGapFiller t).

Definition with_duration (v : num) (t : RunTracker) : RunTracker :=
  mkRunTracker (distance t) v (estimatedSteps t) (splits t) (positions t)
    (distanceGoal t) (strideLength t) (elevation t) (isTracking t)
    (isPaused t) (startTime t) (pausedTime t) (lastPauseTime t)
    (lastSplitDistance t) (activityType t) (latFilter t) (lonFilter t)
    (altFilter t) (weightedFilter t) (gpsFilteringMode t) (sensorFusion t)
    (lastGPSTime t) (gpsGapFiller t).

Definition with_estimatedSteps (v : num) (t : RunTracker) : RunTracker :=
  mkRunTracker (distance t) (duration t) v (splits t) (positions t)
    (distanceGoal t) (strideLength t) (elevation t) (isTracking t)
    (isPaused t) (startTime t) (pausedTime t) (lastPauseTime t)
    (lastSplitDistance t) (activityType t) (latFilter t) (lonFilter t)
    (altFilter t) (weightedFilter t) (gpsFilteringMode t) (sensorFusion t)
    (lastGPSTime t) (gpsGapFiller t).

(** [this.splits.push(s); this.lastSplitDistance = d] *)
Definition with_split (s : Split) (d : num) (t : RunTracker) : RunTracker :=
  mkRunTracker (distance t) (duration t) (estimatedSteps t)
    (splits t ++ [s]) (positions t)
    (distanceGoal t) (strideLength t) (elevation t) (isTracking t)
    (isPaused t) (startTime t) (pausedTime t) (lastPauseTime t)
    d (activityType t) (latFilter t) (lonFilter t)
    (altFilter t) (weightedFilter t) (gpsFilteringMode t) (sensorFusion t)
    (lastGPSTime t) (gpsGapFiller t).

Definition with_elevation (v : Elevation) (t : RunTracker) : RunTracker :=
  mkRunTracker (distance t) (duration t) (estimatedSteps t) (splits t)
    (positions t)
    (distanceGoal t) (strideLength t) v (isTracking t)
    (isPaused t) (startTime t) (pausedTime t) (lastPauseTime t)
    (lastSplitDistance t) (activityType t) (latFilter t) (lonFilter t)
    (altFilter t) (weightedFilter t) (gpsFilteringMode t) (sensorFusion t)
    (lastGPSTime t) (gpsGapFiller t).

Definition with_filters (latF lonF altF : KalmanFilter1D)
  (wF : WeightedGPSFilter) (t : RunTracker) : RunTracker :=
  mkRunTracker (distance t) (duration t) (estimatedSteps t) (splits t)
    (positions t)
    (distanceGoal t) (strideLength t) (elevation t) (isTracking t)
    (isPaused t) (startTime t) (pausedTime t) (lastPauseTime t)
    (lastSplitDistance t) (activityType t) latF lonF
    altF wF (gpsFilteringMode t) (sensorFusion t)
    (lastGPSTime t) (gpsGapFiller t).

(** The tail of [addPosition]: the history, the sensor fusion record, the
    gap filler and [lastGPSTime]. *)
Definition with_stored (p : Position) (sf : DeadReckoning)
  (gf : GPSGapFiller) (ts : num) (t : RunTracker) : RunTracker :=
  mkRunTracker (distance t) (duration t) (estimatedSteps t) (splits t)
    (positions t ++ [p])
    (distanceGoal t) (strideLength t) (elevation t) (isTracking t)
    (isPaused t) (startTime t) (pausedTime t) (lastPauseTime t)
    (lastSplitDistance t) (activityType t) (latFilter t) (lonFilter t)
    (altFilter t) (weightedFilter t) (gpsFilteringMode t) sf
    ts gf.

(** [this.isPaused], [this.pausedTime] and [this.lastPauseTime]. *)
Definition with_pause (paused : bool) (pausedT lastPauseT : num)
  (t : RunTracker) : RunTracker :=
  mkRunTracker (distance t) (duration t) (estimatedSteps t) (splits t)
    (positions t)
    (distanceGoal t) (strideLength t) (elevation t) (isTracking t)
    paused (startTime t) pausedT lastPauseT
    (lastSplitDistance t) (activityType t) (latFilter t) (lonFilter t)
    (altFilter t) (weightedFilter t) (gpsFilteringMode t) (sensorFusion t)
    (lastGPSTime t) (gpsGapFiller t).

Definition with_distanceGoal (g : option num) (t : RunTracker) : RunTracker :=
  mkRunTracker (distance t) (duration t) (estimatedSteps t) (splits t)
    (positions t)
    g (strideLength t) (elevation t) (isTracking t)
    (isPaused t) (startTime t) (pausedTime t) (lastPauseTime t)
    (lastSplitDistance t) (activityType t) (latFilter t) (lonFilter t)
    (altFilter t) (weightedFilter t) (gpsFilteringMode t) (sensorFusion t)
    (lastGPSTime t) (gpsGapFiller t).

(** ** Construction and session start *)

Definition constructor (ls : LocalStorage) : RunTracker :=
  {| distance := 0%Z;
     duration := 0%Z;
     estimatedSteps := 0%Z;
     splits := [];
     positions := [];
     distanceGoal := None;
     strideLength := AVERAGE_STRIDE_LENGTH_METERS;
     elevation := {| el_current := None; el_gain := 0%Z; el_loss := 0%Z;
                     el_lastAltitude := None |};
     isTracking := false;
     isPaused := false;
     startTime := 0%Z;
     pausedTime := 0%Z;
     lastPauseTime := 0%Z;
     lastSplitDistance := 0%Z;
     activityType := getItem_or (ls_activityMode ls) ACTIVITY_TYPES.RUN;
     latFilter :=
       KalmanFilter1D.constructor (Some (nz 3)) (Some (nq 1 100));
     lonFilter :=
       KalmanFilter1D.constructor (Some (nz 3)) (Some (nq 1 100));
     altFilter :=
       KalmanFilter1D.constructor (Some (nz 1)) (Some (nq 5 100));
     weightedFilter := WeightedGPSFilter.constructor 5;
     gpsFilteringMode := getItem_or (ls_gpsFilteringMode ls) "kalman";
     sensorFusion := DeadReckoning.constructor;
     lastGPSTime := 0%Z;
     gpsGapFiller := GPSGapFiller.constructor |}.

(** [start()]: the state it sets (the watcher, the timers, the wake lock
    and the motion sensors belong to the platform). *)
Definition start (ls : LocalStorage) (now : num) (t : RunTracker)
  : RunTracker * list Event :=
  if isTracking t && negb (isPaused t) then (t, [])
  else
    ({| distance := 0%Z;
        duration := 0%Z;
        estimatedSteps := 0%Z;
        splits := [];
        positions := [];
        distanceGoal := distanceGoal t;
        strideLength := strideLength t;
        elevation := {| el_current := None; el_gain := 0%Z; el_loss := 0%Z;
                        el_lastAltitude := None |};
        isTracking := true;
        isPaused := false;
        startTime := now;
        pausedTime := 0%Z;
        lastPauseTime := lastPauseTime t;
        lastSplitDistance := 0%Z;
        activityType := getItem_or (ls_activityMode ls) ACTIVITY_TYPES.RUN;
        latFilter := KalmanFilter1D.reset (latFilter t);
        lonFilter := KalmanFilter1D.reset (lonFilter t);
        altFilter := KalmanFilter1D.reset (altFilter t);
        weightedFilter := WeightedGPSFilter.reset (weightedFilter t);
        gpsFilteringMode := gpsFilteringMode t;
        sensorFusion := sensorFusion t;
        lastGPSTime := lastGPSTime t;
        gpsGapFiller := GPSGapFiller.reset (gpsGapFiller t) |},
     [StatusChange true false]).

(** ** Pause and resume *)

Definition pause (now : num) (t : RunTracker) : RunTracker * list Event :=
  if negb (isTracking t) || isPaused t then (t, [])
  else
    let t' := with_pause true (pausedTime t) now t in
    (t', [StatusChange (isTracking t') (isPaused t')]).

Definition resume (now : num) (t : RunTracker) : RunTracker * list Event :=
  if negb (isTracking t) || negb (isPaused t) then (t, [])
  else
    let t' :=
      with_pause false (pausedTime t + (now - lastPauseTime t))
        (lastPauseTime t) t in
    (t', [StatusChange (isTracking t') (isPaused t')]).

(** ** Distance goal *)

Definition setDistanceGoal (meters : option num) (t : RunTracker)
  : RunTracker :=
  with_distanceGoal
    (match meters with
     | Some m => if truthy m && (m >? 0%Z) then Some m else None
     | None => None
     end) t.

Definition clearDistanceGoal (t : RunTracker) : RunTracker :=
  with_distanceGoal None t.

(** ** Battery level *)

(** [battery] is the level in [0,1] reported by the Battery API, [None]
    when [navigator] has no [getBattery]. *)
Definition getBatteryLevel (battery : option num) : JSValue :=
  match battery with
  | Some level => JPromise (Some (JS.round (level * 100%Z)))
  | None => JNull
  end.

(** ** Ingestion *)

Definition coords_field (f : RawCoords -> option num) (pos : Position)
  : option num :=
  match ps_coords pos with Some c => f c | None => None end.

Definition standardise (now : num) (pos : Position) : StdPosition :=
  {| sp_rest := pos;
     sp_timestamp := or_else (of_undefined (ps_timestamp pos)) now;
     sp_coords :=
       {| co_latitude :=
            nullish (nullish_opt (ps_latitude pos)
                       (coords_field rc_latitude pos)) (nz 0);
          co_longitude :=
            nullish (nullish_opt (ps_longitude pos)
                       (coords_field rc_longitude pos)) (nz 0);
          co_accuracy :=
            nullish (nullish_opt (ps_accuracy pos)
                       (coords_field rc_accuracy pos)) (nz 0);
          co_altitude :=
            nullish_opt (ps_altitude pos) (coords_field rc_altitude pos) |}
  |}.

(** [newPosition.accuracy ?? newPosition.coords?.accuracy ?? 999] *)
Definition fix_accuracy (newPosition : Position) : num :=
  nullish (nullish_opt (ps_accuracy newPosition)
             (coords_field rc_accuracy newPosition)) (nz 999).

(** The coordinate test of the quality gate. *)
Definition invalid_coordinates (lat lon : num) : bool :=
  isNaN lat || isNaN lon || (lat <? (-90)%Z) || (lat >? 90%Z)
  || (lon <? (-180)%Z) || (lon >? 180%Z).

Definition updateElevation (altitude : option num) (t : RunTracker)
  : RunTracker * list Event :=
  match altitude with
  | None => (t, [])
  | Some alt =>
      if isNaN alt then (t, [])
      else
        let e := elevation t in
        let '(gain, loss) :=
          match el_lastAltitude e with
          | Some lastAltitude =>
              let diff := alt - lastAltitude in
              if JS.abs diff >=? 1%Z then
                if diff >? 0%Z then (el_gain e + diff, el_loss e)
                else (el_gain e, el_loss e + JS.abs diff)
              else (el_gain e, el_loss e)
          | None => (el_gain e, el_loss e)
          end in
        let e' := {| el_current := Some alt; el_gain := gain;
                     el_loss := loss; el_lastAltitude := Some alt |} in
        (with_elevation e' t, [ElevationChange e'])
  end.

(** The GPS filtering step: the tracker with its filters updated and the
    filtered position. *)
Definition applyGpsFiltering (accuracy lat lon : num)
  (currentPositionStd : StdPosition) (t : RunTracker)
  : RunTracker * StdPosition :=
  if String.eqb (gpsFilteringMode t) "kalman" then
    let q :=
      if String.eqb (activityType t) ACTIVITY_TYPES.WALK then nq 5 10
      else if String.eqb (activityType t) ACTIVITY_TYPES.CYCLE then nz 5
      else nz 3 in
    let latF :=
      KalmanFilter1D.set_Q q
        (KalmanFilter1D.adjustParameters accuracy (latFilter t)) in
    let lonF :=
      KalmanFilter1D.set_Q q
        (KalmanFilter1D.adjustParameters accuracy (lonFilter t)) in
    let '(filteredLat, latF') := KalmanFilter1D.filter lat latF in
    let '(filteredLon, lonF') := KalmanFilter1D.filter lon lonF in
    let '(filteredAlt, altF') :=
      match co_altitude (sp_coords currentPositionStd) with
      | Some altitude =>
          let '(v, f) := KalmanFilter1D.filter altitude (altFilter t) in
          (Some v, f)
      | None => (None, altFilter t)
      end in
    (with_filters latF' lonF' altF' (weightedFilter t) t,
     {| sp_rest := sp_rest currentPositionStd;
        sp_timestamp := sp_timestamp currentPositionStd;
        sp_coords :=
          {| co_latitude := filteredLat;
             co_longitude := filteredLon;
             co_accuracy := co_accuracy (sp_coords currentPositionStd);
             co_altitude := filteredAlt |} |})
  else if String.eqb (gpsFilteringMode t) "weighted" then
    let '(weightedResult, wF) :=
      WeightedGPSFilter.addReading
        {| rd_lat := lat; rd_lon := lon; rd_accuracy := accuracy;
           rd_timestamp := sp_timestamp currentPositionStd |}
        (weightedFilter t) in
    (with_filters (latFilter t) (lonFilter t) (altFilter t) wF t,
     match weightedResult with
     | Some r =>
         {| sp_rest := sp_rest currentPositionStd;
            sp_timestamp := sp_timestamp currentPositionStd;
            sp_coords :=
              {| co_latitude := wr_lat r;
                 co_longitude := wr_lon r;
                 co_accuracy := wr_accuracy r;
                 co_altitude :=
                   co_altitude (sp_coords currentPositionStd) |} |}
     | None => currentPositionStd
     end)
  else (t, currentPositionStd).

Definition MOVEMENT_THRESHOLD : num := nq 5 10.

(** [this.distanceGoal && this.distance >= this.distanceGoal] *)
Definition goal_reached (t : RunTracker) : bool :=
  match distanceGoal t with
  | Some goal => truthy goal && (distance t >=? goal)
  | None => false
  end.

(** The movement branch.  The boolean is [true] when the method returns
    from inside it (distance goal reached). *)
Definition accumulateDistance (distanceIncrement : num) (t : RunTracker)
  : RunTracker * list Event * bool :=
  if distanceIncrement >=? MOVEMENT_THRESHOLD then
    let t1 := with_distance (distance t + distanceIncrement) t in
    let ev := [DistanceChange (distance t1)] in
    if goal_reached t1 then
      (t1, ev ++ [GoalReached (distance t1) (of_undefined (distanceGoal t1))],
       true)
    else if String.eqb (activityType t1) ACTIVITY_TYPES.WALK then
      let steps :=
        if distance t1 >? 0%Z
        then JS.round (distance t1 / strideLength t1)
        else nz 0 in
      (with_estimatedSteps steps t1, ev ++ [StepsChange steps], false)
    else (t1, ev, false)
  else (t, [], false).

(** 1 km or 1 mile in metres. *)
Definition splitDistanceOf (distanceUnit : string) : num :=
  if String.eqb distanceUnit "km" then nz 1000 else nq 1609344 1000.

(** [floor(distance in units) > floor(lastSplitDistance in units)] *)
Definition split_due (ls : LocalStorage) (t : RunTracker) : bool :=
  let splitDistance := splitDistanceOf (getDistanceUnit ls) in
  JS.floor (distance t / splitDistance)
  >? JS.floor (lastSplitDistance t / splitDistance).

(** The split evaluation at the end of the distance block. *)
Definition recordSplit (ls : LocalStorage) (t : RunTracker)
  : RunTracker * list Event :=
  let distanceUnit := getDistanceUnit ls in
  let splitDistance := splitDistanceOf distanceUnit in
  let currentDistanceInUnits := distance t / splitDistance in
  let lastSplitDistanceInUnits := lastSplitDistance t / splitDistance in
  if JS.floor currentDistanceInUnits >? JS.floor lastSplitDistanceInUnits
  then
    let currentSplitNumber := JS.floor currentDistanceInUnits in
    let previousSplitTime :=
      match last_of (splits t) with
      | Some s => split_time s
      | None => nz 0
      end in
    let splitDuration := duration t - previousSplitTime in
    let splitPace := splitDuration / splitDistance in
    let t' :=
      with_split
        {| split_km := currentSplitNumber;
           split_time := duration t;
           split_pace := splitPace;
           split_isPartial := false |}
        (currentSplitNumber * splitDistance) t in
    (t', [SplitRecorded (splits t')])
  else (t, []).

(** The position object pushed onto [this.positions]. *)
Definition stored_position (filteredPosition : StdPosition) : Position :=
  let c := sp_coords filteredPosition in
  {| ps_latitude := Some (co_latitude c);
     ps_longitude := Some (co_longitude c);
     ps_altitude := co_altitude c;
     ps_accuracy := Some (co_accuracy c);
     ps_timestamp := Some (sp_timestamp filteredPosition);
     ps_coords :=
       Some {| rc_latitude := Some (co_latitude c);
               rc_longitude := Some (co_longitude c);
               rc_accuracy := Some (co_accuracy c);
               rc_altitude := co_altitude c |} |}.

Section Ingestion.

Variable Math : MathLib.

(** [filterLocation] of [utils/runCalculations], which is not among the
    sources: the tracker is embedded over any such quality filter. *)
Variable filterLocation : StdPosition -> StdPosition -> bool.

Definition toRadians (degrees : num) : num :=
  (degrees * Math_PI Math) / 180%Z.

Definition calculateDistance (lat1 lon1 lat2 lon2 : num) : num :=
  let R := nz 6371000 in
  let dLat := toRadians (lat2 - lat1) in
  let dLon := toRadians (lon2 - lon1) in
  let a :=
    Math_sin Math (dLat / 2%Z) * Math_sin Math (dLat / 2%Z)
    + Math_cos Math (toRadians lat1)
      * Math_cos Math (toRadians lat2)
      * Math_sin Math (dLon / 2%Z)
      * Math_sin Math (dLon / 2%Z) in
  let c :=
    2%Z * Math_atan2 Math (Math_sqrt Math a) (Math_sqrt Math (1%Z - a)) in
  R * c.

(** The tail of [addPosition]: store the position and hand it to the
    sensor fusion manager and to the gap filler. *)
Definition storePosition (now : num) (filteredPosition : StdPosition)
  (t : RunTracker) : RunTracker :=
  let c := sp_coords filteredPosition in
  let sf :=
    DeadReckoning.updateGPSPosition now (co_latitude c) (co_longitude c)
      (Some None) (sensorFusion t) in
  let gf :=
    snd (GPSGapFiller.processPosition Math now
           (Some {| gi_lat := Some (co_latitude c);
                    gi_lon := Some (co_longitude c);
                    gi_coords_latitude := None;
                    gi_coords_longitude := None;
                    gi_timestamp := Some (sp_timestamp filteredPosition);
                    gi_speed := None;
                    gi_heading := None;
                    gi_isPredicted := false |})
           (gpsGapFiller t)) in
  with_stored (stored_position filteredPosition) sf gf
    (sp_timestamp filteredPosition) t.

Definition addPosition (ls : LocalStorage) (now : num)
  (newPosition : Position) (t : RunTracker) : RunTracker * list Event :=
  if negb (isTracking t) || isPaused t then (t, [])
  else
    let accuracy := fix_accuracy newPosition in
    if accuracy >? 20%Z then (t, [])
    else
      let currentPositionStd := standardise now newPosition in
      let lat := co_latitude (sp_coords currentPositionStd) in
      let lon := co_longitude (sp_coords currentPositionStd) in
      if invalid_coordinates lat lon then (t, [])
      else
        let '(t1, filteredPosition) :=
          applyGpsFiltering accuracy lat lon currentPositionStd t in
        let t2 :=
          with_duration
            ((sp_timestamp filteredPosition - startTime t1 - pausedTime t1)
             / 1000%Z) t1 in
        let ev0 := [DurationChange (duration t2)] in
        match last_of (positions t2) with
        | Some lastRawPosition =>
            let lastPositionStd := standardise now lastRawPosition in
            if negb (filterLocation filteredPosition lastPositionStd)
            then (t2, ev0)
            else
              let distanceIncrement :=
                calculateDistance
                  (of_undefined (ps_latitude lastRawPosition))
                  (of_undefined (ps_longitude lastRawPosition))
                  (co_latitude (sp_coords filteredPosition))
                  (co_longitude (sp_coords filteredPosition)) in
              match accumulateDistance distanceIncrement t2 with
              | (t3, ev1, true) => (t3, ev0 ++ ev1)
              | (t3, ev1, false) =>
                  let '(t4, ev2) :=
                    updateElevation
                      (co_altitude (sp_coords filteredPosition)) t3 in
                  let '(t5, ev3) := recordSplit ls t4 in
                  (storePosition now filteredPosition t5,
                   ev0 ++ ev1 ++ ev2 ++ ev3)
              end
        | None => (storePosition now filteredPosition t2, ev0)
        end.

(** ** Current speed *)

Definition pos_timestamp (p : Position) : num :=
  of_undefined (ps_timestamp p).

Definition pos_coords_latitude (p : Position) : num :=
  of_undefined (coords_field rc_latitude p).

Definition pos_coords_longitude (p : Position) : num :=
  of_undefined (coords_field rc_longitude p).

(** The loop of [calculateCurrentSpeed]: (recentDistance,
    lastValidPosition). *)
Definition speed_step (acc : num * option Position) (position : Position)
  : num * option Position :=
  let '(recentDistance, lastValidPosition) := acc in
  match lastValidPosition with
  | Some lv =>
      let segmentDistance :=
        calculateDistance (pos_coords_latitude lv) (pos_coords_longitude lv)
          (pos_coords_latitude position) (pos_coords_longitude position) in
      let timeDiff :=
        (pos_timestamp position - pos_timestamp lv) / 1000%Z in
      (if timeDiff >? 0%Z then recentDistance + segmentDistance
       else recentDistance,
       Some position)
  | None => (recentDistance, Some position)
  end.

Definition calculateCurrentSpeed (t : RunTracker) : num :=
  let SPEED_WINDOW := nz 10 in
  let totalAverage :=
    if (distance t >? 0%Z) && (duration t >? 0%Z)
    then distance t / duration t else nz 0 in
  if (List.length (positions t) <? 2)%nat then nz 0
  else
    match last_of (positions t) with
    | None => nz 0
    | Some lastP =>
        let now := pos_timestamp lastP in
        let windowStart := now - SPEED_WINDOW * 1000%Z in
        let recentPositions :=
          List.filter (fun pos => pos_timestamp pos >=? windowStart)
            (positions t) in
        if (List.length recentPositions <? 2)%nat then totalAverage
        else
          let recentDistance :=
            fst (fold_left speed_step recentPositions (nz 0, None)) in
          let recentDuration :=
            match recentPositions, last_of recentPositions with
            | firstP :: _, Some lastR =>
                (pos_timestamp lastR - pos_timestamp firstP) / 1000%Z
            | _, _ => NaN
            end in
          if (recentDuration >? 0%Z) && (recentDistance >? 0%Z)
          then recentDistance / recentDuration
          else totalAverage
    end.

(** ** Adaptive sampling *)

(** The body of [calculateOptimalSamplingInterval] after its two reads:
    [speedMps] is the value of [this.calculateCurrentSpeed()],
    [batteryLevel] the value of [this.getBatteryLevel()], [hidden] the
    value of [typeof document !== 'undefined' && document.hidden]. *)
Definition samplingIntervalFor (speedMps : num) (batteryLevel : JSValue)
  (hidden : bool) (t : RunTracker) : num :=
  let baseInterval0 :=
    if String.eqb (activityType t) ACTIVITY_TYPES.WALK then nz 15000
    else if String.eqb (activityType t) ACTIVITY_TYPES.CYCLE then nz 5000
    else nz 10000 in
  let baseInterval1 :=
    if speedMps >? 15%Z then JS.min baseInterval0 5000%Z
    else if speedMps >? 8%Z then JS.min baseInterval0 10000%Z
    else if speedMps <? nq 5 10 then JS.max baseInterval0 30000%Z
    else baseInterval0 in
  let baseInterval2 :=
    if not_null batteryLevel && (to_number batteryLevel <? 30%Z)
    then baseInterval1 * nq 15 10
    else if not_null batteryLevel && (to_number batteryLevel <? 15%Z)
    then baseInterval1 * 2%Z
    else baseInterval1 in
  let baseInterval3 :=
    match distanceGoal t with
    | Some goal =>
        if truthy goal then
          let remainingDistance := goal - distance t in
          if remainingDistance <? 1000%Z
          then JS.min baseInterval2 5000%Z
          else baseInterval2
        else baseInterval2
    | None => baseInterval2
    end in
  let baseInterval4 :=
    if hidden then JS.max baseInterval3 30000%Z else baseInterval3 in
  JS.max 3000%Z (JS.min 60000%Z baseInterval4).

Definition calculateOptimalSamplingInterval (battery : option num)
  (hidden : bool) (t : RunTracker) : num :=
  samplingIntervalFor (calculateCurrentSpeed t) (getBatteryLevel battery)
    hidden t.

(** ** GPS outage detection *)

(** [Math.pow], which [MathLib] does not hold. *)
Variable Math_pow : num -> num -> num.

(** [this.gpsOutageThreshold], set by the constructor and never written
    again. *)
Definition gpsOutageThreshold : num := 10000%Z.

Definition with_sensorFusion (sf : DeadReckoning) (t : RunTracker)
  : RunTracker :=
  mkRunTracker (distance t) (duration t) (estimatedSteps t) (splits t)
    (positions t)
    (distanceGoal t) (strideLength t) (elevation t) (isTracking t)
    (isPaused t) (startTime t) (pausedTime t) (lastPauseTime t)
    (lastSplitDistance t) (activityType t) (latFilter t) (lonFilter t)
    (altFilter t) (weightedFilter t) (gpsFilteringMode t) sf
    (lastGPSTime t) (gpsGapFiller t).

(** The position object the outage check builds:
    [{coords: {latitude, longitude, accuracy, altitude: null}, timestamp}]
    (its flag [isPredicted] or [isEstimated] is read by nobody). *)
Definition syntheticPosition (lat lon accuracy now : num) : Position :=
  {| ps_latitude := None;
     ps_longitude := None;
     ps_accuracy := None;
     ps_altitude := None;
     ps_timestamp := Some now;
     ps_coords :=
       Some {| rc_latitude := Some lat;
               rc_longitude := Some lon;
               rc_accuracy := Some accuracy;
               rc_altitude := None |} |}.

(** One run of the callback of [startGPSOutageDetection].  [now] is its
    own reading of the clock, [nowFill] the one [fillGap] takes and
    [nowAdd] the one [addPosition] takes; [stepCount] is the count of the
    step counter of the sensor fusion manager, which device-motion events
    drive.  The activity classification at the end of the callback only
    writes to the console. *)
Definition gpsOutageTick (ls : LocalStorage) (now nowFill nowAdd : num)
  (stepCount : num) (t : RunTracker) : RunTracker * list Event :=
  if isTracking t && negb (isPaused t) then
    let timeSinceLastGPS := now - lastGPSTime t in
    if (timeSinceLastGPS >? gpsOutageThreshold) && (lastGPSTime t >? 0%Z)
    then
      let fallback :=
        let '(estimatedPosition, sf) :=
          DeadReckoning.estimatePosition Math Math_pow stepCount
            (sensorFusion t) in
        let t1 := with_sensorFusion sf t in
        match estimatedPosition with
        | Some estimated =>
            if ep_confidence estimated >? nq 3 10 then
              addPosition ls nowAdd
                (syntheticPosition (ep_lat estimated) (ep_lon estimated)
                   (50%Z / ep_confidence estimated) now) t1
            else (t1, [])
        | None => (t1, [])
        end in
      match GPSGapFiller.fillGap Math nowFill (gpsGapFiller t) with
      | Some predictedPosition =>
          if pp_confidence predictedPosition >? nq 5 10 then
            addPosition ls nowAdd
              (syntheticPosition (pp_lat predictedPosition)
                 (pp_lon predictedPosition)
                 (25%Z / pp_confidence predictedPosition) now) t
          else fallback
      | None => fallback
      end
    else (t, [])
  else (t, []).

End Ingestion.

(** ** Stride length *)

(** The helper [estimateStrideLength] of the module; [heightCm] is [None]
    when the argument is [undefined] or [null]. *)
Definition estimateStrideLength (heightCm : option num) : num :=
  match heightCm with
  | None => AVERAGE_STRIDE_LENGTH_METERS
  | Some height =>
      if negb (truthy height) || (height <? 100%Z) || (height >? 250%Z)
      then AVERAGE_STRIDE_LENGTH_METERS
      else
        let heightInches := height / nq 254 100 in
        let strideLengthInches := heightInches * nq 414 1000 in
        let strideLengthMeters := strideLengthInches * nq 254 10000 in
        strideLengthMeters
  end.

(** ** The timer *)

(** One run of the callback of [startTimer]; [now] is the value of
    [Date.now()]. *)
Definition timerTick (now : num) (t : RunTracker)
  : RunTracker * list Event :=
  if isTracking t && negb (isPaused t) then
    let t' :=
      with_duration ((now - startTime t - pausedTime t) / 1000%Z) t in
    (t', [DurationChange (duration t')])
  else (t, []).

(** ** Restoring a saved session *)

(** [{ value: 0, unit: this.getDistanceUnit() === 'km' ? 'km/h' : 'mph' }] *)
Definition defaultSpeed (ls : LocalStorage) : Speed :=
  {| spd_value := 0%Z;
     spd_unit :=
       if String.eqb (getDistanceUnit ls) "km" then "km/h" else "mph" |}.

(** The members both restoring methods take from the saved state.  The
    positions, the distance goal, the last split distance, the filters and
    the gap filler are left as they are. *)
Definition with_saved (savedState : SavedState) (duration' : num)
  (paused : bool) (startTime' lastPauseTime' : num) (t : RunTracker)
  : RunTracker :=
  {| distance := sv_distance savedState;
     duration := duration';
     estimatedSteps :=
       match sv_estimatedTotalSteps savedState with
       | Some steps => or_else steps (nz 0)
       | None => nz 0
       end;
     splits := sv_splits savedState;
     positions := positions t;
     distanceGoal := distanceGoal t;
     strideLength := strideLength t;
     elevation :=
       {| el_current := el_current (sv_elevation savedState);
          el_gain := el_gain (sv_elevation savedState);
          el_loss := el_loss (sv_elevation savedState);
          el_lastAltitude := el_current (sv_elevation savedState) |};
     isTracking := true;
     isPaused := paused;
     startTime := startTime';
     pausedTime := 0%Z;
     lastPauseTime := lastPauseTime';
     lastSplitDistance := lastSplitDistance t;
     activityType :=
       getItem_or (sv_activityType savedState) ACTIVITY_TYPES.RUN;
     latFilter := latFilter t;
     lonFilter := lonFilter t;
     altFilter := altFilter t;
     weightedFilter := weightedFilter t;
     gpsFilteringMode := gpsFilteringMode t;
     sensorFusion := sensorFusion t;
     lastGPSTime := lastGPSTime t;
     gpsGapFiller := gpsGapFiller t |}.

Definition restored_readouts (ls : LocalStorage) (savedState : SavedState)
  (r : Readouts) : Readouts :=
  {| ro_pace := sv_pace savedState;
     ro_currentSpeed :=
       match sv_averageSpeed savedState with
       | Some speed => speed
       | None => defaultSpeed ls
       end;
     ro_smoothedSpeedMps := ro_smoothedSpeedMps r |}.

(** The seven notifications that end both restoring methods. *)
Definition restored_notifications (t : RunTracker) (r : Readouts)
  : list Notification :=
  [ Tracked (DistanceChange (distance t));
    Tracked (DurationChange (duration t));
    PaceChange (ro_pace r);
    Tracked (SplitRecorded (splits t));
    Tracked (ElevationChange (elevation t));
    Tracked (StepsChange (estimatedSteps t));
    SpeedChange (ro_currentSpeed r) ].

(** [restoreTracking(savedState)]: [now] is the value of
    [new Date().getTime()], [nowStart] that of the [Date.now()] that
    follows it. *)
Definition restoreTracking (ls : LocalStorage) (now nowStart : num)
  (savedState : SavedState) (t : RunTracker) (r : Readouts)
  : RunTracker * Readouts * list Notification :=
  let timeDifference := (now - sv_timestamp savedState) / 1000%Z in
  let duration' := sv_duration savedState + timeDifference in
  let t' :=
    with_saved savedState duration' false
      (nowStart - duration' * 1000%Z) (nz 0) t in
  let r' := restored_readouts ls savedState r in
  (t', r', restored_notifications t' r').

(** [restoreTrackingPaused(savedState)]: [nowStart] and [nowPause] are the
    values of its two calls of [Date.now()]. *)
Definition restoreTrackingPaused (ls : LocalStorage) (nowStart nowPause : num)
  (savedState : SavedState) (t : RunTracker) (r : Readouts)
  : RunTracker * Readouts * list Notification :=
  let duration' := sv_duration savedState in
  let t' :=
    with_saved savedState duration' true
      (nowStart - duration' * 1000%Z) nowPause t in
  let r' := restored_readouts ls savedState r in
  (t', r', restored_notifications t' r').

(** ** Stopping *)

(** The number denoted by [x.toFixed(1)]: the multiple of 0.1 nearest to
    [x], the one further from 0 of two. *)
Definition toFixed1 (x : num) : num :=
  match x with
  | Fin q =>
      let n := Qfloor (Qabs q * 10 + (1 # 2)) in
      Fin (if Qlt_bool q 0 then - (n # 10) else n # 10)%Q
  | _ => x
  end.

Section Completion.

(** [calculatePace], [calculateStats] (of which [stop] reads the member
    [splits]) and [saveRun] belong to [services/RunDataService], which is
    not among the sources: [stop] is embedded over any such functions, and
    the call of [saveRun], which writes the run history, is left out. *)
Variable calculatePace : num -> num -> string -> num.
Variable calculateStats : list Position -> num -> option (list Split).

(** [now] is the value of [Date.now()].  The first component is the value
    returned: [undefined] when the session is not tracking. *)
Definition stop (ls : LocalStorage) (now : num) (t : RunTracker)
  (r : Readouts)
  : option FinalResults * RunTracker * Readouts * list Notification :=
  if negb (isTracking t) then (None, t, r, [])
  else
    let duration' :=
      JS.floor ((now - startTime t - pausedTime t) / 1000%Z) in
    let measured := (distance t >? 0%Z) && (duration' >? 0%Z) in
    let pace' :=
      if measured
      then calculatePace (distance t) duration' (getDistanceUnit ls)
      else ro_pace r in
    let splits' :=
      if (0 <? List.length (positions t))%nat
         && (List.length (splits t) =? 0)%nat
      then
        match calculateStats (positions t) duration' with
        | Some generated =>
            if (0 <? List.length generated)%nat then generated
            else splits t
        | None => splits t
        end
      else splits t in
    let averageSpeed :=
      if String.eqb (activityType t) ACTIVITY_TYPES.CYCLE && measured then
        let speedMps := distance t / duration' in
        let unit := getDistanceUnit ls in
        Some {| spd_value :=
                  if String.eqb unit "km"
                  then toFixed1 (speedMps * nq 36 10)
                  else toFixed1 (speedMps * nq 223694 100000);
                spd_unit :=
                  if String.eqb unit "km" then "km/h" else "mph" |}
      else None in
    let finalEstimatedSteps :=
      if String.eqb (activityType t) ACTIVITY_TYPES.CYCLE && measured
      then None
      else if String.eqb (activityType t) ACTIVITY_TYPES.WALK then
        Some (if distance t >? 0%Z
              then JS.round (distance t / strideLength t)
              else nz 0)
      else None in
    let finalResults :=
      {| fr_distance := distance t;
         fr_duration := duration';
         fr_pace := pace';
         fr_splits := splits';
         fr_elevation_gain := el_gain (elevation t);
         fr_elevation_loss := el_loss (elevation t);
         fr_unit := getDistanceUnit ls;
         fr_activityType := activityType t;
         fr_averageSpeed := averageSpeed;
         fr_estimatedTotalSteps := finalEstimatedSteps |} in
    let t' :=
      {| distance := distance t;
         duration := duration';
         estimatedSteps := estimatedSteps t;
         splits := splits';
         positions := positions t;
         distanceGoal := None;
         strideLength := strideLength t;
         elevation := elevation t;
         isTracking := false;
         isPaused := false;
         startTime := startTime t;
         pausedTime := pausedTime t;
         lastPauseTime := lastPauseTime t;
         lastSplitDistance := lastSplitDistance t;
         activityType := activityType t;
         latFilter := latFilter t;
         lonFilter := lonFilter t;
         altFilter := altFilter t;
         weightedFilter := weightedFilter t;
         gpsFilteringMode := gpsFilteringMode t;
         sensorFusion := DeadReckoning.reset (sensorFusion t);
         lastGPSTime := lastGPSTime t;
         gpsGapFiller := gpsGapFiller t |} in
    (Some finalResults, t',
     {| ro_pace := pace';
        ro_currentSpeed := ro_currentSpeed r;
        ro_smoothedSpeedMps := ro_smoothedSpeedMps r |},
     [Tracked (StatusChange false false); RunCompleted finalResults]).

End Completion.

End RunTracker.

(* ================================================================== *)
(** * A rational implementation of the [Math] functions *)
(* ================================================================== *)

(** Truncated series in fixed-point arithmetic with 64 fractional bits: a
    rational [q] is carried as the integer [floor (q * 2^64)].  On the
    arguments that occur below the results agree with the real functions to
    about 1e-15, the precision of a double.  Only concrete scenarios are
    evaluated with it. *)
Module RefMath.

Local Open Scope Z_scope.

Definition one : Z := 2 ^ 64.

Definition to_fx (q : Q) : Z := (Qnum q * one) / Zpos (Qden q).

Definition of_fx (z : Z) : Q := z # (2 ^ 64).

Definition fx_mul (a b : Z) : Z := Z.shiftr (a * b) 64.

Definition fx_div (a b : Z) : Z := (a * one) / b.

Definition PI : Q :=
  (3141592653589793238462643 # (10 ^ 24))%Q.

Definition fx_PI : Z := to_fx PI.

(** [alternating n k term acc x2]: adds [n] further terms, each obtained
    from the previous one by the factor [- x2 / ((k+1)(k+2))]. *)
Fixpoint alternating (n : nat) (k : Z) (term acc x2 : Z) : Z :=
  match n with
  | O => acc
  | S n' =>
      let term' := - (fx_mul term x2) / ((k + 1) * (k + 2)) in
      alternating n' (k + 2) term' (acc + term') x2
  end.

(** Reduction to [-PI, PI]. *)
Definition reduce (x : Z) : Z :=
  x - ((x + fx_PI) / (2 * fx_PI)) * (2 * fx_PI).

Definition fx_sin (x : Z) : Z :=
  let r := reduce x in alternating 17 1 r r (fx_mul r r).

Definition fx_cos (x : Z) : Z :=
  let r := reduce x in alternating 17 0 one one (fx_mul r r).

(** Square root of a non-negative value, by the integer square root. *)
Definition fx_sqrt (x : Z) : Z := Z.sqrt (x * one).

(** [atan] for |t| <= 1/5: t - t^3/3 + t^5/5 - ... *)
Fixpoint atan_series (n : nat) (k : Z) (power acc t2 : Z) : Z :=
  match n with
  | O => acc
  | S n' =>
      let power' := - (fx_mul power t2) in
      atan_series n' (k + 2) power' (acc + power' / (k + 2)) t2
  end.

(** [atan t = 2 atan (t / (1 + sqrt (1 + t^2)))] *)
Definition halve (t : Z) : Z := fx_div t (one + fx_sqrt (one + fx_mul t t)).

Definition atan_unit (t : Z) : Z :=
  let h := halve (halve t) in
  4 * atan_series 14 1 h h (fx_mul h h).

Definition fx_atan (t : Z) : Z :=
  if Z.abs t <=? one then atan_unit t
  else if 0 <=? t then fx_PI / 2 - atan_unit (fx_div one t)
  else - (fx_PI / 2) - atan_unit (fx_div one t).

Definition fx_atan2 (y x : Z) : Z :=
  match x ?= 0 with
  | Gt => fx_atan (fx_div y x)
  | Lt =>
      if 0 <=? y then fx_atan (fx_div y x) + fx_PI
      else fx_atan (fx_div y x) - fx_PI
  | Eq =>
      match y ?= 0 with
      | Gt => fx_PI / 2
      | Lt => - (fx_PI / 2)
      | Eq => 0
      end
  end.

(** [exp] by halving the argument twelve times and squaring back. *)
Fixpoint exp_series (n : nat) (k : Z) (term acc x : Z) : Z :=
  match n with
  | O => acc
  | S n' =>
      let term' := fx_mul term x / k in
      exp_series n' (k + 1) term' (acc + term') x
  end.

Fixpoint square_back (k : nat) (v : Z) : Z :=
  match k with
  | O => v
  | S k' => square_back k' (fx_mul v v)
  end.

Definition fx_exp (x : Z) : Z :=
  square_back 12 (exp_series 14 1 one one (Z.shiftr x 12)).

Definition sinQ (x : Q) : Q := of_fx (fx_sin (to_fx x)).
Definition cosQ (x : Q) : Q := of_fx (fx_cos (to_fx x)).
Definition sqrtQ (x : Q) : Q := of_fx (fx_sqrt (to_fx x)).
Definition atan2Q (y x : Q) : Q := of_fx (fx_atan2 (to_fx y) (to_fx x)).
Definition expQ (x : Q) : Q := of_fx (fx_exp (to_fx x)).

Local Open Scope Q_scope.

Definition sin (a : num) : num :=
  match a with Fin q => Fin (sinQ q) | _ => NaN end.

Definition cos (a : num) : num :=
  match a with Fin q => Fin (cosQ q) | _ => NaN end.

Definition sqrt (a : num) : num :=
  match a with
  | Fin q => if Qle_bool 0 q then Fin (sqrtQ q) else NaN
  | PInf => PInf
  | _ => NaN
  end.

Definition atan2 (y x : num) : num :=
  match y, x with
  | Fin y', Fin x' => Fin (atan2Q y' x')
  | Fin y', PInf => Fin 0
  | Fin y', NInf => Fin (if Qle_bool 0 y' then PI else - PI)
  | PInf, Fin _ => Fin (PI / 2)
  | NInf, Fin _ => Fin (- (PI / 2))
  | PInf, PInf => Fin (PI / 4)
  | PInf, NInf => Fin (3 * PI / 4)
  | NInf, PInf => Fin (- (PI / 4))
  | NInf, NInf => Fin (- (3 * PI / 4))
  | _, _ => NaN
  end.

(** Beyond +-700 the double result overflows or underflows. *)
Definition exp (a : num) : num :=
  match a with
  | NaN => NaN
  | PInf => PInf
  | NInf => Fin 0
  | Fin q =>
      if Qle_bool 700 q then PInf
      else if Qle_bool q (-700) then Fin 0
      else Fin (expQ q)
  end.

Definition lib : MathLib :=
  {| Math_PI := Fin PI;
     Math_sin := sin;
     Math_cos := cos;
     Math_sqrt := sqrt;
     Math_atan2 := atan2;
     Math_exp := exp |}.

End RefMath.

(* ================================================================== *)
(** * The split evaluation over binary64 *)
(* ================================================================== *)

(** The split evaluation of [addPosition] divides the distance and
    [lastSplitDistance] by the unit, takes the floors and compares them,
    and stores [index * unit] back.  One mile is 1609.344 m, which binary64
    does not hold, so the rounding of the product and of the quotient
    decides the comparison.  This module embeds the evaluation over the
    binary64 numbers of the language, with the correctly rounded
    operations of IEEE 754. *)

Module Binary64.

Import PrimFloat.
#[local] Set Warnings "-inexact-float".
Local Open Scope float_scope.

(** The number of an integer of absolute value below 2^53. *)
Definition number (z : Z) : float :=
  if (z <? 0)%Z then - of_uint63 (Uint63.of_Z (- z))
  else of_uint63 (Uint63.of_Z z).

(** [Math.floor].  A finite number is [m * 2^e] with [m < 2^53]: it is
    whole when [0 <= e] or when [2^(-e)] divides [m]; otherwise its
    integer part is below 2^53. *)
Definition floor (x : float) : float :=
  match FloatOps.Prim2SF x with
  | SpecFloat.S754_finite negative m e =>
      if (0 <=? e)%Z then x
      else
        let whole := (Zpos m / 2 ^ (- e))%Z in
        let fraction := (Zpos m mod 2 ^ (- e))%Z in
        if (fraction =? 0)%Z then x
        else if negative then number (- (whole + 1))
        else number whole
  | _ => x
  end.

Record Split : Type := mkSplit {
  split_km : float;
  split_time : float;
  split_pace : float;
  split_isPartial : bool
}.

(** The members of the tracker that the split evaluation reads and
    writes. *)
Record RunTracker : Type := mkRunTracker {
  distance : float;
  duration : float;
  lastSplitDistance : float;
  splits : list Split
}.

(** The state [start] sets. *)
Definition started : RunTracker :=
  {| distance := 0; duration := 0; lastSplitDistance := 0; splits := [] |}.

(** 1 km or 1 mile in metres. *)
Definition splitDistanceOf (distanceUnit : string) : float :=
  if String.eqb distanceUnit "km" then 1000 else 1609.344.

(** The split evaluation at the end of the distance block; [a > b] is
    [b < a]. *)
Definition recordSplit (distanceUnit : string) (t : RunTracker)
  : RunTracker :=
  let splitDistance := splitDistanceOf distanceUnit in
  let currentDistanceInUnits := distance t / splitDistance in
  let lastSplitDistanceInUnits := lastSplitDistance t / splitDistance in
  if floor lastSplitDistanceInUnits <? floor currentDistanceInUnits
  then
    let currentSplitNumber := floor currentDistanceInUnits in
    let previousSplitTime :=
      match rev (splits t) with
      | s :: _ => split_time s
      | [] => 0
      end in
    let splitDuration := duration t - previousSplitTime in
    let splitPace := splitDuration / splitDistance in
    {| distance := distance t;
       duration := duration t;
       lastSplitDistance := currentSplitNumber * splitDistance;
       splits :=
         splits t
         ++ [ {| split_km := currentSplitNumber;
                 split_time := duration t;
                 split_pace := splitPace;
                 split_isPartial := false |} ] |}
  else t.

(** A fix that leaves the tracker with the given distance (in metres) and
    duration (in seconds), followed by the split evaluation. *)
Definition evaluate (distanceUnit : string) (t : RunTracker)
  (reading : Z * Z) : RunTracker :=
  recordSplit distanceUnit
    {| distance := number (fst reading);
       duration := number (snd reading);
       lastSplitDistance := lastSplitDistance t;
       splits := splits t |}.

(** The numbers of the splits recorded. *)
Definition split_numbers (t : RunTracker) : list float :=
  map split_km (splits t).

(** A run in miles: one fix shortly after each of the first seven whole
    miles (1609.344 m, 3218.688 m, ..., 11265.408 m), at six minutes per
    kilometre, then four fixes within the eighth mile, which ends at
    12874.752 m. *)
Definition seven_miles : list (Z * Z) :=
  [ (1610, 580); (3219, 1159); (4829, 1738); (6438, 2318); (8047, 2897);
    (9657, 3477); (11266, 4056) ]%Z.

Definition eighth_mile : list (Z * Z) :=
  [ (11270, 4057); (11280, 4061); (12000, 4320); (12874, 4635) ]%Z.

(** A run of the same shape in kilometres. *)
Definition seven_kilometres : list (Z * Z) :=
  [ (1001, 360); (2001, 720); (3002, 1081); (4001, 1440); (5003, 1801);
    (6001, 2160); (7002, 2521) ]%Z.

Definition eighth_kilometre : list (Z * Z) :=
  [ (7010, 2524); (7100, 2556); (7500, 2700); (7999, 2880) ]%Z.

End Binary64.

(* ================================================================== *)
(** * Notions used in the statements *)
(* ================================================================== *)

(** The update of the specification, written from its words:
    [P_pred = P + Q], [K = P_pred / (P_pred + R)],
    [x = x + K (m - x)], [P = (1 - K) P_pred]; the triple is the new
    [(x, P, K)]. *)
Definition spec_kalman_update (x P Q R m : num) : num * num * num :=
  let P_pred := P + Q in
  let K := P_pred / (P_pred + R) in
  (x + K * (m - x), (1%Z - K) * P_pred, K).

(** A running session without a distance goal and without positions: the
    measured speed is 0. *)
Definition idle_run : RunTracker :=
  fst (RunTracker.start (mkLocalStorage None None None) 0%Z
         (RunTracker.constructor (mkLocalStorage None None None))).

(** The latitude and longitude the gate tests: the top-level field, else
    the field of [coords], else 0. *)
Definition fix_latitude (now : num) (pos : Position) : num :=
  co_latitude (sp_coords (RunTracker.standardise now pos)).

Definition fix_longitude (now : num) (pos : Position) : num :=
  co_longitude (sp_coords (RunTracker.standardise now pos)).

(** The position after the GPS filtering step. *)
Definition filteredOf (now : num) (pos : Position) (t : RunTracker)
  : StdPosition :=
  snd (RunTracker.applyGpsFiltering (RunTracker.fix_accuracy pos)
         (fix_latitude now pos) (fix_longitude now pos)
         (RunTracker.standardise now pos) t).

(** The tracker after the GPS filtering step and the duration update. *)
Definition timedOf (now : num) (pos : Position) (t : RunTracker)
  : RunTracker :=
  let t1 :=
    fst (RunTracker.applyGpsFiltering (RunTracker.fix_accuracy pos)
           (fix_latitude now pos) (fix_longitude now pos)
           (RunTracker.standardise now pos) t) in
  RunTracker.with_duration
    ((sp_timestamp (filteredOf now pos t) - startTime t1 - pausedTime t1)
     / 1000%Z) t1.

(** The distance from the last stored position to the filtered one. *)
Definition incrementOf (Math : MathLib) (now : num) (pos : Position)
  (t : RunTracker) (lastRawPosition : Position) : num :=
  RunTracker.calculateDistance Math
    (of_undefined (ps_latitude lastRawPosition))
    (of_undefined (ps_longitude lastRawPosition))
    (co_latitude (sp_coords (filteredOf now pos t)))
    (co_longitude (sp_coords (filteredOf now pos t))).

(** The fix passes the quality gate. *)
Definition passes_gate (now : num) (pos : Position) (t : RunTracker)
  : bool :=
  isTracking t && negb (isPaused t)
  && negb (RunTracker.fix_accuracy pos >? 20%Z)
  && negb (RunTracker.invalid_coordinates (fix_latitude now pos)
             (fix_longitude now pos)).

(** The states of a session after each fix of a sequence; every fix comes
    with the clock and the local storage at its delivery. *)
Fixpoint ingest (Math : MathLib)
  (filterLocation : StdPosition -> StdPosition -> bool)
  (t : RunTracker) (fixes : list (LocalStorage * num * Position))
  : list RunTracker :=
  match fixes with
  | [] => []
  | (ls, now, pos) :: rest =>
      let t' :=
        fst (RunTracker.addPosition Math filterLocation ls now pos t) in
      t' :: ingest Math filterLocation t' rest
  end.

(** Every state of the list has a distance no smaller than the one
    before it, the first one no smaller than [d]. *)
Fixpoint nondecreasing_from (d : num) (states : list RunTracker) : Prop :=
  match states with
  | [] => True
  | t :: rest =>
      (d <=? distance t) = true /\ nondecreasing_from (distance t) rest
  end.

(** Once the history holds three positions the latitude and longitude
    models are trained. *)
Definition models_trained (a : MovementPatternAnalyzer) : Prop :=
  (3 <= List.length (pa_positionHistory a))%nat ->
  lr_trained (pa_latModel a) = true /\ lr_trained (pa_lonModel a) = true.

(** The gap fillers a session can hold: built by the constructor and
    driven by [processPosition] and [reset]. *)
Inductive reachable (Math : MathLib) : GPSGapFiller -> Prop :=
| reach_constructor : reachable Math GPSGapFiller.constructor
| reach_reset g : reachable Math g -> reachable Math (GPSGapFiller.reset g)
| reach_process g now position :
    reachable Math g ->
    reachable Math (snd (GPSGapFiller.processPosition Math now position g)).

(** The gap fillers the tracker itself produces: [addPosition] is the only
    caller of [processPosition] and always hands it a real position. *)
Inductive fed_by_tracker (Math : MathLib) : GPSGapFiller -> Prop :=
| fed_constructor : fed_by_tracker Math GPSGapFiller.constructor
| fed_reset g :
    fed_by_tracker Math g -> fed_by_tracker Math (GPSGapFiller.reset g)
| fed_store g now fp t :
    fed_by_tracker Math g ->
    gpsGapFiller t = g ->
    fed_by_tracker Math
      (gpsGapFiller (RunTracker.storePosition Math now fp t)).

(** The confidence [predictPosition] gives at time [now] when the last
    position of the history has timestamp [lastTimestamp]. *)
Definition confidence_at (Math : MathLib) (now lastTimestamp : num) : num :=
  let timeGap := (now - lastTimestamp) / 1000%Z in
  JS.max (nq 1 10) (nq 9 10 * Math_exp Math (neg timeGap / 30%Z)).

(** Concrete sessions on which the statements are evaluated. *)
Module Scenario.

(** Default settings: kilometres, running, Kalman filtering. *)
Definition storage : LocalStorage := mkLocalStorage None None None.

(** A quality filter that accepts every point. *)
Definition accept_all (p q : StdPosition) : bool := true.

(** A fix as the location source delivers it. *)
Definition gps (lat lon accuracy timestamp : num) : Position :=
  {| ps_latitude := Some lat;
     ps_longitude := Some lon;
     ps_accuracy := Some accuracy;
     ps_altitude := None;
     ps_timestamp := Some timestamp;
     ps_coords := None |}.

Definition t0 : num := 1700000000000%Z.

(** A session started at [t0]. *)
Definition started : RunTracker :=
  fst (RunTracker.start storage t0 (RunTracker.constructor storage)).

(** The same session with a distance goal of 1000 m. *)
Definition started_with_goal : RunTracker :=
  fst (RunTracker.start storage t0
         (RunTracker.setDistanceGoal (Some (nz 1000))
            (RunTracker.constructor storage))).

(** The first fix, one second into the session, at (37, -122). *)
Definition fix1 : Position :=
  gps 37%Z (-122)%Z 5%Z 1700000001000%Z.

(** A second fix five minutes later, 0.01 degree further north: about
    1046 m after filtering. *)
Definition fix2 : Position :=
  gps (nq 3701 100) (-122)%Z 5%Z 1700000301000%Z.

(** A fix of accuracy 25 m, one with latitude 91 and one with longitude
    200. *)
Definition fix_inaccurate : Position :=
  gps (nq 37005 1000) (-122)%Z 25%Z 1700000002000%Z.
Definition fix_lat91 : Position :=
  gps 91%Z (-122)%Z 5%Z 1700000003000%Z.
Definition fix_lon200 : Position :=
  gps 37%Z 200%Z 5%Z 1700000004000%Z.

Definition after_fix1 (t : RunTracker) : RunTracker :=
  fst (RunTracker.addPosition RefMath.lib accept_all storage
         1700000001000%Z fix1 t).

(** The position stored for the first fix. *)
Definition stored1 : Position :=
  RunTracker.stored_position
    (filteredOf 1700000001000%Z fix1 started).

Definition now1 : num := 1700000001000%Z.
Definition now2 : num := 1700000301000%Z.

(** The first fix, a fix of accuracy 25 m a second later, and the second
    fix. *)
Definition fixes : list (LocalStorage * num * Position) :=
  [ (storage, now1, fix1);
    (storage, nz 1700000002000, fix_inaccurate);
    (storage, now2, fix2) ].

(** A gap filler fed three fixes one second apart, with the gap detected
    ten seconds after the last of them. *)
Definition real (lat lon timestamp : num) : option GapInput :=
  Some {| gi_lat := Some lat; gi_lon := Some lon;
          gi_coords_latitude := None; gi_coords_longitude := None;
          gi_timestamp := Some timestamp;
          gi_speed := None; gi_heading := None;
          gi_isPredicted := false |}.

Definition process (now : num) (p : option GapInput) (g : GPSGapFiller)
  : GPSGapFiller :=
  snd (GPSGapFiller.processPosition RefMath.lib now p g).

Definition in_gap : GPSGapFiller :=
  process 1700000012000%Z None
    (process 1700000002000%Z
       (real (nq 370002 10000) (-122)%Z 1700000002000%Z)
       (process 1700000001000%Z
          (real (nq 370001 10000) (-122)%Z 1700000001000%Z)
          (process 1700000000000%Z
             (real 37%Z (-122)%Z 1700000000000%Z)
             GPSGapFiller.constructor))).

End Scenario.

(** The claim as the specification words it: on an accepted fix that is
    not a micro-movement, a split is recorded exactly when
    [floor(distance / unit)] exceeds [floor(lastSplitDistance / unit)]. *)
Definition split_claim_as_stated (Math : MathLib)
  (filterLocation : StdPosition -> StdPosition -> bool) : Prop :=
  forall ls now pos (t : RunTracker) (lastRawPosition : Position),
    passes_gate now pos t = true ->
    last_of (positions t) = Some lastRawPosition ->
    filterLocation (filteredOf now pos t)
      (RunTracker.standardise now lastRawPosition) = true ->
    (incrementOf Math now pos t lastRawPosition >=? nq 5 10) = true ->
    let t' := fst (RunTracker.addPosition Math filterLocation ls now pos t) in
    let unit := RunTracker.splitDistanceOf (RunTracker.getDistanceUnit ls) in
    (JS.floor (distance t' / unit) >? JS.floor (lastSplitDistance t / unit))
    = true
    <-> List.length (splits t') = S (List.length (splits t)).

(** The claim as the specification words it: up to the threshold, with
    three positions in the history, [fillGap] returns a position. *)
Definition fillGap_claim_as_stated (Math : MathLib) : Prop :=
  forall (g : GPSGapFiller) (now : num),
    reachable Math g ->
    (now - gf_gapStartTime g >? 60000%Z) = false ->
    (3 <= List.length (pa_positionHistory (gf_patternAnalyzer g)))%nat ->
    exists p, GPSGapFiller.fillGap Math now g = Some p.

(** The three histories of the analyzer hold at most [n] entries. *)
Definition histories_bounded (n : nat) (a : MovementPatternAnalyzer)
  : Prop :=
  (List.length (pa_positionHistory a) <= n)%nat
  /\ (List.length (pa_velocityHistory a) <= n)%nat
  /\ (List.length (pa_accelerationHistory a) <= n)%nat.

(** A sequence of altitude readings handed to [updateElevation]. *)
Fixpoint climb (altitudes : list num) (t : RunTracker) : RunTracker :=
  match altitudes with
  | [] => t
  | a :: rest => climb rest (fst (RunTracker.updateElevation (Some a) t))
  end.

(** The last reading that is a number, [previous] when there is none: a
    NaN reading is ignored by [updateElevation]. *)
Fixpoint last_reading (previous : num) (altitudes : list num) : num :=
  match altitudes with
  | [] => previous
  | a :: rest => last_reading (if isNaN a then previous else a) rest
  end.

(** For every reading that is a number, the test that [updateElevation]
    makes on its difference with the reading before it,
    [Math.abs(diff) >= 1], fails. *)
Fixpoint small_steps (previous : num) (altitudes : list num) : Prop :=
  match altitudes with
  | [] => True
  | a :: rest =>
      if isNaN a then small_steps previous rest
      else (JS.abs (a - previous) >=? 1%Z) = false /\ small_steps a rest
  end.

(** [Math.pow] on the whole-number exponents a step counter produces:
    the exact power; NaN elsewhere.  Concrete scenarios are evaluated with
    it. *)
Definition pow_whole (base exponent : num) : num :=
  match base, exponent with
  | Fin b, Fin e =>
      if Qeq_bool e (inject_Z (Qfloor e)) && Qle_bool 0 e
      then Fin (Qpower b (Qfloor e))
      else NaN
  | _, _ => NaN
  end.

(** A run of accelerometer samples, each with the reading of the clock at
    which it is processed: the answers of [processAcceleration] and the
    counter after the last sample. *)
Fixpoint feed (Math : MathLib) (samples : list (Q * Acceleration))
  (s : StepCounter) : list bool * StepCounter :=
  match samples with
  | [] => ([], s)
  | (now, acceleration) :: rest =>
      let step := StepCounter.processAcceleration Math (Fin now)
                    acceleration s in
      let later := feed Math rest (snd step) in
      (fst step :: fst later, snd later)
  end.

(** The number of steps reported in a list of answers. *)
Fixpoint reported (answers : list bool) : nat :=
  match answers with
  | [] => 0
  | true :: rest => S (reported rest)
  | false :: rest => reported rest
  end.

(** No two answers in a row report a step. *)
Fixpoint never_twice_in_a_row (answers : list bool) : Prop :=
  match answers with
  | true :: ((true :: _) as rest) => False
  | _ :: rest => never_twice_in_a_row rest
  | [] => True
  end.

(** A run of motion samples handed to [addSample], each with the reading
    of the clock. *)
Fixpoint sample_all (samples : list (num * Motion)) (c : ActivityClassifier)
  : ActivityClassifier :=
  match samples with
  | [] => c
  | (now, motion) :: rest =>
      sample_all rest (ActivityClassifier.addSample now motion c)
  end.

(** The number of samples of a run that carry the given member. *)
Definition readings {A : Type} (member : Motion -> option A)
  (samples : list (num * Motion)) : nat :=
  List.length
    (List.filter
       (fun sample =>
          match member (snd sample) with Some _ => true | None => false end)
       samples).

(** The answers of the classifier other than "unknown". *)
Definition known_activities : list string :=
  ["stationary"; "cycle"; "walk"; "run"]%string.

(** A session paused and resumed over each interval of the list in turn,
    and the time those pauses add up to. *)
Fixpoint pause_and_resume (intervals : list (Q * Q)) (t : RunTracker)
  : RunTracker :=
  match intervals with
  | [] => t
  | (paused, resumed) :: rest =>
      pause_and_resume rest
        (fst (RunTracker.resume (Fin resumed)
                (fst (RunTracker.pause (Fin paused) t))))
  end.

Fixpoint total_pause (intervals : list (Q * Q)) : Q :=
  match intervals with
  | [] => 0%Q
  | (paused, resumed) :: rest => (resumed - paused + total_pause rest)%Q
  end.

(** A session saved a quarter of an hour in, 2.5 km covered with two
    splits recorded, and the readouts of a new tracker. *)
Module Saved.

Definition state : SavedState :=
  {| sv_distance := 2500%Z;
     sv_duration := 900%Z;
     sv_pace := nq 36 100;
     sv_splits :=
       [ {| split_km := 1%Z; split_time := 350%Z; split_pace := nq 35 100;
            split_isPartial := false |};
         {| split_km := 2%Z; split_time := 710%Z; split_pace := nq 36 100;
            split_isPartial := false |} ];
     sv_estimatedTotalSteps := None;
     sv_averageSpeed := None;
     sv_elevation :=
       {| el_current := Some (nz 120); el_gain := 14%Z; el_loss := 3%Z;
          el_lastAltitude := Some (nz 120) |};
     sv_activityType := Some ACTIVITY_TYPES.RUN;
     sv_timestamp := 1700000900000%Z |}.

Definition readouts : Readouts :=
  {| ro_pace := 0%Z;
     ro_currentSpeed := RunTracker.defaultSpeed Scenario.storage;
     ro_smoothedSpeedMps := 0%Z |}.

End Saved.

(** A run of fixes [(lat, lng, accuracy, timestamp)] handed to the
    two-dimensional filter: the fixes it returns and the filter after the
    last one. *)
Fixpoint update_all (Math : MathLib) (fixes : list (num * num * num * num))
  (f : KalmanFilter) : list FilteredFix * KalmanFilter :=
  match fixes with
  | [] => ([], f)
  | (lat, lng, accuracy, timestamp) :: rest =>
      let step := KalmanFilter.update Math lat lng accuracy timestamp f in
      let later := update_all Math rest (snd step) in
      (fst step :: fst later, snd later)
  end.


(* ================================================================== *)
(** * Properties of the number model *)
(* ================================================================== *)

Lemma Qlt_bool_iff (x y : Q) : Qlt_bool x y = true <-> (x < y)%Q.
Proof.
  unfold Qlt_bool. rewrite negb_true_iff.
  split; intro H.
  - apply Qnot_le_lt. intro Hle. apply Qle_bool_iff in Hle. congruence.
  - destruct (Qle_bool y x) eqn:E; [|reflexivity].
    apply Qle_bool_iff in E. exfalso. apply (Qlt_not_le _ _ H E).
Qed.

Lemma Qlt_bool_false_iff (x y : Q) : Qlt_bool x y = false <-> (y <= x)%Q.
Proof.
  unfold Qlt_bool. rewrite negb_false_iff. apply Qle_bool_iff.
Qed.

Lemma Qle_bool_false_iff (x y : Q) : Qle_bool x y = false <-> (y < x)%Q.
Proof.
  rewrite <- Qlt_bool_iff. unfold Qlt_bool.
  destruct (Qle_bool x y); simpl; split; congruence.
Qed.

Lemma le_Fin (x y : Q) : (Fin x <=? Fin y) = true <-> (x <= y)%Q.
Proof. apply Qle_bool_iff. Qed.

Lemma lt_Fin (x y : Q) : (Fin x <? Fin y) = true <-> (x < y)%Q.
Proof. apply Qlt_bool_iff. Qed.

(** Turns boolean comparisons of rationals in the context and the goal
    into propositions that [lra] reads. *)
Ltac qbool :=
  repeat match goal with
  | H : Qle_bool _ _ = true |- _ => apply Qle_bool_iff in H
  | H : Qle_bool _ _ = false |- _ => apply Qle_bool_false_iff in H
  | H : Qlt_bool _ _ = true |- _ => apply Qlt_bool_iff in H
  | H : Qlt_bool _ _ = false |- _ => apply Qlt_bool_false_iff in H
  | |- Qle_bool _ _ = true => apply Qle_bool_iff
  | |- Qle_bool _ _ = false => apply Qle_bool_false_iff
  | |- Qlt_bool _ _ = true => apply Qlt_bool_iff
  | |- Qlt_bool _ _ = false => apply Qlt_bool_false_iff
  end.

(** Adding an increment of at least half a metre to a non-negative
    distance gives a distance that is no smaller, and still non-negative. *)
Lemma add_increment_monotone (d inc : num) :
  (nz 0 <=? d) = true ->
  (inc >=? nq 5 10) = true ->
  (d <=? d + inc) = true /\ (nz 0 <=? d + inc) = true.
Proof.
  unfold ge, nz, nq.
  destruct d as [| | |d], inc as [| | |i]; simpl; try discriminate;
    try (split; reflexivity); intros Hd Hi; qbool.
  unfold inject_Z in *.
  split; qbool; lra.
Qed.

Lemma le_refl_nonneg (d : num) : (nz 0 <=? d) = true -> (d <=? d) = true.
Proof.
  destruct d as [| | |d]; simpl; try discriminate; try reflexivity.
  intros _. qbool. lra.
Qed.

Lemma le_trans_num (a b c : num) :
  (a <=? b) = true -> (b <=? c) = true -> (a <=? c) = true.
Proof.
  destruct a as [| | |a], b as [| | |b], c as [| | |c]; simpl;
    try discriminate; try reflexivity.
  intros; qbool; lra.
Qed.

(* ================================================================== *)
(** * The Kalman filter *)
(* ================================================================== *)

(** C3.  The first [filter(m)] after construction or after [reset()] stores
    [m] as the state and returns [m], with [P] left at 1; every later call
    performs the update of the specification and returns the new state;
    [adjustParameters(accuracy)] sets [R = max(0.001, accuracy/20)]. *)
Theorem kalman_filter_equations :
  (forall optQ optR m,
      let f := KalmanFilter1D.constructor optQ optR in
      let '(out, f') := KalmanFilter1D.filter m f in
      out = m /\ kf_x f' = Some m /\ kf_P f' = 1%Z
      /\ kf_Q f' = kf_Q f /\ kf_R f' = kf_R f)
  /\ (forall f0 m,
      let f := KalmanFilter1D.reset f0 in
      let '(out, f') := KalmanFilter1D.filter m f in
      out = m /\ kf_x f' = Some m /\ kf_P f' = 1%Z
      /\ kf_Q f' = kf_Q f0 /\ kf_R f' = kf_R f0)
  /\ (forall Q R x P K m,
      let f := {| kf_Q := Q; kf_R := R; kf_x := Some x;
                  kf_P := P; kf_K := K |} in
      let '(x', P', K') := spec_kalman_update x P Q R m in
      KalmanFilter1D.filter m f
      = (x', {| kf_Q := Q; kf_R := R; kf_x := Some x';
                kf_P := P'; kf_K := K' |}))
  /\ (forall accuracy f,
      let f' := KalmanFilter1D.adjustParameters accuracy f in
      kf_R f' = JS.max (nq 1 1000) (accuracy / 20%Z)
      /\ kf_Q f' = kf_Q f /\ kf_x f' = kf_x f /\ kf_P f' = kf_P f).
Proof.
  repeat split.
Qed.

(** The measurement noise set by [adjustParameters] is at least 0.001 for
    every accuracy that is a number, in particular for accuracy 0. *)
Lemma adjustParameters_clamps (accuracy : num) (f : KalmanFilter1D) :
  isNaN accuracy = false ->
  (nq 1 1000 <=? kf_R (KalmanFilter1D.adjustParameters accuracy f)) = true.
Proof.
  unfold nq, nz; destruct accuracy as [| | |a]; simpl;
    try discriminate; try reflexivity.
  intros _.
  unfold JS.div, Qsign. simpl.
  unfold JS.max, JS.lt.
  destruct (Qlt_bool (1 # 1000) (a / inject_Z 20)) eqn:E; simpl; qbool.
  - lra.
  - lra.
Qed.

Lemma adjustParameters_zero (f : KalmanFilter1D) :
  kf_R (KalmanFilter1D.adjustParameters 0%Z f) = nq 1 1000.
Proof. reflexivity. Qed.

(* ================================================================== *)
(** * The weighted filter on a reading of accuracy 0 *)
(* ================================================================== *)

(** A reading of accuracy 0 gets the weight [1 / (0 * 0)], which is
    infinite; the quotient of the weighted sum by the total weight is then
    NaN.  This holds for every finite latitude and longitude and every
    positive window size. *)
Lemma weighted_first_reading_accuracy_zero (lat lon : Q) (ts : num)
  (w : nat) :
  fst (WeightedGPSFilter.addReading
         {| rd_lat := Fin lat; rd_lon := Fin lon;
            rd_accuracy := 0%Z; rd_timestamp := ts |}
         (WeightedGPSFilter.constructor (S w)))
  = Some {| wr_lat := NaN; wr_lon := NaN; wr_accuracy := Fin (0 / 1) |}.
Proof.
  unfold WeightedGPSFilter.addReading, WeightedGPSFilter.constructor.
  cbn [wf_readings wf_windowSize app List.length].
  replace (S w <? 1)%nat with false
    by (symmetry; apply Nat.ltb_ge; lia).
  unfold WeightedGPSFilter.getWeightedAverage,
    WeightedGPSFilter.getAverageAccuracy.
  cbn [wf_readings fold_left WeightedGPSFilter.accumulate rd_accuracy
       rd_lat rd_lon].
  replace (1%Z / (nz 0 * nz 0)) with PInf by reflexivity.
  assert (Hlat : (nz 0 + Fin lat * PInf) / (nz 0 + PInf) = NaN).
  { unfold nz, JS.mul, Qsign. destruct (lat ?= 0)%Q; reflexivity. }
  assert (Hlon : (nz 0 + Fin lon * PInf) / (nz 0 + PInf) = NaN).
  { unfold nz, JS.mul, Qsign. destruct (lon ?= 0)%Q; reflexivity. }
  rewrite Hlat, Hlon. reflexivity.
Qed.

(** C4, at the failing input: the first reading of a session, at
    (37, -122) with accuracy 0, in a filter of the tracker's window size 5.
    The weighted mean is NaN in both coordinates.  On the same accuracy
    the Kalman strategy clamps its measurement noise to 0.001. *)
Theorem weighted_filter_accuracy_zero_gives_NaN :
  let reading := {| rd_lat := 37%Z; rd_lon := (-122)%Z;
                    rd_accuracy := 0%Z; rd_timestamp := 0%Z |} in
  option_map (fun r => (wr_lat r, wr_lon r))
    (fst (WeightedGPSFilter.addReading reading
            (WeightedGPSFilter.constructor 5)))
  = Some (NaN, NaN)
  /\ kf_R (KalmanFilter1D.adjustParameters (rd_accuracy reading)
             (KalmanFilter1D.constructor (Some (nz 3)) (Some (nq 1 100))))
     = nq 1 1000.
Proof.
  split; reflexivity.
Qed.

(* ================================================================== *)
(** * Adaptive sampling *)
(* ================================================================== *)

Ltac split_conditions :=
  repeat match goal with
  | |- context [if ?b then _ else _] => destruct b
  | |- context [match ?o with Some _ => _ | None => _ end] => destruct o
  end.

(** C6.  Whatever the activity type, the measured speed, the battery
    value, the distance goal and the distance covered, and whether the page
    is hidden or not, the interval computed lies in [3000, 60000] ms. *)
Theorem sampling_interval_in_range :
  forall (Math : MathLib) (speedMps : num) (batteryLevel : JSValue)
         (battery : option num) (hidden : bool) (t : RunTracker),
    let i := RunTracker.samplingIntervalFor speedMps batteryLevel hidden t in
    let j := RunTracker.calculateOptimalSamplingInterval Math battery
               hidden t in
    ((3000%Z <=? i) = true /\ (i <=? 60000%Z) = true)
    /\ ((3000%Z <=? j) = true /\ (j <=? 60000%Z) = true).
Proof.
  intros Math speedMps batteryLevel battery hidden t.
  assert (H : forall s b,
             let i := RunTracker.samplingIntervalFor s b hidden t in
             (3000%Z <=? i) = true /\ (i <=? 60000%Z) = true).
  { intros s b. unfold RunTracker.samplingIntervalFor. cbv zeta.
    split_conditions; split; vm_compute; reflexivity. }
  split; [apply H | apply H].
Qed.

(** The tracker's read of the battery is a promise or [null]; neither
    compares below 30, so the battery never changes the interval. *)
Lemma battery_never_scales :
  forall (Math : MathLib) (battery : option num) (hidden : bool)
         (t : RunTracker),
    RunTracker.calculateOptimalSamplingInterval Math battery hidden t
    = RunTracker.samplingIntervalFor
        (RunTracker.calculateCurrentSpeed Math t) JNull hidden t.
Proof.
  intros. unfold RunTracker.calculateOptimalSamplingInterval,
    RunTracker.samplingIntervalFor.
  destruct battery; reflexivity.
Qed.

(** Had the battery level been a number, the second test of the chain
    [< 30 ... else < 15] could not be reached below 15: the factor on a
    level below 15 is 1.5. *)
Lemma critical_battery_branch_unreachable :
  forall (speedMps : num) (level : Q) (t : RunTracker),
    (level < 15)%Q ->
    distanceGoal t = None ->
    RunTracker.samplingIntervalFor speedMps (JNumber (Fin level)) false t
    = RunTracker.samplingIntervalFor speedMps (JNumber 20%Z) false t.
Proof.
  intros speedMps level t Hlevel Hgoal.
  unfold RunTracker.samplingIntervalFor. rewrite Hgoal.
  cbn [not_null to_number andb].
  replace (Fin level <? 30%Z) with true
    by (symmetry; apply lt_Fin; unfold inject_Z; lra).
  reflexivity.
Qed.

(** C7, at the failing input: a running session at a battery level of 10%
    (API value 0.10), page visible.  The speed-adjusted interval is 30000 ms
    (speed below 0.5 m/s); the code returns 30000, not 60000 (x2) and not
    45000 (x1.5).  With the level handed over as the plain number 10 the
    factor applied is 1.5, not 2: at a speed of 3 m/s the run interval
    10000 becomes 15000, not 20000. *)
Theorem critical_battery_interval_not_doubled :
  RunTracker.calculateCurrentSpeed RefMath.lib idle_run = 0%Z
  /\ RunTracker.samplingIntervalFor 0%Z JNull false idle_run = 30000%Z
  /\ RunTracker.calculateOptimalSamplingInterval RefMath.lib
       (Some (nq 10 100)) false idle_run = 30000%Z
  /\ RunTracker.samplingIntervalFor 3%Z JNull false idle_run = 10000%Z
  /\ JS.same
       (RunTracker.samplingIntervalFor 3%Z (JNumber 10%Z) false idle_run)
       15000%Z.
Proof.
  repeat split.
Qed.

(* ================================================================== *)
(** * Pause and resume *)
(* ================================================================== *)

(** While the session is paused (or not tracking) a fix changes nothing. *)
Lemma addPosition_not_active :
  forall Math filterLocation ls now pos t,
    negb (isTracking t) || isPaused t = true ->
    RunTracker.addPosition Math filterLocation ls now pos t = (t, []).
Proof.
  intros Math fl ls now pos t H. unfold RunTracker.addPosition.
  rewrite H. reflexivity.
Qed.

(** C9.  On a session that is tracking and not paused, [pause()] at time
    [tPause] followed by [resume()] at time [tResume] leaves the distance
    and the recorded splits as they were and adds [tResume - tPause] to the
    accumulated paused time; with finite times and [tResume = tPause + dt],
    the paused time grows by exactly [dt]. *)
Theorem pause_then_resume :
  forall (t : RunTracker) (tPause tResume : num),
    isTracking t = true ->
    isPaused t = false ->
    let t' := fst (RunTracker.resume tResume
                     (fst (RunTracker.pause tPause t))) in
    distance t' = distance t
    /\ splits t' = splits t
    /\ pausedTime t' = pausedTime t + (tResume - tPause)
    /\ (forall p a dt : Q,
           pausedTime t = Fin p -> tPause = Fin a ->
           tResume = Fin (a + dt) ->
           JS.same (pausedTime t') (Fin (p + dt)))
    /\ isTracking t' = true /\ isPaused t' = false.
Proof.
  intros t tPause tResume Htr Hpa.
  unfold RunTracker.pause, RunTracker.resume.
  rewrite Htr, Hpa. cbn.
  rewrite Htr. cbn.
  repeat split; try assumption.
  intros p a dt Hp Ha Hr. rewrite Hp, Ha, Hr. cbn. ring.
Qed.

(** Fixes delivered between [pause()] and [resume()] are ignored. *)
Lemma fix_while_paused_ignored :
  forall Math filterLocation ls now tPause pos (t : RunTracker),
    isTracking t = true ->
    isPaused t = false ->
    let paused := fst (RunTracker.pause tPause t) in
    RunTracker.addPosition Math filterLocation ls now pos paused
    = (paused, []).
Proof.
  intros Math fl ls now tPause pos t Htr Hpa paused.
  apply addPosition_not_active.
  unfold paused, RunTracker.pause. rewrite Htr, Hpa. cbn.
  apply orb_true_r.
Qed.

(* ================================================================== *)
(** * The ingestion quality gate *)
(* ================================================================== *)

(** The gate: such a fix makes [addPosition] return at once. *)
Lemma gate_closed :
  forall Math filterLocation ls now (pos : Position) (t : RunTracker),
    let lat := fix_latitude now pos in
    let lon := fix_longitude now pos in
    (RunTracker.fix_accuracy pos >? 20%Z) = true
    \/ (lat <? (-90)%Z) = true \/ (lat >? 90%Z) = true
    \/ (lon <? (-180)%Z) = true \/ (lon >? 180%Z) = true
    \/ lat = NaN \/ lon = NaN ->
    RunTracker.addPosition Math filterLocation ls now pos t = (t, []).
Proof.
  intros Math fl ls now pos t lat lon H.
  unfold RunTracker.addPosition.
  destruct (negb (isTracking t) || isPaused t); [reflexivity|].
  destruct (RunTracker.fix_accuracy pos >? 20%Z) eqn:Hacc;
    [reflexivity|].
  fold (fix_latitude now pos) (fix_longitude now pos).
  fold lat lon.
  replace (RunTracker.invalid_coordinates lat lon) with true;
    [reflexivity|].
  unfold RunTracker.invalid_coordinates.
  destruct H as [H|[H|[H|[H|[H|[H|H]]]]]]; try congruence;
    rewrite H; cbn; rewrite ?orb_true_r; reflexivity.
Qed.

(** C2.  A fix whose accuracy exceeds 20 m, or whose latitude lies outside
    [-90, 90], or whose longitude lies outside [-180, 180], or one of whose
    coordinates is NaN, leaves the whole session as it was, in particular
    the distance, the elevation state, the three Kalman filters and the
    window of the weighted filter, and emits no event. *)
Theorem rejected_fix_changes_nothing :
  forall Math filterLocation ls now (pos : Position) (t : RunTracker),
    let lat := fix_latitude now pos in
    let lon := fix_longitude now pos in
    (RunTracker.fix_accuracy pos >? 20%Z) = true
    \/ (lat <? (-90)%Z) = true \/ (lat >? 90%Z) = true
    \/ (lon <? (-180)%Z) = true \/ (lon >? 180%Z) = true
    \/ lat = NaN \/ lon = NaN ->
    let result :=
      RunTracker.addPosition Math filterLocation ls now pos t in
    let t' := fst result in
    let events := snd result in
    events = []
    /\ t' = t
    /\ distance t' = distance t
    /\ elevation t' = elevation t
    /\ latFilter t' = latFilter t
    /\ lonFilter t' = lonFilter t
    /\ altFilter t' = altFilter t
    /\ weightedFilter t' = weightedFilter t.
Proof.
  intros Math fl ls now pos t lat lon H.
  cbv zeta. rewrite (gate_closed Math fl ls now pos t H).
  repeat split.
Qed.

(* ================================================================== *)
(** * The steps of [addPosition] *)
(* ================================================================== *)

Lemma with_filters_eta (t : RunTracker) :
  RunTracker.with_filters (latFilter t) (lonFilter t) (altFilter t)
    (weightedFilter t) t = t.
Proof. destruct t; reflexivity. Qed.

(** The filtering step touches the four filters only. *)
Lemma applyGpsFiltering_frame accuracy lat lon cps (t : RunTracker) :
  let t1 := fst (RunTracker.applyGpsFiltering accuracy lat lon cps t) in
  t1 = RunTracker.with_filters (latFilter t1) (lonFilter t1) (altFilter t1)
         (weightedFilter t1) t.
Proof.
  unfold RunTracker.applyGpsFiltering.
  destruct (String.eqb (gpsFilteringMode t) "kalman").
  - destruct (KalmanFilter1D.filter lat _) as [fl latF'].
    destruct (KalmanFilter1D.filter lon _) as [fo lonF'].
    destruct (co_altitude (sp_coords cps)) as [alt|].
    + destruct (KalmanFilter1D.filter alt _) as [fa altF']. reflexivity.
    + reflexivity.
  - destruct (String.eqb (gpsFilteringMode t) "weighted").
    + destruct (WeightedGPSFilter.addReading _ _) as [r wF]. reflexivity.
    + cbn. symmetry. apply with_filters_eta.
Qed.

Lemma timedOf_frame now pos (t : RunTracker) :
  exists latF lonF altF wF d,
    timedOf now pos t
    = RunTracker.with_duration d
        (RunTracker.with_filters latF lonF altF wF t).
Proof.
  unfold timedOf.
  set (r := RunTracker.applyGpsFiltering _ _ _ _ t).
  pose proof (applyGpsFiltering_frame (RunTracker.fix_accuracy pos)
                (fix_latitude now pos) (fix_longitude now pos)
                (RunTracker.standardise now pos) t) as H.
  cbv zeta in H. fold r in H.
  exists (latFilter (fst r)), (lonFilter (fst r)), (altFilter (fst r)),
    (weightedFilter (fst r)).
  eexists. rewrite <- H. reflexivity.
Qed.

(** [addPosition] in terms of its steps, for a fix that passes the gate. *)
Lemma addPosition_passed :
  forall Math filterLocation ls now pos (t : RunTracker),
    passes_gate now pos t = true ->
    RunTracker.addPosition Math filterLocation ls now pos t
    = let t2 := timedOf now pos t in
      let fp := filteredOf now pos t in
      let ev0 := [DurationChange (duration t2)] in
      match last_of (positions t) with
      | Some lastRawPosition =>
          if negb (filterLocation fp
                     (RunTracker.standardise now lastRawPosition))
          then (t2, ev0)
          else
            match RunTracker.accumulateDistance
                    (incrementOf Math now pos t lastRawPosition) t2 with
            | (t3, ev1, true) => (t3, ev0 ++ ev1)
            | (t3, ev1, false) =>
                let '(t4, ev2) :=
                  RunTracker.updateElevation (co_altitude (sp_coords fp))
                    t3 in
                let '(t5, ev3) := RunTracker.recordSplit ls t4 in
                (RunTracker.storePosition Math now fp t5,
                 ev0 ++ ev1 ++ ev2 ++ ev3)
            end
      | None => (RunTracker.storePosition Math now fp t2, ev0)
      end.
Proof.
  intros Math fl ls now pos t Hgate.
  unfold passes_gate in Hgate.
  apply andb_true_iff in Hgate as [Hgate Hcoord].
  apply andb_true_iff in Hgate as [Hgate Hacc].
  apply andb_true_iff in Hgate as [Htr Hpa].
  apply negb_true_iff in Hcoord, Hacc, Hpa.
  unfold RunTracker.addPosition.
  rewrite Htr, Hpa. cbn [negb orb].
  rewrite Hacc.
  fold (fix_latitude now pos) (fix_longitude now pos).
  rewrite Hcoord.
  assert (Hpos : positions (timedOf now pos t) = positions t).
  { destruct (timedOf_frame now pos t) as (a & b & c & d & e & ->).
    reflexivity. }
  unfold incrementOf.
  unfold timedOf, filteredOf in *.
  destruct (RunTracker.applyGpsFiltering _ _ _ _ t) as [t1 fp].
  cbn [fst snd] in *. cbv zeta.
  rewrite Hpos. reflexivity.
Qed.

(** A fix that does not pass the gate changes nothing. *)
Lemma addPosition_rejected :
  forall Math filterLocation ls now pos (t : RunTracker),
    passes_gate now pos t = false ->
    RunTracker.addPosition Math filterLocation ls now pos t = (t, []).
Proof.
  intros Math fl ls now pos t Hgate.
  unfold passes_gate in Hgate. unfold RunTracker.addPosition.
  destruct (isTracking t), (isPaused t); cbn [negb andb orb] in *;
    try reflexivity.
  destruct (RunTracker.fix_accuracy pos >? 20%Z); cbn [negb andb] in *;
    try reflexivity.
  fold (fix_latitude now pos) (fix_longitude now pos).
  apply negb_false_iff in Hgate. rewrite Hgate. reflexivity.
Qed.

(** ** What each step does to the distance *)

Lemma accumulateDistance_distance inc (t : RunTracker) :
  (nz 0 <=? distance t) = true ->
  let t3 := fst (fst (RunTracker.accumulateDistance inc t)) in
  (distance t <=? distance t3) = true /\ (nz 0 <=? distance t3) = true.
Proof.
  intros Hd. unfold RunTracker.accumulateDistance.
  destruct (inc >=? RunTracker.MOVEMENT_THRESHOLD) eqn:Hinc.
  - pose proof (add_increment_monotone (distance t) inc Hd Hinc) as Hm.
    destruct (RunTracker.goal_reached _); [exact Hm|].
    destruct (String.eqb _ _); exact Hm.
  - cbn. split; [apply le_refl_nonneg|]; assumption.
Qed.

Lemma updateElevation_frame altitude (t : RunTracker) :
  let t' := fst (RunTracker.updateElevation altitude t) in
  t' = RunTracker.with_elevation (elevation t') t.
Proof.
  unfold RunTracker.updateElevation.
  destruct altitude as [alt|]; [destruct (isNaN alt)|];
    try (cbn; destruct t; reflexivity).
  destruct (match el_lastAltitude (elevation t) with
            | Some _ => _ | None => _ end) as [gain loss].
  reflexivity.
Qed.

Lemma recordSplit_cases ls (t : RunTracker) :
  RunTracker.recordSplit ls t
  = if RunTracker.split_due ls t then
      let unit := RunTracker.splitDistanceOf (RunTracker.getDistanceUnit ls) in
      let index := JS.floor (distance t / unit) in
      let previous :=
        match last_of (splits t) with
        | Some s => split_time s
        | None => nz 0
        end in
      let s := {| split_km := index;
                  split_time := duration t;
                  split_pace := (duration t - previous) / unit;
                  split_isPartial := false |} in
      (RunTracker.with_split s (index * unit) t,
       [SplitRecorded (splits t ++ [s])])
    else (t, []).
Proof.
  unfold RunTracker.recordSplit, RunTracker.split_due. cbv zeta.
  destruct (_ >? _); reflexivity.
Qed.

Lemma recordSplit_distance ls (t : RunTracker) :
  distance (fst (RunTracker.recordSplit ls t)) = distance t.
Proof.
  rewrite recordSplit_cases. destruct (RunTracker.split_due ls t);
    reflexivity.
Qed.

Lemma updateElevation_distance altitude (t : RunTracker) :
  distance (fst (RunTracker.updateElevation altitude t)) = distance t.
Proof.
  pose proof (updateElevation_frame altitude t) as H. cbv zeta in H.
  rewrite H. reflexivity.
Qed.

Lemma timedOf_distance now pos (t : RunTracker) :
  distance (timedOf now pos t) = distance t.
Proof.
  destruct (timedOf_frame now pos t) as (a & b & c & d & e & ->).
  reflexivity.
Qed.

Lemma storePosition_distance Math now fp (t : RunTracker) :
  distance (RunTracker.storePosition Math now fp t) = distance t.
Proof. reflexivity. Qed.

(** One fix: the distance does not decrease and stays non-negative. *)
Lemma addPosition_distance :
  forall Math filterLocation ls now pos (t : RunTracker),
    (nz 0 <=? distance t) = true ->
    let t' := fst (RunTracker.addPosition Math filterLocation ls now pos t) in
    (distance t <=? distance t') = true /\ (nz 0 <=? distance t') = true.
Proof.
  intros Math fl ls now pos t Hd.
  destruct (passes_gate now pos t) eqn:Hgate.
  2:{ rewrite addPosition_rejected by assumption. cbn [fst].
      split; [apply le_refl_nonneg|]; assumption. }
  rewrite addPosition_passed by assumption. cbv zeta.
  assert (Hd2 : (nz 0 <=? distance (timedOf now pos t)) = true)
    by (rewrite timedOf_distance; assumption).
  destruct (last_of (positions t)) as [lastRaw|].
  2:{ cbn [fst]. rewrite storePosition_distance, timedOf_distance.
      split; [apply le_refl_nonneg|]; assumption. }
  destruct (negb (fl _ _)).
  { cbn [fst]. rewrite timedOf_distance.
    split; [apply le_refl_nonneg|]; assumption. }
  pose proof (accumulateDistance_distance
                (incrementOf Math now pos t lastRaw) _ Hd2) as Hacc.
  cbv zeta in Hacc. rewrite timedOf_distance in Hacc.
  destruct (RunTracker.accumulateDistance _ _) as [[t3 ev1] ret].
  cbn [fst] in Hacc.
  destruct ret; [exact Hacc|].
  pose proof (updateElevation_distance
                (co_altitude (sp_coords (filteredOf now pos t))) t3) as He.
  destruct (RunTracker.updateElevation _ t3) as [t4 ev2].
  pose proof (recordSplit_distance ls t4) as Hs.
  destruct (RunTracker.recordSplit ls t4) as [t5 ev3].
  cbn [fst] in *. rewrite storePosition_distance, Hs, He. exact Hacc.
Qed.

(** C1.  From a session whose distance is a non-negative number, along
    every sequence of fixes handed to [addPosition], the distance after
    each fix is greater than or equal to the distance before it.  (Nothing
    is asked of the fixes; those that are invalid, out of range, or arrive
    while the session is paused or not tracking leave the distance as it
    is.) *)
Theorem distance_never_decreases :
  forall Math filterLocation
         (fixes : list (LocalStorage * num * Position)) (t : RunTracker),
    (nz 0 <=? distance t) = true ->
    nondecreasing_from (distance t) (ingest Math filterLocation t fixes).
Proof.
  intros Math fl fixes. induction fixes as [|[[ls now] pos] rest IH];
    intros t Hd; cbn [ingest nondecreasing_from].
  - exact I.
  - destruct (addPosition_distance Math fl ls now pos t Hd) as [Hle Hpos].
    split; [exact Hle|]. apply IH. exact Hpos.
Qed.

(* ================================================================== *)
(** * The distance goal *)
(* ================================================================== *)

(** The movement branch touches the distance and the step estimate only. *)
Lemma accumulateDistance_frame inc (t : RunTracker) :
  let t3 := fst (fst (RunTracker.accumulateDistance inc t)) in
  t3 = RunTracker.with_estimatedSteps (estimatedSteps t3)
         (RunTracker.with_distance (distance t3) t).
Proof.
  unfold RunTracker.accumulateDistance.
  destruct (inc >=? RunTracker.MOVEMENT_THRESHOLD).
  - destruct (RunTracker.goal_reached _); [reflexivity|].
    destruct (String.eqb _ _); reflexivity.
  - cbn. destruct t; reflexivity.
Qed.

(** C10.  A fix that passes the gate, has a predecessor in the history, is
    accepted by the quality filter, moves at least 0.5 m and brings the
    distance to an active goal or beyond: [addPosition] emits the
    goal-reached notification as its last event and returns; the session is
    still tracking, and the position history, the elevation state, the
    splits and the last split distance are as before the fix. *)
Theorem goal_reached_returns_early :
  forall Math filterLocation ls now pos (t : RunTracker)
         (lastRawPosition : Position) (goal : num),
    passes_gate now pos t = true ->
    last_of (positions t) = Some lastRawPosition ->
    filterLocation (filteredOf now pos t)
      (RunTracker.standardise now lastRawPosition) = true ->
    let inc := incrementOf Math now pos t lastRawPosition in
    (inc >=? nq 5 10) = true ->
    distanceGoal t = Some goal ->
    truthy goal = true ->
    (distance t + inc >=? goal) = true ->
    let result :=
      RunTracker.addPosition Math filterLocation ls now pos t in
    let t' := fst result in
    let events := snd result in
    events = [DurationChange (duration t');
              DistanceChange (distance t + inc);
              GoalReached (distance t + inc) goal]
    /\ distance t' = distance t + inc
    /\ isTracking t' = true
    /\ isPaused t' = false
    /\ positions t' = positions t
    /\ elevation t' = elevation t
    /\ splits t' = splits t
    /\ lastSplitDistance t' = lastSplitDistance t.
Proof.
  intros Math fl ls now pos t lastRaw goal Hgate Hlast Hfl inc Hinc Hgoal
    Htruthy Hreach.
  rewrite addPosition_passed by assumption. cbv zeta.
  rewrite Hlast, Hfl. cbn [negb].
  fold inc.
  unfold passes_gate in Hgate.
  apply andb_true_iff in Hgate as [Hgate _].
  apply andb_true_iff in Hgate as [Hgate _].
  apply andb_true_iff in Hgate as [Htr Hpa].
  apply negb_true_iff in Hpa.
  destruct (timedOf_frame now pos t) as (a & b & c & d & e & ->).
  unfold RunTracker.accumulateDistance.
  change RunTracker.MOVEMENT_THRESHOLD with (nq 5 10).
  rewrite Hinc.
  unfold RunTracker.goal_reached.
  cbn [distance distanceGoal RunTracker.with_distance
       RunTracker.with_duration RunTracker.with_filters].
  rewrite Hgoal, Htruthy, Hreach.
  cbn. repeat split; assumption.
Qed.

(* ================================================================== *)
(** * Splits *)
(* ================================================================== *)

Lemma splitDistanceOf_positive (distanceUnit : string) :
  exists u : Q,
    RunTracker.splitDistanceOf distanceUnit = Fin u /\ (0 < u)%Q.
Proof.
  unfold RunTracker.splitDistanceOf.
  destruct (String.eqb distanceUnit "km");
    eexists; (split; [reflexivity | unfold Qlt; reflexivity]).
Qed.

(** The split evaluation of one fix.  For a fix that passes the gate, has
    a predecessor in the history, is accepted by the quality filter and
    does not take the goal-reached return (it is a micro-movement, or the
    goal is not reached): a split is recorded if and only if
    [floor(distance / unit) > floor(lastSplitDistance / unit)], with the
    distance after the fix.  The split recorded carries that index, the
    duration, the pace [(duration - previous split time) / unit] and
    [isPartial = false]; [lastSplitDistance] becomes [index * unit]; at
    most one split is recorded for the fix.  Whether a split is due again
    at the next fix is decided by the rounding of [index * unit / unit]:
    see [Binary64]. *)
Theorem split_recorded_when_unit_completed :
  forall Math filterLocation ls now pos (t : RunTracker)
         (lastRawPosition : Position),
    passes_gate now pos t = true ->
    last_of (positions t) = Some lastRawPosition ->
    filterLocation (filteredOf now pos t)
      (RunTracker.standardise now lastRawPosition) = true ->
    let inc := incrementOf Math now pos t lastRawPosition in
    (inc >=? nq 5 10) = false
    \/ RunTracker.goal_reached
         (RunTracker.with_distance (distance t + inc) t) = false ->
    let result :=
      RunTracker.addPosition Math filterLocation ls now pos t in
    let t' := fst result in
    let events := snd result in
    let unit := RunTracker.splitDistanceOf (RunTracker.getDistanceUnit ls) in
    let index := JS.floor (distance t' / unit) in
    let previous :=
      match last_of (splits t) with
      | Some s => split_time s
      | None => nz 0
      end in
    (if index >? JS.floor (lastSplitDistance t / unit)
     then
       splits t'
       = splits t ++ [ {| split_km := index;
                          split_time := duration t';
                          split_pace := (duration t' - previous) / unit;
                          split_isPartial := false |} ]
       /\ lastSplitDistance t' = index * unit
       /\ last events (DurationChange 0%Z) = SplitRecorded (splits t')
     else
       splits t' = splits t
       /\ lastSplitDistance t' = lastSplitDistance t
       /\ ~ In (SplitRecorded (splits t')) events)
    /\ (List.length (splits t') <= S (List.length (splits t)))%nat.
Proof.
  intros Math fl ls now pos t lastRaw Hgate Hlast Hfl inc Hnogoal.
  rewrite addPosition_passed by assumption. cbv zeta.
  rewrite Hlast, Hfl. cbn [negb]. fold inc.
  destruct (timedOf_frame now pos t) as (a & b & c & d & e & Ht2).
  rewrite Ht2.
  set (t2 := RunTracker.with_duration e
               (RunTracker.with_filters a b c d t)).
  pose proof (accumulateDistance_frame inc t2) as Hframe.
  assert (Hret : snd (RunTracker.accumulateDistance inc t2) = false).
  { unfold RunTracker.accumulateDistance.
    change RunTracker.MOVEMENT_THRESHOLD with (nq 5 10).
    destruct (inc >=? nq 5 10) eqn:Hinc; [|reflexivity].
    destruct Hnogoal as [Hn|Hn]; [discriminate|].
    replace (RunTracker.goal_reached
               (RunTracker.with_distance (distance t2 + inc) t2))
      with (RunTracker.goal_reached
              (RunTracker.with_distance (distance t + inc) t))
      by reflexivity.
    rewrite Hn. destruct (String.eqb _ _); reflexivity. }
  assert (Hev1 : forall s,
             ~ In (SplitRecorded s)
                 (snd (fst (RunTracker.accumulateDistance inc t2)))).
  { intros s. unfold RunTracker.accumulateDistance.
    destruct (inc >=? _); [|intros []].
    destruct (RunTracker.goal_reached _);
      [cbn; intros [H|[H|[]]]; discriminate|].
    destruct (String.eqb _ _); cbn; intuition discriminate. }
  destruct (RunTracker.accumulateDistance inc t2) as [[t3 ev1] ret].
  cbn [fst snd] in Hframe, Hret, Hev1. subst ret.
  pose proof (updateElevation_frame
                (co_altitude (sp_coords (filteredOf now pos t))) t3) as He.
  assert (Hev2 : forall s,
             ~ In (SplitRecorded s)
                 (snd (RunTracker.updateElevation
                         (co_altitude (sp_coords (filteredOf now pos t)))
                         t3))).
  { intros s. unfold RunTracker.updateElevation.
    destruct (co_altitude _) as [alt|]; [|intros []].
    destruct (isNaN alt); [intros []|].
    destruct (match el_lastAltitude (elevation t3) with
              | Some _ => _ | None => _ end).
    cbn. intuition discriminate. }
  destruct (RunTracker.updateElevation _ t3) as [t4 ev2].
  cbn [fst snd] in He, Hev2.
  assert (Hsplits4 : splits t4 = splits t)
    by (rewrite He, Hframe; reflexivity).
  assert (Hlast4 : lastSplitDistance t4 = lastSplitDistance t)
    by (rewrite He, Hframe; reflexivity).
  rewrite recordSplit_cases.
  assert (Hcond :
            (JS.floor (distance t4 / RunTracker.splitDistanceOf
                                       (RunTracker.getDistanceUnit ls))
             >? JS.floor (lastSplitDistance t
                          / RunTracker.splitDistanceOf
                              (RunTracker.getDistanceUnit ls)))
            = RunTracker.split_due ls t4)
    by (unfold RunTracker.split_due; rewrite Hlast4; reflexivity).
  destruct (RunTracker.split_due ls t4) eqn:Hdue; cbv zeta;
    unfold RunTracker.storePosition;
    cbn [fst snd distance duration splits lastSplitDistance
         RunTracker.with_stored RunTracker.with_split];
    rewrite Hcond, Hsplits4.
  - split.
    + repeat split.
      rewrite !app_assoc. rewrite last_last. reflexivity.
    + rewrite length_app. cbn. lia.
  - split.
    + repeat split; [exact Hlast4|].
      intros Hin. cbn in Hin.
      destruct Hin as [Hin|Hin]; [discriminate|].
      rewrite app_nil_r in Hin. apply in_app_or in Hin.
      destruct Hin as [Hin|Hin]; [eapply Hev1 | eapply Hev2]; exact Hin.
    + lia.
Qed.

(** [Binary64.floor] on numbers with a fractional part, of either sign,
    and on whole numbers. *)
Example floor_of_binary64 :
  let ratio (a b : Z) :=
    PrimFloat.div (Binary64.number a) (Binary64.number b) in
  map Binary64.floor
    [ratio 37 10; ratio (-37) 10; ratio 4 1; ratio 1 2; ratio (-1) 2;
     ratio 11266 1]%Z
  = map Binary64.number [3; -4; 4; 0; -1; 11266]%Z.
Proof. vm_compute. reflexivity. Qed.

(** The number stored after the seventh mile, [7 * 1609.344], is
    11265.407999999999 in binary64, and dividing it by 1609.344 gives
    6.999999999999999: its floor is 6, not 7.  The same happens at the
    miles 14 and 28, and at no other of the first thirty. *)
Lemma miles_that_round_down :
  let unit := Binary64.splitDistanceOf "mi" in
  let units_in (k : Z) :=
    Binary64.floor
      (PrimFloat.div (PrimFloat.mul (Binary64.number k) unit) unit) in
  filter
    (fun k => negb (PrimFloat.eqb (units_in k) (Binary64.number k)))
    (map Z.of_nat (seq 1 30))
  = [7; 14; 28]%Z
  /\ map units_in [7; 14; 28]%Z = map Binary64.number [6; 13; 27]%Z.
Proof. cbv zeta. split; vm_compute; reflexivity. Qed.

(** C8.  In binary64 one completed mile has its split recorded more than
    once.  With the unit set to miles, a run whose fixes fall shortly
    after each of the first seven whole miles has the splits 1 to 7
    recorded, one per mile.  [lastSplitDistance] is then [7 * 1609.344],
    whose quotient by 1609.344 has the floor 6, so the comparison of the
    floors holds again at the next fix: every further fix within the
    eighth mile records a split numbered 7 and leaves [lastSplitDistance]
    as it is, and the run with four such fixes ends with five splits
    numbered 7.  In kilometres a run of the same shape records each split
    once. *)
Theorem mile_split_recorded_on_every_fix :
  let after_seven_miles :=
    fold_left (Binary64.evaluate "mi") Binary64.seven_miles
      Binary64.started in
  Binary64.split_numbers after_seven_miles
  = map Binary64.number [1; 2; 3; 4; 5; 6; 7]%Z
  /\ Binary64.floor
       (PrimFloat.div (Binary64.lastSplitDistance after_seven_miles)
          (Binary64.splitDistanceOf "mi"))
     = Binary64.number 6
  /\ (forall reading : Z * Z,
        In reading Binary64.eighth_mile ->
        let next := Binary64.evaluate "mi" after_seven_miles reading in
        Binary64.split_numbers next
        = Binary64.split_numbers after_seven_miles ++ [Binary64.number 7]
        /\ Binary64.lastSplitDistance next
           = Binary64.lastSplitDistance after_seven_miles)
  /\ Binary64.split_numbers
       (fold_left (Binary64.evaluate "mi")
          (Binary64.seven_miles ++ Binary64.eighth_mile) Binary64.started)
     = map Binary64.number [1; 2; 3; 4; 5; 6; 7; 7; 7; 7; 7]%Z
  /\ Binary64.split_numbers
       (fold_left (Binary64.evaluate "km")
          (Binary64.seven_kilometres ++ Binary64.eighth_kilometre)
          Binary64.started)
     = map Binary64.number [1; 2; 3; 4; 5; 6; 7]%Z.
Proof.
  cbv zeta. split; [vm_compute; reflexivity|].
  split; [vm_compute; reflexivity|].
  split; [|split; vm_compute; reflexivity].
  intros reading [<-|[<-|[<-|[<-|[]]]]]; split; vm_compute; reflexivity.
Qed.

(* ================================================================== *)
(** * The gap filler *)
(* ================================================================== *)

Lemma train_trains (data : list Point) (m : LinearRegression) :
  (2 <= List.length data)%nat ->
  lr_trained (LinearRegression.train data m) = true.
Proof.
  intros H. unfold LinearRegression.train.
  replace (List.length data <? 2)%nat with false
    by (symmetry; apply Nat.ltb_ge; exact H).
  destruct (fold_left _ _ _) as [[[sumX sumY] sumXY] sumXX]. reflexivity.
Qed.

Lemma updateVelocityAndAcceleration_frame (a : MovementPatternAnalyzer) :
  let a' := MovementPatternAnalyzer.updateVelocityAndAcceleration a in
  pa_positionHistory a' = pa_positionHistory a
  /\ pa_latModel a' = pa_latModel a
  /\ pa_lonModel a' = pa_lonModel a
  /\ pa_historySize a' = pa_historySize a.
Proof.
  unfold MovementPatternAnalyzer.updateVelocityAndAcceleration.
  destruct (rev (pa_positionHistory a)) as [|current [|previous rest]];
    try (repeat split; reflexivity).
  destruct (_ <=? _); repeat split; reflexivity.
Qed.

Lemma trainModels_trained (a : MovementPatternAnalyzer) :
  models_trained (MovementPatternAnalyzer.trainModels a)
  /\ pa_positionHistory (MovementPatternAnalyzer.trainModels a)
     = pa_positionHistory a.
Proof.
  unfold models_trained, MovementPatternAnalyzer.trainModels.
  destruct (List.length (pa_positionHistory a) <? 3)%nat eqn:Hlen.
  - split; [|reflexivity]. intros H. apply Nat.ltb_lt in Hlen. lia.
  - apply Nat.ltb_ge in Hlen.
    destruct (pa_positionHistory a) as [|first rest] eqn:Hh.
    + cbn in Hlen. lia.
    + cbn [pa_positionHistory pa_latModel pa_lonModel
           MovementPatternAnalyzer.set_models].
      split; [|exact Hh]. intros _.
      split; apply train_trains; rewrite length_map; exact (le_S_n _ _ (le_S _ _ Hlen)).
Qed.

Lemma addPosition_trained (p : HistoryPosition)
  (a : MovementPatternAnalyzer) :
  models_trained (MovementPatternAnalyzer.addPosition p a).
Proof.
  unfold MovementPatternAnalyzer.addPosition.
  apply trainModels_trained.
Qed.

Lemma reachable_invariant Math (g : GPSGapFiller) :
  reachable Math g ->
  models_trained (gf_patternAnalyzer g)
  /\ gf_maxGapDuration g = 60000%Z.
Proof.
  induction 1 as [|g Hg [IHm IHd]|g now position Hg [IHm IHd]].
  - split; [|reflexivity]. intros H. cbn in H. lia.
  - split; [|exact IHd]. intros H. cbn in H. lia.
  - unfold GPSGapFiller.processPosition.
    destruct position as [p|].
    + destruct (negb (gi_isPredicted p)); cbn [snd].
      * split; [apply addPosition_trained | exact IHd].
      * destruct (gf_isInGap g); split; assumption.
    + cbn [snd]. destruct (gf_isInGap g); split; assumption.
Qed.

Lemma max_lower_bound (c : num) :
  (JS.max (nq 1 10) c >? nq 3 10) = true ->
  (nq 1 10 <=? JS.max (nq 1 10) c) = true.
Proof.
  unfold nq. destruct c as [| | |c]; cbn; try discriminate;
    try reflexivity.
  unfold JS.max, JS.lt. destruct (Qlt_bool (1 # 10) c) eqn:E; cbn;
    intros H; qbool; lra.
Qed.

Lemma max_upper_bound (e : num) :
  (e <=? 1%Z) = true ->
  (JS.max (nq 1 10) (nq 9 10 * e) <=? nq 9 10) = true.
Proof.
  unfold nq, nz. destruct e as [| | |e]; cbn; try discriminate.
  - reflexivity.
  - unfold JS.max, JS.lt.
    destruct (Qlt_bool (1 # 10) ((9 # 10) * e)) eqn:E; cbn;
      intros H; qbool; unfold inject_Z in *; lra.
Qed.

(** C5, as the code has it.  For a gap filler of a session: once
    [now - gapStart] exceeds 60000 ms [fillGap] returns nothing; up to that
    threshold, with at least three positions in the history, it returns the
    predicted position exactly when the confidence
    [max(0.1, 0.9 exp(-timeGap / 30))] exceeds 0.3, and nothing otherwise.
    The confidence of a position returned is above 0.3, and at most 0.9
    when the exponential is at most 1. *)
Theorem fillGap_within_limit :
  forall Math (g : GPSGapFiller) (now : num),
    reachable Math g ->
    ((now - gf_gapStartTime g >? 60000%Z) = true ->
     GPSGapFiller.fillGap Math now g = None)
    /\ ((now - gf_gapStartTime g >? 60000%Z) = false ->
        (3 <= List.length (pa_positionHistory (gf_patternAnalyzer g)))%nat ->
        exists lastPosition,
          last_of (pa_positionHistory (gf_patternAnalyzer g))
          = Some lastPosition
          /\ let confidence :=
               confidence_at Math now (hp_timestamp lastPosition) in
             if confidence >? nq 3 10 then
               exists p,
                 GPSGapFiller.fillGap Math now g = Some p
                 /\ pp_confidence p = confidence
                 /\ pp_timestamp p = now
                 /\ pp_isPredicted p = true
             else GPSGapFiller.fillGap Math now g = None)
    /\ (forall p,
           GPSGapFiller.fillGap Math now g = Some p ->
           (pp_confidence p >? nq 3 10) = true
           /\ (nq 1 10 <=? pp_confidence p) = true
           /\ exists lastPosition,
               last_of (pa_positionHistory (gf_patternAnalyzer g))
               = Some lastPosition
               /\ ((Math_exp Math
                      (neg ((now - hp_timestamp lastPosition) / 1000%Z)
                       / 30%Z) <=? 1%Z) = true ->
                   (pp_confidence p <=? nq 9 10) = true)).
Proof.
  intros Math g now Hreach.
  destruct (reachable_invariant Hreach) as [Htrained Hmax].
  unfold GPSGapFiller.fillGap. rewrite Hmax.
  split; [|split].
  - intros ->. reflexivity.
  - intros -> Hlen.
    destruct (Htrained Hlen) as [Hlat Hlon].
    unfold MovementPatternAnalyzer.predictPosition.
    replace (List.length (pa_positionHistory (gf_patternAnalyzer g)) <? 3)%nat
      with false by (symmetry; apply Nat.ltb_ge; exact Hlen).
    destruct (pa_positionHistory (gf_patternAnalyzer g))
      as [|first rest] eqn:Hh; [cbn in Hlen; lia|].
    destruct (last_of (first :: rest)) as [lastPosition|] eqn:Hl.
    2:{ unfold last_of in Hl.
        destruct (rev (first :: rest)) eqn:Hr; [|discriminate].
        apply (f_equal (@List.length _)) in Hr.
        rewrite length_rev in Hr. discriminate. }
    exists lastPosition. split; [reflexivity|].
    unfold LinearRegression.predict. rewrite Hlat, Hlon.
    cbv zeta. cbn [pp_confidence]. unfold confidence_at. cbv zeta.
    destruct (_ >? nq 3 10); [|reflexivity].
    eexists. repeat split.
  - intros p.
    destruct (now - gf_gapStartTime g >? 60000%Z); [discriminate|].
    unfold MovementPatternAnalyzer.predictPosition.
    destruct (List.length _ <? 3)%nat; [discriminate|].
    destruct (pa_positionHistory (gf_patternAnalyzer g))
      as [|first rest]; [discriminate|].
    destruct (last_of (first :: rest)) as [lastPosition|];
      [|discriminate].
    destruct (LinearRegression.predict _ (pa_latModel _)) as [plat|];
      [|discriminate].
    destruct (LinearRegression.predict _ (pa_lonModel _)) as [plon|];
      [|discriminate].
    cbv zeta. cbn [pp_confidence].
    destruct (_ >? nq 3 10) eqn:Hc; [|discriminate].
    intros Hp. injection Hp as <-. cbn [pp_confidence].
    split; [exact Hc|]. split; [apply max_lower_bound; exact Hc|].
    exists lastPosition. split; [reflexivity|].
    apply max_upper_bound.
Qed.

(** Inside the tracker the gap start is never set: [gapStartTime] stays 0,
    and [fillGap] returns nothing at any clock value above 60000. *)
Lemma tracker_gap_filler_never_fills Math (g : GPSGapFiller) (now : num) :
  fed_by_tracker Math g ->
  (now >? 60000%Z) = true ->
  GPSGapFiller.fillGap Math now g = None.
Proof.
  intros Hfed Hnow.
  assert (Hinv : gf_gapStartTime g = 0%Z /\ gf_maxGapDuration g = 60000%Z).
  { induction Hfed as [|g Hg [IH1 IH2]|g now' fp t Hg [IH1 IH2] Ht].
    - split; reflexivity.
    - split; [reflexivity | exact IH2].
    - unfold RunTracker.storePosition.
      cbn [gpsGapFiller RunTracker.with_stored
           GPSGapFiller.processPosition gi_isPredicted negb snd
           gf_gapStartTime gf_maxGapDuration].
      rewrite Ht. split; assumption. }
  destruct Hinv as [Hstart Hmax].
  unfold GPSGapFiller.fillGap. rewrite Hstart, Hmax.
  replace (now - 0%Z >? 60000%Z) with true; [reflexivity|].
  rewrite <- Hnow. unfold gt, nz.
  destruct now as [| | |n]; try reflexivity.
  cbn. unfold Qlt_bool. f_equal. apply Qleb_comp; [|reflexivity].
  unfold inject_Z. ring.
Qed.

(* ================================================================== *)
(** * Concrete sessions *)
(* ================================================================== *)

(** The haversine distance of the specification's scenario, from (37, -122)
    to (37.00898, -122), is between 998 and 999 m. *)
Example haversine_reference :
  let d := RunTracker.calculateDistance RefMath.lib 37%Z (-122)%Z
             (nq 3700898 100000) (-122)%Z in
  (998%Z <? d) = true /\ (d <? 999%Z) = true.
Proof. split; vm_compute; reflexivity. Qed.

(** ** C1 *)

Lemma distance_never_decreases_witness :
  (nz 0 <=? distance Scenario.started) = true
  /\ nondecreasing_from (distance Scenario.started)
       (ingest RefMath.lib Scenario.accept_all Scenario.started
          Scenario.fixes).
Proof.
  split; [reflexivity | apply distance_never_decreases; reflexivity].
Defined.

(** The distances of that session: 0 after the first two fixes, then
    between 1046 and 1047 m. *)
Example session_distances :
  map (fun t => (1046%Z <? distance t) && (distance t <? 1047%Z))
    (ingest RefMath.lib Scenario.accept_all Scenario.started
       Scenario.fixes)
  = [false; false; true].
Proof. vm_compute. reflexivity. Qed.

(** ** C2 *)

Lemma rejected_fix_changes_nothing_witness :
  let t := Scenario.after_fix1 Scenario.started in
  let pos := Scenario.fix_inaccurate in
  ((RunTracker.fix_accuracy pos >? 20%Z) = true
   \/ (fix_latitude 1700000002000%Z pos <? (-90)%Z) = true
   \/ (fix_latitude 1700000002000%Z pos >? 90%Z) = true
   \/ (fix_longitude 1700000002000%Z pos <? (-180)%Z) = true
   \/ (fix_longitude 1700000002000%Z pos >? 180%Z) = true
   \/ fix_latitude 1700000002000%Z pos = NaN
   \/ fix_longitude 1700000002000%Z pos = NaN)
  /\ let result :=
       RunTracker.addPosition RefMath.lib Scenario.accept_all
         Scenario.storage 1700000002000%Z pos t in
     let t' := fst result in
     let events := snd result in
     events = []
     /\ t' = t
     /\ distance t' = distance t
     /\ elevation t' = elevation t
     /\ latFilter t' = latFilter t
     /\ lonFilter t' = lonFilter t
     /\ altFilter t' = altFilter t
     /\ weightedFilter t' = weightedFilter t.
Proof.
  split.
  - left. reflexivity.
  - apply (rejected_fix_changes_nothing RefMath.lib Scenario.accept_all
             Scenario.storage 1700000002000%Z Scenario.fix_inaccurate
             (Scenario.after_fix1 Scenario.started)).
    left. reflexivity.
Defined.

(** The fixes with latitude 91 and longitude 200 are dropped as well. *)
Example out_of_range_fixes_dropped :
  let t := Scenario.after_fix1 Scenario.started in
  RunTracker.addPosition RefMath.lib Scenario.accept_all Scenario.storage
    1700000003000%Z Scenario.fix_lat91 t = (t, [])
  /\ RunTracker.addPosition RefMath.lib Scenario.accept_all
       Scenario.storage 1700000004000%Z Scenario.fix_lon200 t = (t, []).
Proof.
  split; apply gate_closed.
  - right; right; left. reflexivity.
  - right; right; right; right; left. reflexivity.
Qed.

(** ** C9 *)

Lemma pause_then_resume_witness :
  let t := Scenario.after_fix1 Scenario.started in
  let t' := fst (RunTracker.resume 1700000008000%Z
                   (fst (RunTracker.pause 1700000005000%Z t))) in
  isTracking t = true
  /\ isPaused t = false
  /\ distance t' = distance t
  /\ splits t' = splits t
  /\ pausedTime t' = pausedTime t + (1700000008000%Z - 1700000005000%Z)
  /\ JS.same (pausedTime t') 3000%Z.
Proof.
  assert (Htr : isTracking (Scenario.after_fix1 Scenario.started) = true)
    by reflexivity.
  assert (Hpa : isPaused (Scenario.after_fix1 Scenario.started) = false)
    by reflexivity.
  destruct (pause_then_resume (Scenario.after_fix1 Scenario.started)
              1700000005000%Z 1700000008000%Z Htr Hpa)
    as (Hd & Hs & Hp & Hq & _).
  split; [exact Htr|]. split; [exact Hpa|].
  split; [exact Hd|]. split; [exact Hs|]. split; [exact Hp|].
  exact (Hq 0%Q 1700000005000%Q 3000%Q eq_refl eq_refl eq_refl).
Defined.

(** ** C10 *)

Lemma goal_reached_returns_early_witness :
  let t := Scenario.after_fix1 Scenario.started_with_goal in
  let inc :=
    incrementOf RefMath.lib Scenario.now2 Scenario.fix2 t
      Scenario.stored1 in
  passes_gate Scenario.now2 Scenario.fix2 t = true
  /\ last_of (positions t) = Some Scenario.stored1
  /\ Scenario.accept_all (filteredOf Scenario.now2 Scenario.fix2 t)
       (RunTracker.standardise Scenario.now2 Scenario.stored1) = true
  /\ (inc >=? nq 5 10) = true
  /\ distanceGoal t = Some (nz 1000)
  /\ truthy (nz 1000) = true
  /\ (distance t + inc >=? nz 1000) = true
  /\ let result :=
       RunTracker.addPosition RefMath.lib Scenario.accept_all
         Scenario.storage Scenario.now2 Scenario.fix2 t in
     let t' := fst result in
     let events := snd result in
     events = [DurationChange (duration t');
               DistanceChange (distance t + inc);
               GoalReached (distance t + inc) (nz 1000)]
     /\ distance t' = distance t + inc
     /\ isTracking t' = true
     /\ isPaused t' = false
     /\ positions t' = positions t
     /\ elevation t' = elevation t
     /\ splits t' = splits t
     /\ lastSplitDistance t' = lastSplitDistance t.
Proof.
  set (t := Scenario.after_fix1 Scenario.started_with_goal).
  assert (H1 : passes_gate Scenario.now2 Scenario.fix2 t = true)
    by (vm_compute; reflexivity).
  assert (H2 : last_of (positions t) = Some Scenario.stored1)
    by (vm_compute; reflexivity).
  assert (H3 : Scenario.accept_all (filteredOf Scenario.now2 Scenario.fix2 t)
                 (RunTracker.standardise Scenario.now2 Scenario.stored1)
               = true) by reflexivity.
  assert (H4 : (incrementOf RefMath.lib Scenario.now2 Scenario.fix2 t
                  Scenario.stored1 >=? nq 5 10) = true)
    by (vm_compute; reflexivity).
  assert (H5 : distanceGoal t = Some (nz 1000))
    by (vm_compute; reflexivity).
  assert (H6 : truthy (nz 1000) = true) by reflexivity.
  assert (H7 : (distance t
                + incrementOf RefMath.lib Scenario.now2 Scenario.fix2 t
                    Scenario.stored1 >=? nz 1000) = true)
    by (vm_compute; reflexivity).
  cbv zeta.
  split; [exact H1|]. split; [exact H2|]. split; [exact H3|].
  split; [exact H4|]. split; [exact H5|]. split; [exact H6|].
  split; [exact H7|].
  exact (goal_reached_returns_early RefMath.lib Scenario.accept_all
           Scenario.storage Scenario.now2 Scenario.fix2 t
           H1 H2 H3 H4 H5 H6 H7).
Defined.

(** ** The split evaluation *)

Lemma split_recorded_when_unit_completed_witness :
  let t := Scenario.after_fix1 Scenario.started in
  let inc :=
    incrementOf RefMath.lib Scenario.now2 Scenario.fix2 t
      Scenario.stored1 in
  passes_gate Scenario.now2 Scenario.fix2 t = true
  /\ last_of (positions t) = Some Scenario.stored1
  /\ Scenario.accept_all (filteredOf Scenario.now2 Scenario.fix2 t)
       (RunTracker.standardise Scenario.now2 Scenario.stored1) = true
  /\ ((inc >=? nq 5 10) = false
      \/ RunTracker.goal_reached
           (RunTracker.with_distance (distance t + inc) t) = false)
  /\ let result :=
       RunTracker.addPosition RefMath.lib Scenario.accept_all
         Scenario.storage Scenario.now2 Scenario.fix2 t in
     let t' := fst result in
     let events := snd result in
     let unit :=
       RunTracker.splitDistanceOf
         (RunTracker.getDistanceUnit Scenario.storage) in
     let index := JS.floor (distance t' / unit) in
     let previous :=
       match last_of (splits t) with
       | Some s => split_time s
       | None => nz 0
       end in
     (if index >? JS.floor (lastSplitDistance t / unit)
      then
        splits t'
        = splits t ++ [ {| split_km := index;
                           split_time := duration t';
                           split_pace := (duration t' - previous) / unit;
                           split_isPartial := false |} ]
        /\ lastSplitDistance t' = index * unit
        /\ last events (DurationChange 0%Z) = SplitRecorded (splits t')
      else
        splits t' = splits t
        /\ lastSplitDistance t' = lastSplitDistance t
        /\ ~ In (SplitRecorded (splits t')) events)
     /\ (List.length (splits t') <= S (List.length (splits t)))%nat.
Proof.
  set (t := Scenario.after_fix1 Scenario.started).
  assert (H1 : passes_gate Scenario.now2 Scenario.fix2 t = true)
    by (vm_compute; reflexivity).
  assert (H2 : last_of (positions t) = Some Scenario.stored1)
    by (vm_compute; reflexivity).
  assert (H3 : Scenario.accept_all (filteredOf Scenario.now2 Scenario.fix2 t)
                 (RunTracker.standardise Scenario.now2 Scenario.stored1)
               = true) by reflexivity.
  assert (H4 : (incrementOf RefMath.lib Scenario.now2 Scenario.fix2 t
                  Scenario.stored1 >=? nq 5 10) = false
               \/ RunTracker.goal_reached
                    (RunTracker.with_distance
                       (distance t
                        + incrementOf RefMath.lib Scenario.now2
                            Scenario.fix2 t Scenario.stored1) t) = false)
    by (right; reflexivity).
  cbv zeta.
  split; [exact H1|]. split; [exact H2|]. split; [exact H3|].
  split; [exact H4|].
  exact (split_recorded_when_unit_completed RefMath.lib Scenario.accept_all
           Scenario.storage Scenario.now2 Scenario.fix2 t H1 H2 H3 H4).
Defined.

(** In that session the second fix completes the first kilometre: one
    split, with index 1, time 301 s and pace 0.301 s/m. *)
Example first_kilometre_split :
  let t := Scenario.after_fix1 Scenario.started in
  let t' := fst (RunTracker.addPosition RefMath.lib Scenario.accept_all
                   Scenario.storage Scenario.now2 Scenario.fix2 t) in
  exists s,
    splits t' = [s]
    /\ JS.same (split_km s) 1%Z
    /\ JS.same (split_time s) 301%Z
    /\ JS.same (split_pace s) (nq 301 1000)
    /\ split_isPartial s = false.
Proof.
  eexists. split; [vm_compute; reflexivity|].
  repeat split.
Qed.

(** A fix 0.02 degree north of the first one brings the distance from 0
    to about 2093 m: two kilometres are completed by the one fix, and one
    split is recorded, with index 2. *)
Example two_kilometres_one_split :
  let t := Scenario.after_fix1 Scenario.started in
  let t' := fst (RunTracker.addPosition RefMath.lib Scenario.accept_all
                   Scenario.storage (nz 1700000601000)
                   (Scenario.gps (nq 3702 100) (-122)%Z 5%Z
                      1700000601000%Z) t) in
  (2093%Z <? distance t') = true
  /\ (distance t' <? 2094%Z) = true
  /\ exists s, splits t' = [s] /\ JS.same (split_km s) 2%Z.
Proof.
  split; [vm_compute; reflexivity|].
  split; [vm_compute; reflexivity|].
  eexists. split; [vm_compute; reflexivity|]. reflexivity.
Qed.

(** With a goal of 1000 m the second fix of the session brings the
    distance to about 1046 m: the first kilometre is complete, the goal is
    reached, the method returns before the split evaluation and no split is
    recorded. *)
Lemma split_claim_fails_when_goal_reached :
  ~ split_claim_as_stated RefMath.lib Scenario.accept_all.
Proof.
  intros claim.
  set (t := Scenario.after_fix1 Scenario.started_with_goal).
  assert (H1 : passes_gate Scenario.now2 Scenario.fix2 t = true)
    by (vm_compute; reflexivity).
  assert (H2 : last_of (positions t) = Some Scenario.stored1)
    by (vm_compute; reflexivity).
  assert (H4 : (incrementOf RefMath.lib Scenario.now2 Scenario.fix2 t
                  Scenario.stored1 >=? nq 5 10) = true)
    by (vm_compute; reflexivity).
  destruct (claim Scenario.storage Scenario.now2 Scenario.fix2 t
              Scenario.stored1 H1 H2 eq_refl H4) as [recorded _].
  assert (Hdue :
            (JS.floor
               (distance
                  (fst (RunTracker.addPosition RefMath.lib
                          Scenario.accept_all Scenario.storage Scenario.now2
                          Scenario.fix2 t))
                / RunTracker.splitDistanceOf
                    (RunTracker.getDistanceUnit Scenario.storage))
             >? JS.floor
                  (lastSplitDistance t
                   / RunTracker.splitDistanceOf
                       (RunTracker.getDistanceUnit Scenario.storage)))
            = true)
    by (vm_compute; reflexivity).
  specialize (recorded Hdue).
  assert (Hnone :
            List.length
              (splits
                 (fst (RunTracker.addPosition RefMath.lib
                         Scenario.accept_all Scenario.storage Scenario.now2
                         Scenario.fix2 t))) = 0%nat)
    by (vm_compute; reflexivity).
  rewrite Hnone in recorded. discriminate recorded.
Qed.

(** ** C5 *)

Lemma fillGap_within_limit_witness :
  let g := Scenario.in_gap in
  let now : num := 1700000013000%Z in
  reachable RefMath.lib g
  /\ ((now - gf_gapStartTime g >? 60000%Z) = true ->
      GPSGapFiller.fillGap RefMath.lib now g = None)
  /\ ((now - gf_gapStartTime g >? 60000%Z) = false ->
      (3 <= List.length (pa_positionHistory (gf_patternAnalyzer g)))%nat ->
      exists lastPosition,
        last_of (pa_positionHistory (gf_patternAnalyzer g))
        = Some lastPosition
        /\ let confidence :=
             confidence_at RefMath.lib now (hp_timestamp lastPosition) in
           if confidence >? nq 3 10 then
             exists p,
               GPSGapFiller.fillGap RefMath.lib now g = Some p
               /\ pp_confidence p = confidence
               /\ pp_timestamp p = now
               /\ pp_isPredicted p = true
           else GPSGapFiller.fillGap RefMath.lib now g = None).
Proof.
  assert (Hreach : reachable RefMath.lib Scenario.in_gap)
    by (unfold Scenario.in_gap, Scenario.process; repeat constructor).
  destruct (fillGap_within_limit (nz 1700000013000) Hreach)
    as (Hlate & Hearly & _).
  cbv zeta. split; [exact Hreach|]. split; [exact Hlate | exact Hearly].
Defined.

(** One second into the gap, eleven seconds after the last fix, the
    position predicted is returned with a confidence between 0.62 and
    0.63. *)
Example gap_filled_early :
  exists p,
    GPSGapFiller.fillGap RefMath.lib 1700000013000%Z Scenario.in_gap
    = Some p
    /\ (nq 62 100 <? pp_confidence p) = true
    /\ (pp_confidence p <? nq 63 100) = true.
Proof.
  eexists. split; [vm_compute; reflexivity|].
  split; vm_compute; reflexivity.
Qed.

(** Forty seconds into the gap, fifty seconds after the last fix, the
    confidence is [max(0.1, 0.9 exp(-50/30))], about 0.17: below 0.3, and
    [fillGap] returns nothing although the gap is within the limit and the
    history holds three positions. *)
Lemma fillGap_claim_fails_at_low_confidence :
  ~ fillGap_claim_as_stated RefMath.lib.
Proof.
  intros claim.
  assert (Hreach : reachable RefMath.lib Scenario.in_gap)
    by (unfold Scenario.in_gap, Scenario.process; repeat constructor).
  assert (Hgap : (nz 1700000052000 - gf_gapStartTime Scenario.in_gap
                  >? 60000%Z) = false) by (vm_compute; reflexivity).
  assert (Hlen : (3 <= List.length
                         (pa_positionHistory
                            (gf_patternAnalyzer Scenario.in_gap)))%nat)
    by (vm_compute; lia).
  destruct (claim Scenario.in_gap (nz 1700000052000) Hreach Hgap Hlen)
    as [p Hp].
  assert (Hnone : GPSGapFiller.fillGap RefMath.lib (nz 1700000052000)
                    Scenario.in_gap = None)
    by (vm_compute; reflexivity).
  rewrite Hnone in Hp. discriminate Hp.
Qed.

(* ================================================================== *)
(** * Further properties of the Kalman filter *)
(* ================================================================== *)

Lemma div_pos_Fin (a d : Q) : (0 < d)%Q -> Fin a / Fin d = Fin (a / d).
Proof.
  intros Hd. unfold JS.div, Qsign.
  replace (d ?= 0)%Q with Gt by (symmetry; apply Qgt_alt; exact Hd).
  reflexivity.
Qed.

(** X3.  A NaN accuracy turns the estimate of an initialised filter into
    NaN, and a NaN estimate stays NaN under every later update, whatever
    the measurement and the parameters: only [reset] clears it. *)
Theorem kalman_NaN_is_absorbing :
  forall (q r p k x m accuracy q' : num),
    let initialised :=
      {| kf_Q := q; kf_R := r; kf_x := Some x; kf_P := p; kf_K := k |} in
    let poisoned :=
      {| kf_Q := q; kf_R := r; kf_x := Some NaN; kf_P := p; kf_K := k |} in
    let first :=
      KalmanFilter1D.filter m
        (KalmanFilter1D.adjustParameters NaN initialised) in
    let later :=
      KalmanFilter1D.filter m
        (KalmanFilter1D.set_Q q'
           (KalmanFilter1D.adjustParameters accuracy poisoned)) in
    fst first = NaN /\ kf_x (snd first) = Some NaN
    /\ fst later = NaN /\ kf_x (snd later) = Some NaN
    /\ kf_x (KalmanFilter1D.reset (snd later)) = None.
Proof.
  intros q r p k x m accuracy q'.
  assert (E : forall a b : num, a + (b / (b + NaN)) * (m - a) = NaN)
    by (intros a b; destruct b; destruct a; reflexivity).
  unfold KalmanFilter1D.filter, KalmanFilter1D.set_Q,
    KalmanFilter1D.adjustParameters.
  cbn [kf_x kf_P kf_Q kf_R kf_K fst snd].
  replace (JS.max (nq 1 1000) (NaN / 20%Z)) with NaN by reflexivity.
  rewrite E. repeat split.
Qed.

(* ================================================================== *)
(** * Further properties of the weighted filter *)
(* ================================================================== *)

Lemma push_bounded_length {A : Type} (size : nat) (arr : list A) (x : A) :
  (List.length arr <= size)%nat ->
  (List.length (push_bounded size arr x) <= size)%nat.
Proof.
  intros H. unfold push_bounded.
  destruct (size <? List.length (arr ++ [x]))%nat eqn:E.
  - apply Nat.ltb_lt in E. rewrite length_app in E. cbn in E.
    destruct arr as [|y arr']; cbn in *; [lia|].
    rewrite length_app. cbn. lia.
  - apply Nat.ltb_ge in E. exact E.
Qed.

(** X4.  The window of the weighted filter never grows beyond
    [windowSize]; with a window of at least one reading the newest reading
    is the last of the window and a result is returned; with a window of
    size 0 the window stays empty and the result is [null]. *)
Theorem weighted_window_bounded :
  forall (reading : Reading) (f : WeightedGPSFilter),
    (List.length (wf_readings f) <= wf_windowSize f)%nat ->
    let result := WeightedGPSFilter.addReading reading f in
    (List.length (wf_readings (snd result)) <= wf_windowSize f)%nat
    /\ wf_windowSize (snd result) = wf_windowSize f
    /\ ((1 <= wf_windowSize f)%nat ->
        last_of (wf_readings (snd result)) = Some reading
        /\ fst result <> None)
    /\ (wf_windowSize f = 0%nat ->
        wf_readings (snd result) = [] /\ fst result = None).
Proof.
  intros reading f Hlen. unfold WeightedGPSFilter.addReading.
  cbn [fst snd wf_readings wf_windowSize].
  split; [|split; [reflexivity|split]].
  - apply push_bounded_length. exact Hlen.
  - intros Hw.
    assert (Hlast :
              last_of
                (if (wf_windowSize f
                     <? List.length (wf_readings f ++ [reading]))%nat
                 then tl (wf_readings f ++ [reading])
                 else wf_readings f ++ [reading]) = Some reading).
    { destruct (_ <? _)%nat eqn:E.
      - apply Nat.ltb_lt in E. rewrite length_app in E. cbn in E.
        destruct (wf_readings f) as [|y rest]; cbn in *; [lia|].
        unfold last_of. rewrite rev_app_distr. reflexivity.
      - unfold last_of. rewrite rev_app_distr. reflexivity. }
    split; [exact Hlast|].
    unfold WeightedGPSFilter.getWeightedAverage. cbn [wf_readings].
    destruct (if (_ <? _)%nat then _ else _) as [|r0 rs] eqn:E;
      [discriminate Hlast|].
    destruct (fold_left _ _ _) as [[a b] c]. discriminate.
  - intros Hw. rewrite Hw in *.
    assert (E : wf_readings f = []).
    { destruct (wf_readings f); [reflexivity | cbn in Hlen; lia]. }
    rewrite E. cbn. split; reflexivity.
Qed.

Lemma weighted_window_bounded_witness :
  let f := snd (WeightedGPSFilter.addReading
                  (mkReading 37%Z (-122)%Z 5%Z 0%Z)
                  (WeightedGPSFilter.constructor 1)) in
  let reading := mkReading (nq 3701 100) (-122)%Z 8%Z 1000%Z in
  (List.length (wf_readings f) <= wf_windowSize f)%nat
  /\ let result := WeightedGPSFilter.addReading reading f in
     (List.length (wf_readings (snd result)) <= wf_windowSize f)%nat
     /\ wf_windowSize (snd result) = wf_windowSize f
     /\ ((1 <= wf_windowSize f)%nat ->
         last_of (wf_readings (snd result)) = Some reading
         /\ fst result <> None)
     /\ (wf_windowSize f = 0%nat ->
         wf_readings (snd result) = [] /\ fst result = None).
Proof.
  assert (H : (List.length
                 (wf_readings
                    (snd (WeightedGPSFilter.addReading
                            (mkReading 37%Z (-122)%Z 5%Z 0%Z)
                            (WeightedGPSFilter.constructor 1))))
               <= 1)%nat) by (cbn; lia).
  split; [exact H|].
  exact (weighted_window_bounded
           (mkReading (nq 3701 100) (-122)%Z 8%Z 1000%Z) _ H).
Defined.

(* ================================================================== *)
(** * Further properties of the analyzer and the gap filler *)
(* ================================================================== *)

Lemma addPosition_histories_bounded (p : HistoryPosition)
  (a : MovementPatternAnalyzer) :
  histories_bounded (pa_historySize a) a ->
  histories_bounded (pa_historySize a)
    (MovementPatternAnalyzer.addPosition p a)
  /\ pa_historySize (MovementPatternAnalyzer.addPosition p a)
     = pa_historySize a.
Proof.
  intros (Hp & Hv & Ha).
  unfold MovementPatternAnalyzer.addPosition.
  set (a1 := MovementPatternAnalyzer.set_histories _ _ _ a).
  assert (H1 : histories_bounded (pa_historySize a) a1
               /\ pa_historySize a1 = pa_historySize a).
  { split; [|reflexivity]. repeat split; cbn;
      [apply push_bounded_length|..]; assumption. }
  clearbody a1. destruct H1 as [(Hp1 & Hv1 & Ha1) Hs1].
  assert (H2 : histories_bounded (pa_historySize a)
                 (MovementPatternAnalyzer.updateVelocityAndAcceleration a1)
               /\ pa_historySize
                    (MovementPatternAnalyzer.updateVelocityAndAcceleration a1)
                  = pa_historySize a).
  { unfold MovementPatternAnalyzer.updateVelocityAndAcceleration.
    destruct (rev (pa_positionHistory a1)) as [|current [|previous rest]];
      try (split; [repeat split|]; assumption).
    destruct (_ <=? _); [split; [repeat split|]; assumption|].
    split; [|exact Hs1].
    repeat split; cbn [pa_positionHistory pa_velocityHistory
                       pa_accelerationHistory
                       MovementPatternAnalyzer.set_histories].
    - exact Hp1.
    - rewrite Hs1. apply push_bounded_length. exact Hv1.
    - destruct (rev (push_bounded _ _ _)) as [|cv [|pv rest']];
        try exact Ha1.
      destruct (_ >? _); [|exact Ha1].
      rewrite Hs1. apply push_bounded_length. exact Ha1. }
  set (a2 := MovementPatternAnalyzer.updateVelocityAndAcceleration a1) in *.
  clearbody a2. destruct H2 as [(Hp2 & Hv2 & Ha2) Hs2].
  unfold MovementPatternAnalyzer.trainModels.
  destruct (_ <? 3)%nat; [split; [repeat split|]; assumption|].
  destruct (pa_positionHistory a2) eqn:E;
    [split; [repeat split|]; try assumption; rewrite E; cbn; lia|].
  split; [|exact Hs2].
  repeat split; cbn [pa_positionHistory pa_velocityHistory
                     pa_accelerationHistory
                     MovementPatternAnalyzer.set_models];
    try assumption. rewrite E. exact Hp2.
Qed.

(** X8.  In a gap filler of a session the position history of the pattern
    analyzer, and its velocity and acceleration histories, never hold more
    than 20 entries. *)
Theorem analyzer_histories_stay_bounded :
  forall Math (g : GPSGapFiller),
    reachable Math g ->
    histories_bounded 20 (gf_patternAnalyzer g).
Proof.
  intros Math g Hreach.
  assert (H : histories_bounded 20 (gf_patternAnalyzer g)
              /\ pa_historySize (gf_patternAnalyzer g) = 20%nat).
  { induction Hreach as [|g Hg [IH1 IH2]|g now position Hg [IH1 IH2]].
    - split; [|reflexivity]. repeat split; cbn; lia.
    - split; [|exact IH2]. repeat split; cbn; lia.
    - unfold GPSGapFiller.processPosition.
      destruct position as [p|].
      + destruct (negb (gi_isPredicted p)); cbn [snd].
        * cbn [gf_patternAnalyzer]. rewrite <- IH2 in IH1.
          destruct (addPosition_histories_bounded
                      {| hp_lat := GPSGapFiller.or_undefined (gi_lat p)
                                     (gi_coords_latitude p);
                         hp_lon := GPSGapFiller.or_undefined (gi_lon p)
                                     (gi_coords_longitude p);
                         hp_timestamp :=
                           or_else (of_undefined (gi_timestamp p)) now;
                         hp_speed := gi_speed p;
                         hp_heading := gi_heading p |}
                      IH1) as [Hb Hs].
          rewrite IH2 in Hb, Hs. split; assumption.
        * destruct (gf_isInGap g); split; assumption.
      + cbn [snd]. destruct (gf_isInGap g); split; assumption. }
  exact (proj1 H).
Qed.

Lemma analyzer_histories_stay_bounded_witness :
  reachable RefMath.lib Scenario.in_gap
  /\ histories_bounded 20 (gf_patternAnalyzer Scenario.in_gap).
Proof.
  assert (Hreach : reachable RefMath.lib Scenario.in_gap)
    by (unfold Scenario.in_gap, Scenario.process; repeat constructor).
  split; [exact Hreach|].
  exact (analyzer_histories_stay_bounded Hreach).
Defined.

(** X9.  The gap start is latched.  From a filler that is not in a gap, a
    call without a real position (none, or one flagged as predicted) opens
    the gap at the clock of that call and leaves the pattern analyzer as
    it is; further such calls change nothing; a real position closes the
    gap, is kept as the last known position, and leaves the gap start at
    its old value. *)
Theorem gap_start_is_latched :
  forall Math (g : GPSGapFiller) (now1 now2 now3 : num)
         (predicted real : GapInput),
    gf_isInGap g = false ->
    gi_isPredicted predicted = true ->
    gi_isPredicted real = false ->
    let g1 := snd (GPSGapFiller.processPosition Math now1 None g) in
    let g2 := snd (GPSGapFiller.processPosition Math now2
                     (Some predicted) g1) in
    let g3 := snd (GPSGapFiller.processPosition Math now3 (Some real) g2) in
    gf_isInGap g1 = true
    /\ gf_gapStartTime g1 = now1
    /\ gf_patternAnalyzer g1 = gf_patternAnalyzer g
    /\ g2 = g1
    /\ GPSGapFiller.processPosition Math now2 (Some predicted) g1
       = GPSGapFiller.processPosition Math now2 None g1
    /\ gf_isInGap g3 = false
    /\ gf_gapStartTime g3 = now1
    /\ gf_lastKnownPosition g3 = Some real.
Proof.
  intros Math g now1 now2 now3 predicted real Hgap Hpred Hreal.
  unfold GPSGapFiller.processPosition.
  rewrite Hgap, Hpred, Hreal.
  cbn [negb snd gf_isInGap gf_gapStartTime gf_patternAnalyzer
       gf_lastKnownPosition].
  repeat split.
Qed.

Lemma gap_start_is_latched_witness :
  let g := GPSGapFiller.constructor in
  let predicted := mkGapInput (Some (nz 37)) (Some (nz (-122))) None None
                     (Some (nz 2000)) None None true in
  let real := mkGapInput (Some (nz 37)) (Some (nz (-122))) None None
                (Some (nz 3000)) None None false in
  gf_isInGap g = false
  /\ gi_isPredicted predicted = true
  /\ gi_isPredicted real = false
  /\ let g1 := snd (GPSGapFiller.processPosition RefMath.lib 1000%Z None g) in
     let g2 := snd (GPSGapFiller.processPosition RefMath.lib 2000%Z
                      (Some predicted) g1) in
     let g3 := snd (GPSGapFiller.processPosition RefMath.lib 3000%Z
                      (Some real) g2) in
     gf_isInGap g1 = true
     /\ gf_gapStartTime g1 = 1000%Z
     /\ gf_patternAnalyzer g1 = gf_patternAnalyzer g
     /\ g2 = g1
     /\ GPSGapFiller.processPosition RefMath.lib 2000%Z (Some predicted) g1
        = GPSGapFiller.processPosition RefMath.lib 2000%Z None g1
     /\ gf_isInGap g3 = false
     /\ gf_gapStartTime g3 = 1000%Z
     /\ gf_lastKnownPosition g3 = Some real.
Proof.
  cbv zeta.
  split; [reflexivity|]. split; [reflexivity|]. split; [reflexivity|].
  exact (gap_start_is_latched RefMath.lib GPSGapFiller.constructor
           1000%Z 2000%Z 3000%Z
           (mkGapInput (Some (nz 37)) (Some (nz (-122))) None None
              (Some (nz 2000)) None None true)
           (mkGapInput (Some (nz 37)) (Some (nz (-122))) None None
              (Some (nz 3000)) None None false)
           eq_refl eq_refl eq_refl).
Defined.

(* ================================================================== *)
(** * Elevation *)
(* ================================================================== *)

(** An amount that [updateElevation] counts, added to a total that is not
    negative, gives a total that is no smaller and not negative. *)
Lemma add_positive_monotone (d inc : num) :
  (nz 0 <=? d) = true ->
  (inc >? 0%Z) = true ->
  (d <=? d + inc) = true /\ (nz 0 <=? d + inc) = true.
Proof.
  unfold gt, nz.
  destruct d as [| | |d], inc as [| | |i]; simpl; try discriminate;
    try (split; reflexivity); intros Hd Hi; qbool.
  unfold inject_Z in *.
  split; qbool; lra.
Qed.

Lemma counted_amount_positive (diff : num) :
  (JS.abs diff >=? 1%Z) = true -> (JS.abs diff >? 0%Z) = true.
Proof.
  unfold ge, gt, nz.
  destruct diff as [| | |d]; simpl; try discriminate; try reflexivity.
  intros H. qbool. unfold inject_Z in *. lra.
Qed.

(** One reading on totals that are not negative. *)
Lemma updateElevation_totals (altitude : option num) (t : RunTracker) :
  (nz 0 <=? el_gain (elevation t)) = true ->
  (nz 0 <=? el_loss (elevation t)) = true ->
  let t' := fst (RunTracker.updateElevation altitude t) in
  (el_gain (elevation t) <=? el_gain (elevation t')) = true
  /\ (nz 0 <=? el_gain (elevation t')) = true
  /\ (el_loss (elevation t) <=? el_loss (elevation t')) = true
  /\ (nz 0 <=? el_loss (elevation t')) = true
  /\ (el_gain (elevation t') = el_gain (elevation t)
      \/ el_loss (elevation t') = el_loss (elevation t)).
Proof.
  intros Hgain Hloss. cbv zeta.
  pose proof (le_refl_nonneg _ Hgain) as Hg.
  pose proof (le_refl_nonneg _ Hloss) as Hl.
  unfold RunTracker.updateElevation.
  destruct altitude as [alt|]; [|cbn [fst]; auto 6].
  destruct (isNaN alt); [cbn [fst]; auto 6|].
  destruct (el_lastAltitude (elevation t)) as [lastAltitude|];
    [|cbn; auto 6].
  destruct (JS.abs (alt - lastAltitude) >=? 1%Z) eqn:Ecounted;
    [|cbn; auto 6].
  destruct (alt - lastAltitude >? 0%Z) eqn:Eup.
  - destruct (add_positive_monotone _ _ Hgain Eup) as [H1 H2].
    cbn. auto 6.
  - destruct (add_positive_monotone _ _ Hloss
                (counted_amount_positive _ Ecounted)) as [H1 H2].
    cbn. auto 6.
Qed.

(** X10.  The elevation totals never decrease.  From a session whose gain
    and loss are not negative, after any run of altitude readings, NaN and
    the infinities included, the gain and the loss are no smaller than
    before, in the comparison of the language.  One reading changes at
    most one of the two, and a reading that is a number becomes the
    current and the last altitude. *)
Theorem elevation_totals_never_decrease :
  forall (altitudes : list num) (t : RunTracker),
    (0%Z <=? el_gain (elevation t)) = true ->
    (0%Z <=? el_loss (elevation t)) = true ->
    let t' := climb altitudes t in
    (el_gain (elevation t) <=? el_gain (elevation t')) = true
    /\ (el_loss (elevation t) <=? el_loss (elevation t')) = true
    /\ (forall alt : num,
          let t1 := fst (RunTracker.updateElevation (Some alt) t) in
          (el_gain (elevation t1) = el_gain (elevation t)
           \/ el_loss (elevation t1) = el_loss (elevation t))
          /\ (isNaN alt = false ->
              el_current (elevation t1) = Some alt
              /\ el_lastAltitude (elevation t1) = Some alt)).
Proof.
  intros altitudes t Hgain Hloss. cbv zeta.
  assert (Hrun : forall (run : list num) s,
             (nz 0 <=? el_gain (elevation s)) = true ->
             (nz 0 <=? el_loss (elevation s)) = true ->
             (el_gain (elevation s)
              <=? el_gain (elevation (climb run s))) = true
             /\ (el_loss (elevation s)
                 <=? el_loss (elevation (climb run s))) = true).
  { induction run as [|a rest IH]; intros s Hg Hl.
    - cbn [climb]. split; apply le_refl_nonneg; assumption.
    - cbn [climb].
      destruct (updateElevation_totals (Some a) s Hg Hl)
        as (Hg1 & Hg2 & Hl1 & Hl2 & _).
      destruct (IH _ Hg2 Hl2) as [IHg IHl].
      split; eapply le_trans_num; eassumption. }
  destruct (Hrun altitudes t Hgain Hloss) as [Hg Hl].
  split; [exact Hg|]. split; [exact Hl|].
  intros alt.
  split; [apply (updateElevation_totals (Some alt) t Hgain Hloss)|].
  intros Hnumber. unfold RunTracker.updateElevation. rewrite Hnumber.
  destruct (match el_lastAltitude (elevation t) with
            | Some _ => _ | None => _ end).
  split; reflexivity.
Qed.

Lemma elevation_totals_never_decrease_witness :
  let altitudes : list num := [nz 100; nq 1035 10; NaN; nz 101; nq 1014 10] in
  let t := Scenario.started in
  (0%Z <=? el_gain (elevation t)) = true
  /\ (0%Z <=? el_loss (elevation t)) = true
  /\ let t' := climb altitudes t in
     (el_gain (elevation t) <=? el_gain (elevation t')) = true
     /\ (el_loss (elevation t) <=? el_loss (elevation t')) = true
     /\ (forall alt : num,
           let t1 := fst (RunTracker.updateElevation (Some alt) t) in
           (el_gain (elevation t1) = el_gain (elevation t)
            \/ el_loss (elevation t1) = el_loss (elevation t))
           /\ (isNaN alt = false ->
               el_current (elevation t1) = Some alt
               /\ el_lastAltitude (elevation t1) = Some alt)).
Proof.
  cbv zeta. split; [reflexivity|]. split; [reflexivity|].
  exact (elevation_totals_never_decrease
           [nz 100; nq 1035 10; NaN; nz 101; nq 1014 10] Scenario.started
           eq_refl eq_refl).
Defined.

(** In that session the climb of 3.5 m and the descent of 2.5 m are
    counted, the NaN reading and the last step of 0.4 m are not. *)
Example elevation_of_a_short_walk :
  let t' :=
    climb [nz 100; nq 1035 10; NaN; nz 101; nq 1014 10] Scenario.started in
  JS.same (el_gain (elevation t')) (nq 35 10)
  /\ JS.same (el_loss (elevation t')) (nq 25 10)
  /\ el_lastAltitude (elevation t') = Some (nq 1014 10).
Proof.
  cbv zeta. split; [vm_compute; reflexivity|].
  split; vm_compute; reflexivity.
Qed.

(** X11.  A climb or descent in steps that [updateElevation] does not
    count is never counted: when for each reading that is a number the
    test [Math.abs(diff) >= 1] on its difference with the reading before
    it fails, gain and loss stay as they were, whatever the number of
    readings, while the last altitude follows the readings. *)
Theorem slow_climb_is_not_counted :
  forall (altitudes : list num) (t : RunTracker) (current : option num)
         (gain loss last : num),
    small_steps last altitudes ->
    let t0 :=
      RunTracker.with_elevation
        {| el_current := current; el_gain := gain; el_loss := loss;
           el_lastAltitude := Some last |} t in
    el_gain (elevation (climb altitudes t0)) = gain
    /\ el_loss (elevation (climb altitudes t0)) = loss
    /\ el_lastAltitude (elevation (climb altitudes t0))
       = Some (last_reading last altitudes).
Proof.
  induction altitudes as [|a rest IH];
    intros t current gain loss last Hsteps t0.
  - repeat split.
  - cbn [small_steps] in Hsteps. cbn [climb last_reading].
    destruct (isNaN a) eqn:Enumber.
    + assert (Estep :
                fst (RunTracker.updateElevation (Some a) t0) = t0)
        by (unfold RunTracker.updateElevation; rewrite Enumber;
            reflexivity).
      rewrite Estep. exact (IH t current gain loss last Hsteps).
    + destruct Hsteps as [Hsmall Hrest].
      assert (Estep :
                fst (RunTracker.updateElevation (Some a) t0)
                = RunTracker.with_elevation
                    {| el_current := Some a; el_gain := gain;
                       el_loss := loss; el_lastAltitude := Some a |}
                    t).
      { unfold RunTracker.updateElevation, t0. rewrite Enumber.
        cbn [elevation RunTracker.with_elevation el_lastAltitude el_gain
             el_loss].
        rewrite Hsmall. destruct t; reflexivity. }
      rewrite Estep. exact (IH t (Some a) gain loss a Hrest).
Qed.

Lemma slow_climb_is_not_counted_witness :
  let altitudes : list num :=
    [nq 1009 10; nq 1018 10; NaN; nq 1027 10; nq 1036 10] in
  small_steps 100%Z altitudes
  /\ let t0 :=
       RunTracker.with_elevation
         {| el_current := Some (nz 100); el_gain := 0%Z; el_loss := 0%Z;
            el_lastAltitude := Some (nz 100) |} Scenario.started in
     el_gain (elevation (climb altitudes t0)) = 0%Z
     /\ el_loss (elevation (climb altitudes t0)) = 0%Z
     /\ el_lastAltitude (elevation (climb altitudes t0))
        = Some (last_reading 100%Z altitudes).
Proof.
  assert (H : small_steps 100%Z
                [nq 1009 10; nq 1018 10; NaN; nq 1027 10; nq 1036 10]).
  { cbn. repeat split. }
  cbv zeta. split; [exact H|].
  exact (slow_climb_is_not_counted
           [nq 1009 10; nq 1018 10; NaN; nq 1027 10; nq 1036 10]
           Scenario.started (Some (nz 100)) 0%Z 0%Z 100%Z H).
Defined.

(* ================================================================== *)
(** * Micro-movements and the first fix *)
(* ================================================================== *)

Lemma updateElevation_events altitude (t : RunTracker) :
  snd (RunTracker.updateElevation altitude t) = []
  \/ exists e, snd (RunTracker.updateElevation altitude t)
               = [ElevationChange e].
Proof.
  unfold RunTracker.updateElevation.
  destruct altitude as [alt|]; [|left; reflexivity].
  destruct (isNaN alt); [left; reflexivity|].
  destruct (match el_lastAltitude (elevation t) with
            | Some _ => _ | None => _ end).
  right. eexists. reflexivity.
Qed.

Lemma recordSplit_frame ls (t : RunTracker) :
  distance (fst (RunTracker.recordSplit ls t)) = distance t
  /\ positions (fst (RunTracker.recordSplit ls t)) = positions t
  /\ (snd (RunTracker.recordSplit ls t) = []
      \/ exists s, snd (RunTracker.recordSplit ls t) = [SplitRecorded s]).
Proof.
  rewrite recordSplit_cases. destruct (RunTracker.split_due ls t).
  - repeat split. right. eexists. reflexivity.
  - repeat split. left. reflexivity.
Qed.

(** X12.  A fix that passes the gate and the quality filter but lies less
    than 0.5 m from the last stored position (or at a distance that is
    NaN) adds nothing to the distance and emits no distance, goal or step
    event; it is stored all the same and becomes the position the next
    increment is measured from. *)
Theorem micro_movement_moves_the_reference :
  forall Math filterLocation ls now pos (t : RunTracker)
         (lastRawPosition : Position),
    passes_gate now pos t = true ->
    last_of (positions t) = Some lastRawPosition ->
    filterLocation (filteredOf now pos t)
      (RunTracker.standardise now lastRawPosition) = true ->
    (incrementOf Math now pos t lastRawPosition >=? nq 5 10) = false ->
    let result :=
      RunTracker.addPosition Math filterLocation ls now pos t in
    let t' := fst result in
    let events := snd result in
    distance t' = distance t
    /\ positions t'
       = positions t
         ++ [RunTracker.stored_position (filteredOf now pos t)]
    /\ last_of (positions t')
       = Some (RunTracker.stored_position (filteredOf now pos t))
    /\ lastGPSTime t' = sp_timestamp (filteredOf now pos t)
    /\ (forall d, ~ In (DistanceChange d) events)
    /\ (forall d g, ~ In (GoalReached d g) events)
    /\ (forall n, ~ In (StepsChange n) events).
Proof.
  intros Math fl ls now pos t lastRaw Hgate Hlast Hfl Hinc.
  rewrite addPosition_passed by assumption. cbv zeta.
  rewrite Hlast, Hfl. cbn [negb].
  unfold RunTracker.accumulateDistance.
  change RunTracker.MOVEMENT_THRESHOLD with (nq 5 10). rewrite Hinc.
  destruct (timedOf_frame now pos t) as (a & b & c & d & e & ->).
  set (t2 := RunTracker.with_duration e
               (RunTracker.with_filters a b c d t)).
  pose proof (updateElevation_frame
                (co_altitude (sp_coords (filteredOf now pos t))) t2) as He.
  pose proof (updateElevation_events
                (co_altitude (sp_coords (filteredOf now pos t))) t2) as Hev.
  destruct (RunTracker.updateElevation _ t2) as [t4 ev2].
  cbn [fst snd] in He, Hev.
  destruct (recordSplit_frame ls t4) as (Hd & Hp & Hsp).
  destruct (RunTracker.recordSplit ls t4) as [t5 ev3].
  cbn [fst snd] in *.
  unfold RunTracker.storePosition.
  cbn [distance positions lastGPSTime RunTracker.with_stored].
  assert (Hd4 : distance t4 = distance t) by (rewrite He; reflexivity).
  assert (Hp4 : positions t4 = positions t) by (rewrite He; reflexivity).
  rewrite Hd, Hp, Hd4, Hp4.
  split; [reflexivity|]. split; [reflexivity|].
  split; [unfold last_of; rewrite rev_app_distr; reflexivity|].
  split; [reflexivity|].
  assert (Hin : forall ev, In ev ([DurationChange (duration t2)] ++ []
                                   ++ ev2 ++ ev3) ->
                (exists x, ev = DurationChange x)
                \/ (exists x, ev = ElevationChange x)
                \/ (exists x, ev = SplitRecorded x)).
  { intros ev [<-|Hin]; [left; eexists; reflexivity|].
    cbn in Hin. apply in_app_or in Hin. destruct Hin as [Hin|Hin].
    - destruct Hev as [->|[x ->]]; [destruct Hin|].
      destruct Hin as [<-|[]]. right; left. eexists; reflexivity.
    - destruct Hsp as [->|[x ->]]; [destruct Hin|].
      destruct Hin as [<-|[]]. right; right. eexists; reflexivity. }
  repeat split; intros; intro Hc; apply Hin in Hc;
    destruct Hc as [[x Hx]|[[x Hx]|[x Hx]]]; discriminate.
Qed.

(** X13.  The first fix of a session that passes the gate (empty history)
    is stored, emits the duration and nothing else, and leaves the
    distance, the splits and the elevation state untouched: the altitude
    of the first fix is not recorded. *)
Theorem first_fix_is_only_stored :
  forall Math filterLocation ls now pos (t : RunTracker),
    passes_gate now pos t = true ->
    positions t = [] ->
    let result :=
      RunTracker.addPosition Math filterLocation ls now pos t in
    let t' := fst result in
    snd result = [DurationChange (duration t')]
    /\ positions t' = [RunTracker.stored_position (filteredOf now pos t)]
    /\ distance t' = distance t
    /\ splits t' = splits t
    /\ elevation t' = elevation t
    /\ duration t'
       = (sp_timestamp (filteredOf now pos t) - startTime t - pausedTime t)
         / 1000%Z.
Proof.
  intros Math fl ls now pos t Hgate Hempty.
  rewrite addPosition_passed by assumption. cbv zeta.
  rewrite Hempty. cbn [last_of rev fst snd].
  unfold RunTracker.storePosition.
  cbn [distance positions splits elevation duration
       RunTracker.with_stored].
  assert (Hdur : duration (timedOf now pos t)
                 = (sp_timestamp (filteredOf now pos t) - startTime t
                    - pausedTime t) / 1000%Z).
  { unfold timedOf.
    pose proof (applyGpsFiltering_frame (RunTracker.fix_accuracy pos)
                  (fix_latitude now pos) (fix_longitude now pos)
                  (RunTracker.standardise now pos) t) as H.
    cbv zeta in H. cbn [duration RunTracker.with_duration].
    rewrite H. reflexivity. }
  destruct (timedOf_frame now pos t) as (a & b & c & d & e & E).
  rewrite E in *. cbn [distance positions splits elevation duration
    RunTracker.with_duration RunTracker.with_filters] in *.
  rewrite Hempty. repeat split. exact Hdur.
Qed.

Lemma micro_movement_moves_the_reference_witness :
  let t := Scenario.after_fix1 Scenario.started in
  let now : num := 1700000006000%Z in
  let pos := Scenario.gps (nq 37000001 1000000) (-122)%Z 5%Z
               1700000006000%Z in
  passes_gate now pos t = true
  /\ last_of (positions t) = Some Scenario.stored1
  /\ Scenario.accept_all (filteredOf now pos t)
       (RunTracker.standardise now Scenario.stored1) = true
  /\ (incrementOf RefMath.lib now pos t Scenario.stored1 >=? nq 5 10)
     = false
  /\ let result :=
       RunTracker.addPosition RefMath.lib Scenario.accept_all
         Scenario.storage now pos t in
     let t' := fst result in
     let events := snd result in
     distance t' = distance t
     /\ positions t'
        = positions t
          ++ [RunTracker.stored_position (filteredOf now pos t)]
     /\ last_of (positions t')
        = Some (RunTracker.stored_position (filteredOf now pos t))
     /\ lastGPSTime t' = sp_timestamp (filteredOf now pos t)
     /\ (forall d, ~ In (DistanceChange d) events)
     /\ (forall d g, ~ In (GoalReached d g) events)
     /\ (forall n, ~ In (StepsChange n) events).
Proof.
  set (t := Scenario.after_fix1 Scenario.started).
  set (now := nz 1700000006000).
  set (pos := Scenario.gps (nq 37000001 1000000) (-122)%Z 5%Z
                1700000006000%Z).
  assert (H1 : passes_gate now pos t = true) by (vm_compute; reflexivity).
  assert (H2 : last_of (positions t) = Some Scenario.stored1)
    by (vm_compute; reflexivity).
  assert (H3 : Scenario.accept_all (filteredOf now pos t)
                 (RunTracker.standardise now Scenario.stored1) = true)
    by reflexivity.
  assert (H4 : (incrementOf RefMath.lib now pos t Scenario.stored1
                >=? nq 5 10) = false) by (vm_compute; reflexivity).
  cbv zeta.
  split; [exact H1|]. split; [exact H2|]. split; [exact H3|].
  split; [exact H4|].
  exact (micro_movement_moves_the_reference RefMath.lib Scenario.accept_all
           Scenario.storage now pos t H1 H2 H3 H4).
Defined.

Lemma first_fix_is_only_stored_witness :
  let t := Scenario.started in
  let now : num := Scenario.now1 in
  let pos :=
    {| ps_latitude := Some (nz 37); ps_longitude := Some (nz (-122));
       ps_accuracy := Some (nz 5); ps_altitude := Some (nz 120);
       ps_timestamp := Some Scenario.now1; ps_coords := None |} in
  passes_gate now pos t = true
  /\ positions t = []
  /\ let result :=
       RunTracker.addPosition RefMath.lib Scenario.accept_all
         Scenario.storage now pos t in
     let t' := fst result in
     snd result = [DurationChange (duration t')]
     /\ positions t' = [RunTracker.stored_position (filteredOf now pos t)]
     /\ distance t' = distance t
     /\ splits t' = splits t
     /\ elevation t' = elevation t
     /\ duration t'
        = (sp_timestamp (filteredOf now pos t) - startTime t - pausedTime t)
          / 1000%Z.
Proof.
  set (pos := {| ps_latitude := Some (nz 37);
                 ps_longitude := Some (nz (-122));
                 ps_accuracy := Some (nz 5); ps_altitude := Some (nz 120);
                 ps_timestamp := Some Scenario.now1; ps_coords := None |}).
  assert (H1 : passes_gate Scenario.now1 pos Scenario.started = true)
    by (vm_compute; reflexivity).
  assert (H2 : positions Scenario.started = []) by reflexivity.
  cbv zeta. split; [exact H1|]. split; [exact H2|].
  exact (first_fix_is_only_stored RefMath.lib Scenario.accept_all
           Scenario.storage Scenario.now1 pos Scenario.started H1 H2).
Defined.

(* ================================================================== *)
(** * Further properties of the adaptive sampling *)
(* ================================================================== *)

(** X14.  While the page is hidden the interval is at least 30000 ms,
    whatever the activity, the speed, the battery value and the distance
    goal: the background rule overrides the goal-proximity rule. *)
Theorem sampling_hidden_at_least_30s :
  forall (Math : MathLib) (speedMps : num) (batteryLevel : JSValue)
         (battery : option num) (t : RunTracker),
    (30000%Z <=? RunTracker.samplingIntervalFor speedMps batteryLevel true t)
    = true
    /\ (30000%Z
        <=? RunTracker.calculateOptimalSamplingInterval Math battery true t)
       = true.
Proof.
  intros Math speedMps batteryLevel battery t.
  assert (H : forall s b,
             (30000%Z <=? RunTracker.samplingIntervalFor s b true t) = true).
  { intros s b. unfold RunTracker.samplingIntervalFor. cbv zeta.
    split_conditions; vm_compute; reflexivity. }
  split; apply H.
Qed.

(** X15.  With the page visible and less than 1000 m left to an active
    distance goal, the interval is at most 5000 ms, whatever the activity,
    the speed and the battery value. *)
Theorem sampling_near_goal_at_most_5s :
  forall (speedMps : num) (batteryLevel : JSValue) (t : RunTracker)
         (goal : num),
    distanceGoal t = Some goal ->
    truthy goal = true ->
    (goal - distance t <? 1000%Z) = true ->
    let i := RunTracker.samplingIntervalFor speedMps batteryLevel false t in
    (3000%Z <=? i) = true /\ (i <=? 5000%Z) = true.
Proof.
  intros speedMps batteryLevel t goal Hgoal Htruthy Hnear.
  unfold RunTracker.samplingIntervalFor. cbv zeta.
  rewrite Hgoal, Htruthy, Hnear.
  split_conditions; split; vm_compute; reflexivity.
Qed.

Lemma sampling_near_goal_at_most_5s_witness :
  let t := RunTracker.with_distance 400%Z Scenario.started_with_goal in
  distanceGoal t = Some (nz 1000)
  /\ truthy (nz 1000) = true
  /\ (nz 1000 - distance t <? 1000%Z) = true
  /\ let i := RunTracker.samplingIntervalFor 0%Z JNull false t in
     (3000%Z <=? i) = true /\ (i <=? 5000%Z) = true.
Proof.
  cbv zeta.
  split; [reflexivity|]. split; [reflexivity|]. split; [reflexivity|].
  exact (@sampling_near_goal_at_most_5s 0%Z JNull
           (RunTracker.with_distance 400%Z Scenario.started_with_goal)
           (nz 1000) eq_refl eq_refl eq_refl).
Defined.

(* ================================================================== *)
(** * GPS outages: dead reckoning and the outage check *)
(* ================================================================== *)

Lemma with_sensorFusion_eta (t : RunTracker) :
  RunTracker.with_sensorFusion (sensorFusion t) t = t.
Proof. destruct t. reflexivity. Qed.

(** An accuracy of [scale / confidence] exceeds the 20 m of the quality
    gate when the confidence is above [low] and below [scale / 20]. *)
Lemma scaled_accuracy_exceeds_gate (scale low bound : Q) (confidence : num) :
  (0 <= low)%Q -> (20 * bound <= scale)%Q ->
  (confidence >? Fin low) = true ->
  (confidence >=? Fin bound) = false ->
  (Fin scale / confidence >? 20%Z) = true.
Proof.
  intros Hl Hb Hlow Hhigh.
  destruct confidence as [| | |c]; try discriminate.
  unfold gt, ge in *. cbn in Hlow, Hhigh. qbool.
  assert (Hc : (0 < c)%Q) by lra.
  rewrite (div_pos_Fin _ Hc). unfold nz. cbn. qbool.
  apply Qlt_shift_div_l; [exact Hc|].
  unfold inject_Z. nra.
Qed.

Lemma synthetic_fix_accuracy (lat lon accuracy now : num) :
  RunTracker.fix_accuracy (RunTracker.syntheticPosition lat lon accuracy now)
  = accuracy.
Proof. reflexivity. Qed.

(** X16.  The outage check never moves the session when the confidence of
    the trajectory prediction is below 1.25 and that of the dead-reckoned
    estimate below 2.5, in particular when neither exceeds 1: the synthetic
    fix carries the accuracy 25 / confidence, respectively 50 / confidence,
    which is above 20 m, so [addPosition] drops it.  No event is emitted
    and the session is as before but for the dead-reckoning record. *)
Theorem outage_check_never_moves_the_session :
  forall (Math : MathLib) (Math_pow : num -> num -> num)
         (filterLocation : StdPosition -> StdPosition -> bool)
         (ls : LocalStorage) (now nowFill nowAdd stepCount : num)
         (t : RunTracker),
    (forall p,
        GPSGapFiller.fillGap Math nowFill (gpsGapFiller t) = Some p ->
        (pp_confidence p >=? nq 125 100) = false) ->
    (forall e,
        fst (DeadReckoning.estimatePosition Math Math_pow stepCount
               (sensorFusion t)) = Some e ->
        (ep_confidence e >=? nq 25 10) = false) ->
    let result :=
      RunTracker.gpsOutageTick Math filterLocation Math_pow ls
        now nowFill nowAdd stepCount t in
    snd result = []
    /\ exists sf, fst result = RunTracker.with_sensorFusion sf t.
Proof.
  intros Math Math_pow fl ls now nowFill nowAdd stepCount t Hfill Hest.
  cbv zeta.
  assert (Hsame : (t, @nil Event) = (t, []) ->
                  snd (t, @nil Event) = []
                  /\ exists sf, fst (t, @nil Event)
                                = RunTracker.with_sensorFusion sf t).
  { intros _. split; [reflexivity|]. exists (sensorFusion t).
    symmetry. apply with_sensorFusion_eta. }
  unfold RunTracker.gpsOutageTick.
  destruct (isTracking t && negb (isPaused t)); [|apply Hsame; reflexivity].
  destruct ((now - lastGPSTime t >? RunTracker.gpsOutageThreshold)
            && (lastGPSTime t >? 0%Z)); [|apply Hsame; reflexivity].
  assert (Hfallback :
    let fallback :=
      let '(estimatedPosition, sf) :=
        DeadReckoning.estimatePosition Math Math_pow stepCount
          (sensorFusion t) in
      let t1 := RunTracker.with_sensorFusion sf t in
      match estimatedPosition with
      | Some estimated =>
          if ep_confidence estimated >? nq 3 10 then
            RunTracker.addPosition Math fl ls nowAdd
              (RunTracker.syntheticPosition (ep_lat estimated)
                 (ep_lon estimated) (50%Z / ep_confidence estimated) now) t1
          else (t1, [])
      | None => (t1, [])
      end in
    snd fallback = []
    /\ exists sf, fst fallback = RunTracker.with_sensorFusion sf t).
  { cbv zeta.
    destruct (DeadReckoning.estimatePosition Math Math_pow stepCount
                (sensorFusion t)) as [estimated sf] eqn:E.
    cbn [fst] in Hest.
    destruct estimated as [e|];
      [|split; [reflexivity | exists sf; reflexivity]].
    destruct (ep_confidence e >? nq 3 10) eqn:Hlow;
      [|split; [reflexivity | exists sf; reflexivity]].
    rewrite gate_closed.
    - split; [reflexivity | exists sf; reflexivity].
    - left. rewrite synthetic_fix_accuracy.
      apply (@scaled_accuracy_exceeds_gate 50 (3 # 10) (25 # 10));
        [discriminate | discriminate | exact Hlow |].
      apply (Hest e eq_refl). }
  cbv zeta in Hfallback.
  destruct (GPSGapFiller.fillGap Math nowFill (gpsGapFiller t))
    as [p|] eqn:Efill; [|exact Hfallback].
  destruct (pp_confidence p >? nq 5 10) eqn:Hlow; [|exact Hfallback].
  rewrite gate_closed.
  - apply Hsame; reflexivity.
  - left. rewrite synthetic_fix_accuracy.
    apply (@scaled_accuracy_exceeds_gate 25 (5 # 10) (125 # 100));
      [discriminate | discriminate | exact Hlow |].
    apply (Hfill p eq_refl).
Qed.

Lemma outage_check_never_moves_the_session_witness :
  let t := Scenario.after_fix1 Scenario.started in
  let now : num := 1700000021000%Z in
  (forall p,
      GPSGapFiller.fillGap RefMath.lib now (gpsGapFiller t) = Some p ->
      (pp_confidence p >=? nq 125 100) = false)
  /\ (forall e,
         fst (DeadReckoning.estimatePosition RefMath.lib pow_whole 12%Z
                (sensorFusion t)) = Some e ->
         (ep_confidence e >=? nq 25 10) = false)
  /\ let result :=
       RunTracker.gpsOutageTick RefMath.lib Scenario.accept_all pow_whole
         Scenario.storage now now now 12%Z t in
     snd result = []
     /\ exists sf, fst result = RunTracker.with_sensorFusion sf t.
Proof.
  set (t := Scenario.after_fix1 Scenario.started).
  set (now := nz 1700000021000).
  assert (Efill : GPSGapFiller.fillGap RefMath.lib now (gpsGapFiller t)
                  = None) by (vm_compute; reflexivity).
  assert (Econf :
            option_map (fun e => ep_confidence e >=? nq 25 10)
              (fst (DeadReckoning.estimatePosition RefMath.lib pow_whole
                      12%Z (sensorFusion t))) = Some false)
    by (vm_compute; reflexivity).
  assert (H1 : forall p,
             GPSGapFiller.fillGap RefMath.lib now (gpsGapFiller t) = Some p ->
             (pp_confidence p >=? nq 125 100) = false).
  { intros p Hp. rewrite Efill in Hp. discriminate. }
  assert (H2 : forall e,
             fst (DeadReckoning.estimatePosition RefMath.lib pow_whole 12%Z
                    (sensorFusion t)) = Some e ->
             (ep_confidence e >=? nq 25 10) = false).
  { intros e He. rewrite He in Econf. cbn [option_map] in Econf.
    injection Econf as Econf. exact Econf. }
  cbv zeta. split; [exact H1|]. split; [exact H2|].
  exact (outage_check_never_moves_the_session RefMath.lib pow_whole
           Scenario.accept_all Scenario.storage now now now 12%Z t H1 H2).
Defined.

(** Without new steps the estimate is the last fix and nothing changes. *)
Lemma estimate_without_new_steps Math Math_pow (stepCount : num)
  (d : DeadReckoning) (lat lon timestamp : num) :
  dr_lastKnownPosition d = Some (lat, lon, timestamp) ->
  (stepCount - dr_stepsSinceLastGPS d <=? 0%Z) = true ->
  DeadReckoning.estimatePosition Math Math_pow stepCount d
  = (Some {| ep_lat := lat; ep_lon := lon;
             ep_confidence := dr_currentConfidence d;
             ep_isEstimated := false |}, d).
Proof.
  intros Hlast Hdelta. unfold DeadReckoning.estimatePosition.
  rewrite Hlast, Hdelta. reflexivity.
Qed.

(** After an estimate at a finite step count the reference is the same
    fix and no step is left to account for. *)
Lemma estimate_leaves_no_steps Math Math_pow (stepCount : Q)
  (d : DeadReckoning) (lat lon timestamp : num) :
  dr_lastKnownPosition d = Some (lat, lon, timestamp) ->
  let d' :=
    snd (DeadReckoning.estimatePosition Math Math_pow (Fin stepCount) d) in
  dr_lastKnownPosition d' = Some (lat, lon, timestamp)
  /\ (Fin stepCount - dr_stepsSinceLastGPS d' <=? 0%Z) = true.
Proof.
  intros Hlast. cbv zeta. unfold DeadReckoning.estimatePosition.
  rewrite Hlast.
  destruct (Fin stepCount - dr_stepsSinceLastGPS d <=? 0%Z) eqn:Hdelta;
    cbn [snd dr_lastKnownPosition dr_stepsSinceLastGPS].
  - split; [exact Hlast | exact Hdelta].
  - split; [reflexivity|].
    unfold nz. cbn. qbool. unfold inject_Z. lra.
Qed.

(** X17.  Dead reckoning reports a displacement once.  After a GPS fix,
    [estimatePosition] called again with the step count of the call before
    returns the coordinates of that fix, not the estimate, and changes
    nothing: the estimate is never stored as the new reference, while the
    step count it was computed from is. *)
Theorem dead_reckoning_reports_a_displacement_once :
  forall (Math : MathLib) (Math_pow : num -> num -> num)
         (stepCount : Q) (lat lon timestamp : num) (d : DeadReckoning),
    dr_lastKnownPosition d = Some (lat, lon, timestamp) ->
    let first :=
      DeadReckoning.estimatePosition Math Math_pow (Fin stepCount) d in
    let second :=
      DeadReckoning.estimatePosition Math Math_pow (Fin stepCount)
        (snd first) in
    fst second
    = Some {| ep_lat := lat; ep_lon := lon;
              ep_confidence := dr_currentConfidence (snd first);
              ep_isEstimated := false |}
    /\ snd second = snd first
    /\ dr_lastKnownPosition (snd first) = Some (lat, lon, timestamp).
Proof.
  intros Math Math_pow stepCount lat lon timestamp d Hlast. cbv zeta.
  destruct (estimate_leaves_no_steps Math Math_pow stepCount d Hlast)
    as [Hlast' Hdelta'].
  rewrite (estimate_without_new_steps Math Math_pow _ _ Hlast' Hdelta').
  repeat split. exact Hlast'.
Qed.

Lemma dead_reckoning_reports_a_displacement_once_witness :
  let d := sensorFusion (Scenario.after_fix1 Scenario.started) in
  dr_lastKnownPosition d
  = Some (nz 37, nz (-122), nz 1700000001000)
  /\ let first :=
       DeadReckoning.estimatePosition RefMath.lib pow_whole (Fin 12) d in
     let second :=
       DeadReckoning.estimatePosition RefMath.lib pow_whole (Fin 12)
         (snd first) in
     fst second
     = Some {| ep_lat := nz 37; ep_lon := nz (-122);
               ep_confidence := dr_currentConfidence (snd first);
               ep_isEstimated := false |}
     /\ snd second = snd first
     /\ dr_lastKnownPosition (snd first)
        = Some (nz 37, nz (-122), nz 1700000001000).
Proof.
  assert (H : dr_lastKnownPosition
                (sensorFusion (Scenario.after_fix1 Scenario.started))
              = Some (nz 37, nz (-122), nz 1700000001000))
    by (vm_compute; reflexivity).
  cbv zeta. split; [exact H|].
  exact (@dead_reckoning_reports_a_displacement_once RefMath.lib pow_whole
           12 _ _ _ _ H).
Defined.

(* ================================================================== *)
(** * The step counter *)
(* ================================================================== *)

Lemma gt_excludes_le (a b : num) : (a >? b) = true -> (a <=? b) = false.
Proof.
  unfold gt. destruct a as [| | |a], b as [| | |b]; cbn;
    try discriminate; try reflexivity.
  intros H. qbool. lra.
Qed.

(** The counter after one sample: the count and the time of the last peak
    move together, and only on a step. *)
Lemma processAcceleration_step Math (now : Q) (acceleration : Acceleration)
  (s : StepCounter) (count lastPeak : Q) :
  sc_stepCount s = Fin count ->
  sc_lastPeakTime s = Fin lastPeak ->
  sc_minTimeBetweenSteps s = 250%Z ->
  let result :=
    StepCounter.processAcceleration Math (Fin now) acceleration s in
  sc_minTimeBetweenSteps (snd result) = 250%Z
  /\ (if fst result
      then sc_stepCount (snd result) = Fin (count + 1)
           /\ sc_lastPeakTime (snd result) = Fin now
           /\ (250 < now - lastPeak)%Q
      else sc_stepCount (snd result) = Fin count
           /\ sc_lastPeakTime (snd result) = Fin lastPeak).
Proof.
  intros Hcount Hpeak Hmin. cbv zeta.
  unfold StepCounter.processAcceleration.
  destruct (sc_lastAcceleration s) as [lastAcceleration|].
  - destruct (StepCounter.magnitudeOf Math acceleration >? sc_threshold s);
      cbn [andb fst snd sc_minTimeBetweenSteps sc_stepCount
           sc_lastPeakTime];
      [|split; [exact Hmin | split; assumption]].
    destruct (lastAcceleration <=? sc_threshold s);
      cbn [andb fst snd sc_minTimeBetweenSteps sc_stepCount
           sc_lastPeakTime];
      [|split; [exact Hmin | split; assumption]].
    destruct (Fin now - sc_lastPeakTime s >? sc_minTimeBetweenSteps s)
      eqn:Hgap;
      cbn [andb fst snd sc_minTimeBetweenSteps sc_stepCount
           sc_lastPeakTime];
      [|split; [exact Hmin | split; assumption]].
    split; [exact Hmin|]. rewrite Hcount. split; [reflexivity|].
    split; [reflexivity|].
    rewrite Hpeak, Hmin in Hgap. unfold gt, nz in Hgap. cbn in Hgap.
    qbool. unfold inject_Z in Hgap. lra.
  - cbn [fst snd sc_minTimeBetweenSteps sc_stepCount sc_lastPeakTime].
    split; [exact Hmin | split; assumption].
Qed.

Lemma feed_debounced Math (samples : list (Q * Acceleration)) :
  forall (s : StepCounter) (count lastPeak : Q),
    sc_stepCount s = Fin count ->
    sc_lastPeakTime s = Fin lastPeak ->
    sc_minTimeBetweenSteps s = 250%Z ->
    let result := feed Math samples s in
    let steps := inject_Z (Z.of_nat (reported (fst result))) in
    exists count' lastPeak' : Q,
      sc_stepCount (snd result) = Fin count'
      /\ (count' == count + steps)%Q
      /\ sc_lastPeakTime (snd result) = Fin lastPeak'
      /\ (250 * steps <= lastPeak' - lastPeak)%Q
      /\ (lastPeak' = lastPeak \/ In lastPeak' (map fst samples)).
Proof.
  induction samples as [|[now acceleration] rest IH];
    intros s count lastPeak Hcount Hpeak Hmin.
  - cbn. exists count, lastPeak.
    split; [exact Hcount|]. split; [ring|]. split; [exact Hpeak|].
    split; [unfold inject_Z; lra | left; reflexivity].
  - cbn [feed fst snd].
    destruct (processAcceleration_step Math now acceleration s
                Hcount Hpeak Hmin) as [Hmin' Hstep].
    destruct (fst (StepCounter.processAcceleration Math (Fin now)
                     acceleration s)) eqn:Eanswer.
    + destruct Hstep as (Hcount' & Hpeak' & Hgap).
      destruct (IH _ _ _ Hcount' Hpeak' Hmin')
        as (c & p & Hc & Ec & Hp & Hbound & Hin).
      exists c, p. cbn [reported map fst].
      split; [exact Hc|].
      rewrite Nat2Z.inj_succ, <- Z.add_1_r, inject_Z_plus.
      split; [rewrite Ec; ring|]. split; [exact Hp|].
      split; [change (inject_Z 1) with 1%Q; lra|].
      right. destruct Hin as [-> | Hin]; [left; reflexivity | right; exact Hin].
    + destruct Hstep as (Hcount' & Hpeak').
      destruct (IH _ _ _ Hcount' Hpeak' Hmin')
        as (c & p & Hc & Ec & Hp & Hbound & Hin).
      exists c, p. cbn [reported map fst].
      split; [exact Hc|]. split; [exact Ec|]. split; [exact Hp|].
      split; [exact Hbound|].
      destruct Hin as [-> | Hin]; [left; reflexivity | right; right; exact Hin].
Qed.

(** X18.  Steps are debounced in time.  A new counter fed any run of
    samples holds a count equal to the number of steps it reported, and
    250 ms times that count is at most the time of its last peak, which is
    0 or the time of one of the samples: by time [T] at most [T / 250]
    steps have been counted, whatever the accelerations and however the
    sample times are ordered. *)
Theorem steps_are_debounced :
  forall (Math : MathLib) (samples : list (Q * Acceleration)),
    let result := feed Math samples StepCounter.constructor in
    let steps := inject_Z (Z.of_nat (reported (fst result))) in
    exists count lastPeak : Q,
      sc_stepCount (snd result) = Fin count
      /\ (count == steps)%Q
      /\ sc_lastPeakTime (snd result) = Fin lastPeak
      /\ (250 * steps <= lastPeak)%Q
      /\ (lastPeak = 0%Q \/ In lastPeak (map fst samples))
      /\ forall T : Q,
           (0 <= T)%Q ->
           Forall (fun sample => (fst sample <= T)%Q) samples ->
           (250 * steps <= T)%Q.
Proof.
  intros Math samples. cbv zeta.
  destruct (@feed_debounced Math samples StepCounter.constructor 0 0
              eq_refl eq_refl eq_refl)
    as (c & p & Hc & Ec & Hp & Hbound & Hin).
  exists c, p. split; [exact Hc|]. split; [rewrite Ec; ring|].
  split; [exact Hp|]. split; [lra|]. split; [exact Hin|].
  intros T HT Hall.
  assert (HpT : (p <= T)%Q).
  { destruct Hin as [-> | Hin]; [exact HT|].
    apply in_map_iff in Hin. destruct Hin as (sample & <- & Hin).
    rewrite Forall_forall in Hall. apply (Hall sample Hin). }
  lra.
Qed.

(** A sample processed right after a reading above the threshold is never
    a step. *)
Lemma no_step_after_high_reading Math (now : num)
  (acceleration : Acceleration) (s : StepCounter) (previous : num) :
  sc_lastAcceleration s = Some previous ->
  (previous >? sc_threshold s) = true ->
  fst (StepCounter.processAcceleration Math now acceleration s) = false.
Proof.
  intros Hlast Hhigh. unfold StepCounter.processAcceleration.
  rewrite Hlast, (gt_excludes_le _ _ Hhigh), andb_false_r. reflexivity.
Qed.

(** A step leaves a reading above the threshold behind. *)
Lemma step_leaves_high_reading Math (now : num)
  (acceleration : Acceleration) (s : StepCounter) :
  let result := StepCounter.processAcceleration Math now acceleration s in
  fst result = true ->
  exists previous,
    sc_lastAcceleration (snd result) = Some previous
    /\ (previous >? sc_threshold (snd result)) = true.
Proof.
  cbv zeta. unfold StepCounter.processAcceleration.
  destruct (sc_lastAcceleration s) as [lastAcceleration|];
    [|discriminate].
  destruct (StepCounter.magnitudeOf Math acceleration >? sc_threshold s)
    eqn:Hhigh; [|discriminate].
  destruct (lastAcceleration <=? sc_threshold s); [|discriminate].
  destruct (now - sc_lastPeakTime s >? sc_minTimeBetweenSteps s);
    cbn [andb fst snd]; [|discriminate].
  intros _. eexists. split; [reflexivity | exact Hhigh].
Qed.

Lemma feed_never_twice_in_a_row Math (samples : list (Q * Acceleration)) :
  forall s : StepCounter,
    never_twice_in_a_row (fst (feed Math samples s))
    /\ ((exists previous,
            sc_lastAcceleration s = Some previous
            /\ (previous >? sc_threshold s) = true) ->
        hd false (fst (feed Math samples s)) = false).
Proof.
  induction samples as [|[now acceleration] rest IH]; intros s.
  - split; [exact I | reflexivity].
  - cbn [feed fst snd hd].
    destruct (IH (snd (StepCounter.processAcceleration Math (Fin now)
                         acceleration s))) as [IHrest IHhead].
    split.
    + destruct (fst (StepCounter.processAcceleration Math (Fin now)
                       acceleration s)) eqn:Eanswer.
      * pose proof (IHhead (step_leaves_high_reading Math (Fin now)
                              acceleration s Eanswer)) as Hhead.
        destruct (fst (feed Math rest _)) as [|answer answers];
          [exact I|].
        cbn [hd] in Hhead. subst answer. exact IHrest.
      * destruct (fst (feed Math rest _)) as [|answer answers];
          [exact I | exact IHrest].
    + intros (previous & Hlast & Hhigh).
      apply (no_step_after_high_reading Math _ _ _ Hlast Hhigh).
Qed.

(** X19.  A step needs a fresh upward crossing of the threshold.  In any
    run of samples from any counter no two samples in a row are reported
    as steps, however far apart in time they are; the first sample after a
    reset is never a step; and the history of magnitudes of a counter that
    was reset never exceeds its size. *)
Theorem steps_need_a_fresh_crossing :
  forall (Math : MathLib) (samples : list (Q * Acceleration))
         (s : StepCounter),
    never_twice_in_a_row (fst (feed Math samples s))
    /\ hd false (fst (feed Math samples (StepCounter.reset s))) = false
    /\ (List.length
          (sc_accelerationHistory
             (snd (feed Math samples (StepCounter.reset s))))
        <= sc_historySize s)%nat.
Proof.
  intros Math samples s.
  split; [apply feed_never_twice_in_a_row|]. split.
  - destruct samples as [|[now acceleration] rest]; reflexivity.
  - assert (H : forall samples' (s' : StepCounter),
               (List.length (sc_accelerationHistory s')
                <= sc_historySize s')%nat ->
               (List.length
                  (sc_accelerationHistory (snd (feed Math samples' s')))
                <= sc_historySize s')%nat
               /\ sc_historySize (snd (feed Math samples' s'))
                  = sc_historySize s').
    { induction samples' as [|[now acceleration] rest IH]; intros s' Hlen.
      - split; [exact Hlen | reflexivity].
      - cbn [feed snd].
        set (s1 := snd (StepCounter.processAcceleration Math (Fin now)
                          acceleration s')).
        assert (Hs1 : (List.length (sc_accelerationHistory s1)
                       <= sc_historySize s')%nat
                      /\ sc_historySize s1 = sc_historySize s').
        { unfold s1, StepCounter.processAcceleration.
          destruct (match sc_lastAcceleration s' with
                    | Some _ => _ | None => _ end);
            cbn [snd sc_accelerationHistory sc_historySize];
            (split; [apply push_bounded_length; exact Hlen | reflexivity]). }
        destruct Hs1 as [Hlen1 Hsize1].
        rewrite <- Hsize1 in Hlen1.
        destruct (IH s1 Hlen1) as [IH1 IH2].
        rewrite Hsize1 in IH1, IH2. split; assumption. }
    apply (H samples (StepCounter.reset s)). cbn. lia.
Qed.

(* ================================================================== *)
(** * The activity classifier *)
(* ================================================================== *)

(** Closes a branch of the rule chain: a known activity with a confidence
    between 0.7 and 0.9. *)
Ltac answer :=
  match goal with
  | Hrange : forall (a : string) (q : Q), _ |- _ =>
      apply Hrange;
      [unfold known_activities; cbn; tauto | split; unfold Qle; cbn; lia]
  end.

(** X20.  The classifier answers "unknown", with confidence 0, exactly
    when its acceleration buffer holds fewer than 10 readings.  With 10 or
    more it answers stationary, cycle, walk or run with a confidence
    between 0.7 and 0.9, whatever the readings and whatever [Math.sqrt]
    and [Math.pow] return, NaN included. *)
Theorem classification_is_unknown_only_below_ten_readings :
  forall (Math : MathLib) (Math_pow : num -> num -> num)
         (c : ActivityClassifier),
    let result := ActivityClassifier.classifyActivity Math Math_pow c in
    (cf_activity result = "unknown"%string
     <-> (List.length (cl_accelerationBuffer c) < 10)%nat)
    /\ (cf_activity result = "unknown"%string -> cf_confidence result = 0%Z)
    /\ (cf_activity result <> "unknown"%string ->
        In (cf_activity result) known_activities
        /\ exists q : Q,
             cf_confidence result = Fin q /\ (7 # 10 <= q <= 9 # 10)%Q).
Proof.
  intros Math Math_pow c. cbv zeta.
  unfold ActivityClassifier.classifyActivity.
  destruct (List.length (cl_accelerationBuffer c) <? 10)%nat eqn:Elen.
  - apply Nat.ltb_lt in Elen. cbn [cf_activity cf_confidence].
    split; [split; [intros _; exact Elen | reflexivity]|].
    split; [reflexivity|]. intros H. exfalso. apply H. reflexivity.
  - apply Nat.ltb_ge in Elen.
    assert (Hrange : forall (a : string) (q : Q),
               In a known_activities ->
               (7 # 10 <= q <= 9 # 10)%Q ->
               (a = "unknown"%string <-> (List.length (cl_accelerationBuffer c)
                                   < 10)%nat)
               /\ (a = "unknown"%string -> Fin q = 0%Z)
               /\ (a <> "unknown"%string ->
                   In a known_activities
                   /\ exists q' : Q,
                        Fin q = Fin q' /\ (7 # 10 <= q' <= 9 # 10)%Q)).
    { intros a q Ha Hq.
      assert (Hne : a <> "unknown"%string).
      { intros ->. unfold known_activities in Ha. cbn in Ha.
        destruct Ha as [H|[H|[H|[H|[]]]]]; discriminate. }
      split; [split; [intros H; contradiction | intros H; lia]|].
      split; [intros H; contradiction|].
      intros _. split; [exact Ha|]. exists q. split; [reflexivity|exact Hq]. }
    destruct (ft_avgMagnitude _ <? nq 105 10); [answer|].
    destruct (ft_peakFrequency _ <? nq 15 10).
    + destruct (ft_avgRotation _ >? 20%Z);
        (answer).
    + destruct (ft_peakFrequency _ >? nq 25 10);
        [answer|].
      destruct (ft_variance _ >? 5%Z);
        (answer).
Qed.

Lemma shift_over_pushed {A : Type} (size : nat) (buffer : list A) (x : A) :
  (List.length buffer <= size)%nat ->
  List.length (ActivityClassifier.shift_over size (buffer ++ [x]))
  = Nat.min (S (List.length buffer)) size.
Proof.
  intros H. unfold ActivityClassifier.shift_over.
  rewrite length_app. cbn [List.length].
  destruct (size <? List.length buffer + 1)%nat eqn:E.
  - apply Nat.ltb_lt in E.
    destruct buffer as [|y rest]; cbn [app tl List.length] in *; [lia|].
    rewrite length_app. cbn [List.length]. lia.
  - apply Nat.ltb_ge in E. rewrite length_app. cbn [List.length]. lia.
Qed.

Lemma shift_over_within {A : Type} (size : nat) (buffer : list A) :
  (List.length buffer <= size)%nat ->
  ActivityClassifier.shift_over size buffer = buffer.
Proof.
  intros H. unfold ActivityClassifier.shift_over.
  destruct (size <? List.length buffer)%nat eqn:E; [|reflexivity].
  apply Nat.ltb_lt in E. lia.
Qed.

Lemma sample_all_lengths (samples : list (num * Motion)) :
  forall c : ActivityClassifier,
    (List.length (cl_accelerationBuffer c) <= cl_bufferSize c)%nat ->
    (List.length (cl_rotationBuffer c) <= cl_bufferSize c)%nat ->
    let c' := sample_all samples c in
    cl_bufferSize c' = cl_bufferSize c
    /\ List.length (cl_accelerationBuffer c')
       = Nat.min (List.length (cl_accelerationBuffer c)
                  + readings mo_acceleration samples) (cl_bufferSize c)
    /\ List.length (cl_rotationBuffer c')
       = Nat.min (List.length (cl_rotationBuffer c)
                  + readings mo_rotationRate samples) (cl_bufferSize c).
Proof.
  induction samples as [|[now motion] rest IH]; intros c Hacc Hrot.
  - cbn. split; [reflexivity|]. split; lia.
  - cbn [sample_all].
    set (c1 := ActivityClassifier.addSample now motion c).
    assert (H1 : cl_bufferSize c1 = cl_bufferSize c) by reflexivity.
    assert (Hacc1 :
              List.length (cl_accelerationBuffer c1)
              = Nat.min (List.length (cl_accelerationBuffer c)
                         + readings mo_acceleration [(now, motion)])
                  (cl_bufferSize c)).
    { unfold c1, ActivityClassifier.addSample, readings.
      cbn [cl_accelerationBuffer List.filter snd].
      destruct (mo_acceleration motion); cbn [List.length].
      - rewrite shift_over_pushed by exact Hacc. f_equal. lia.
      - rewrite shift_over_within by exact Hacc. lia. }
    assert (Hrot1 :
              List.length (cl_rotationBuffer c1)
              = Nat.min (List.length (cl_rotationBuffer c)
                         + readings mo_rotationRate [(now, motion)])
                  (cl_bufferSize c)).
    { unfold c1, ActivityClassifier.addSample, readings.
      cbn [cl_rotationBuffer List.filter snd].
      destruct (mo_rotationRate motion); cbn [List.length].
      - rewrite shift_over_pushed by exact Hrot. f_equal. lia.
      - rewrite shift_over_within by exact Hrot. lia. }
    assert (Hcons : forall A (member : Motion -> option A),
               readings member ((now, motion) :: rest)
               = (readings member [(now, motion)]
                  + readings member rest)%nat).
    { intros A member. unfold readings. cbn [List.filter snd].
      destruct (member motion); reflexivity. }
    destruct (IH c1) as (IH1 & IH2 & IH3); [lia | lia |].
    rewrite H1 in IH1, IH2, IH3. rewrite !Hcons.
    split; [exact IH1|]. split; lia.
Qed.

(** X21.  After a reset and any run of samples the acceleration buffer
    holds as many readings as samples carried an acceleration, capped at
    the buffer size, and likewise the rotation buffer; so a classifier of
    the constructor's size 50 answers "unknown" until ten samples with an
    acceleration have arrived, and never again until the next reset. *)
Theorem classifier_warms_up_in_ten_readings :
  forall (Math : MathLib) (Math_pow : num -> num -> num)
         (samples : list (num * Motion)) (c : ActivityClassifier),
    let c' := sample_all samples (ActivityClassifier.reset c) in
    List.length (cl_accelerationBuffer c')
    = Nat.min (readings mo_acceleration samples) (cl_bufferSize c)
    /\ List.length (cl_rotationBuffer c')
       = Nat.min (readings mo_rotationRate samples) (cl_bufferSize c)
    /\ (cf_activity
          (ActivityClassifier.classifyActivity Math Math_pow
             (sample_all samples
                (ActivityClassifier.reset ActivityClassifier.constructor)))
        = "unknown"%string
        <-> (readings mo_acceleration samples < 10)%nat).
Proof.
  intros Math Math_pow samples c. cbv zeta.
  destruct (@sample_all_lengths samples (ActivityClassifier.reset c))
    as (_ & Hacc & Hrot); [cbn; lia | cbn; lia |].
  cbn [ActivityClassifier.reset cl_accelerationBuffer cl_rotationBuffer
       cl_bufferSize List.length Nat.add] in Hacc, Hrot.
  split; [exact Hacc|]. split; [exact Hrot|].
  destruct (@sample_all_lengths samples
              (ActivityClassifier.reset ActivityClassifier.constructor))
    as (_ & Hacc0 & _); [cbn; lia | cbn; lia |].
  cbn [ActivityClassifier.reset ActivityClassifier.constructor
       cl_accelerationBuffer cl_bufferSize List.length Nat.add] in Hacc0.
  unfold ActivityClassifier.classifyActivity.
  destruct (List.length _ <? 10)%nat eqn:Elen.
  - apply Nat.ltb_lt in Elen. cbn [cf_activity].
    split; [intros _; lia | reflexivity].
  - apply Nat.ltb_ge in Elen.
    split; [|intros H; lia].
    intros H. exfalso. revert H.
    destruct (ft_avgMagnitude _ <? nq 105 10); [discriminate|].
    destruct (ft_peakFrequency _ <? nq 15 10).
    + destruct (ft_avgRotation _ >? 20%Z); discriminate.
    + destruct (ft_peakFrequency _ >? nq 25 10); [discriminate|].
      destruct (ft_variance _ >? 5%Z); discriminate.
Qed.

(* ================================================================== *)
(** * The clock of a session *)
(* ================================================================== *)

Lemma pause_and_resume_clock (intervals : list (Q * Q)) :
  forall (t : RunTracker) (t0 p : Q),
    isTracking t = true -> isPaused t = false ->
    startTime t = Fin t0 -> pausedTime t = Fin p ->
    let t' := pause_and_resume intervals t in
    isTracking t' = true /\ isPaused t' = false
    /\ startTime t' = Fin t0
    /\ (exists p' : Q,
           pausedTime t' = Fin p' /\ (p' == p + total_pause intervals)%Q)
    /\ distance t' = distance t /\ splits t' = splits t
    /\ positions t' = positions t.
Proof.
  induction intervals as [|[paused resumed] rest IH];
    intros t t0 p Htracking Hpaused Hstart Hp.
  - cbn. repeat split; try assumption.
    exists p. split; [exact Hp | ring].
  - cbn [pause_and_resume total_pause].
    set (t1 := fst (RunTracker.resume (Fin resumed)
                      (fst (RunTracker.pause (Fin paused) t)))).
    assert (H1 : isTracking t1 = true /\ isPaused t1 = false
                 /\ startTime t1 = Fin t0
                 /\ pausedTime t1 = Fin (p + (resumed + - paused))
                 /\ distance t1 = distance t /\ splits t1 = splits t
                 /\ positions t1 = positions t).
    { unfold t1, RunTracker.pause. rewrite Htracking, Hpaused.
      cbn [negb orb fst]. unfold RunTracker.resume.
      cbn [isTracking isPaused RunTracker.with_pause negb orb fst
           pausedTime lastPauseTime startTime distance splits positions].
      rewrite Htracking, Hp. cbn [negb orb fst isTracking isPaused
           RunTracker.with_pause pausedTime startTime distance splits
           positions JS.add JS.sub JS.neg].
      repeat split; assumption. }
    destruct H1 as (Ht1 & Hp1 & Hs1 & Hpt1 & Hd1 & Hsp1 & Hpos1).
    destruct (IH t1 t0 _ Ht1 Hp1 Hs1 Hpt1)
      as (IHt & IHp & IHs & (p' & IHpt & Ep') & IHd & IHsp & IHpos).
    split; [exact IHt|]. split; [exact IHp|]. split; [exact IHs|].
    split; [exists p'; split; [exact IHpt | rewrite Ep'; ring]|].
    split; [congruence|]. split; congruence.
Qed.

Lemma div_Fin_1000 (a : Q) :
  Fin a / Fin (inject_Z 1000) = Fin (a / inject_Z 1000).
Proof. apply div_pos_Fin. reflexivity. Qed.

(** Evaluates the arithmetic of the clock on finite numbers. *)
Ltac clock_arith :=
  unfold nz;
  repeat (progress cbn [JS.sub JS.add JS.neg JS.mul]
          || rewrite div_Fin_1000).

(** X22.  The duration excludes the pauses.  A session started at [t0]
    and then paused and resumed any number of times shows, at the timer
    tick at [now], the duration [(now - t0 - pauses) / 1000] seconds, where
    [pauses] is the total length of the pauses; the pauses leave the
    distance, the splits and the stored positions as they were. *)
Theorem duration_excludes_pauses :
  forall (ls : LocalStorage) (t0 now : Q) (intervals : list (Q * Q))
         (t : RunTracker),
    isTracking t && negb (isPaused t) = false ->
    let started := fst (RunTracker.start ls (Fin t0) t) in
    let session := pause_and_resume intervals started in
    let result := RunTracker.timerTick (Fin now) session in
    (exists d : Q,
        duration (fst result) = Fin d
        /\ snd result = [DurationChange (Fin d)]
        /\ (d == (now - t0 - total_pause intervals) / 1000)%Q)
    /\ distance session = 0%Z /\ splits session = []
    /\ positions session = [].
Proof.
  intros ls t0 now intervals t Hidle. cbv zeta.
  assert (Hstarted :
            let started := fst (RunTracker.start ls (Fin t0) t) in
            isTracking started = true /\ isPaused started = false
            /\ startTime started = Fin t0 /\ pausedTime started = Fin 0
            /\ distance started = 0%Z /\ splits started = []
            /\ positions started = []).
  { cbv zeta. unfold RunTracker.start. rewrite Hidle. cbn.
    repeat split. }
  cbv zeta in Hstarted.
  destruct Hstarted as (H1 & H2 & H3 & H4 & H5 & H6 & H7).
  destruct (@pause_and_resume_clock intervals _ t0 0 H1 H2 H3 H4)
    as (Ht & Hp & Hs & (p & Hpt & Ep) & Hd & Hsp & Hpos).
  split; [|split; [congruence | split; congruence]].
  unfold RunTracker.timerTick. rewrite Ht, Hp, Hs, Hpt.
  cbn [andb negb fst snd duration RunTracker.with_duration].
  clock_arith.
  eexists. split; [reflexivity|]. split; [reflexivity|].
  rewrite Ep. unfold inject_Z. field.
Qed.

Lemma duration_excludes_pauses_witness :
  let t := RunTracker.constructor Scenario.storage in
  let intervals := [(60000%Q, 90000%Q); (120000%Q, 125000%Q)] in
  isTracking t && negb (isPaused t) = false
  /\ let started := fst (RunTracker.start Scenario.storage (Fin 1000) t) in
     let session := pause_and_resume intervals started in
     let result := RunTracker.timerTick (Fin 201000) session in
     (exists d : Q,
         duration (fst result) = Fin d
         /\ snd result = [DurationChange (Fin d)]
         /\ (d == (201000 - 1000 - total_pause intervals) / 1000)%Q)
     /\ distance session = 0%Z /\ splits session = []
     /\ positions session = [].
Proof.
  cbv zeta. split; [reflexivity|].
  exact (@duration_excludes_pauses Scenario.storage 1000 201000
           [(60000%Q, 90000%Q); (120000%Q, 125000%Q)]
           (RunTracker.constructor Scenario.storage) eq_refl).
Defined.

(* ================================================================== *)
(** * Restoring a saved session *)
(* ================================================================== *)


(** A session saved at 900 s and restored as paused a minute later shows
    900 s until it is resumed; resumed ten seconds after the restoring, it
    shows 910 s at the tick ten seconds after that. *)
Example restored_paused_session :
  let paused :=
    fst (fst (RunTracker.restoreTrackingPaused Scenario.storage
                (nz 1700000960000) (nz 1700000960000) Saved.state
                (RunTracker.constructor Scenario.storage)
                Saved.readouts)) in
  let resumedSession :=
    fst (RunTracker.resume (nz 1700000970000) paused) in
  JS.same (duration paused) 900%Z
  /\ JS.same
       (duration
          (fst (RunTracker.timerTick (nz 1700000980000) resumedSession)))
       910%Z.
Proof. cbv zeta. split; vm_compute; reflexivity. Qed.

(** X24.  Restoring does not restore the split marker.  [restoreTracking]
    takes the distance and the splits from the saved state and leaves the
    stored positions and [lastSplitDistance] as they are, so in a new
    tracker both stay empty, respectively 0: when the restored distance is
    one unit or more a split is due at once, and the split evaluation
    appends to the saved splits a split numbered
    [floor(distance / unit)]. *)
Theorem restoring_leaves_the_split_marker :
  forall (ls ls0 : LocalStorage) (savedState : SavedState) (d : Q)
         (now nowStart : num) (r : Readouts),
    sv_distance savedState = Fin d ->
    (RunTracker.splitDistanceOf (RunTracker.getDistanceUnit ls) <=? Fin d)
    = true ->
    let restored :=
      fst (fst (RunTracker.restoreTracking ls now nowStart savedState
                  (RunTracker.constructor ls0) r)) in
    let unit := RunTracker.splitDistanceOf (RunTracker.getDistanceUnit ls) in
    let previous :=
      match last_of (sv_splits savedState) with
      | Some s => split_time s
      | None => nz 0
      end in
    positions restored = []
    /\ lastSplitDistance restored = 0%Z
    /\ splits restored = sv_splits savedState
    /\ RunTracker.split_due ls restored = true
    /\ splits (fst (RunTracker.recordSplit ls restored))
       = sv_splits savedState
         ++ [ {| split_km := JS.floor (Fin d / unit);
                 split_time := duration restored;
                 split_pace := (duration restored - previous) / unit;
                 split_isPartial := false |} ]
    /\ (1%Z <=? JS.floor (Fin d / unit)) = true.
Proof.
  intros ls ls0 savedState d now nowStart r Hd Hunit. cbv zeta.
  destruct (splitDistanceOf_positive (RunTracker.getDistanceUnit ls))
    as (u & Eu & Hu).
  rewrite Eu in *.
  assert (Hdu : (u <= d)%Q) by (apply le_Fin; exact Hunit).
  assert (Hone : (1 <= Qfloor (d / u))%Z).
  { rewrite <- (Qfloor_Z 1). apply Qfloor_resp_le.
    apply Qle_shift_div_l; [exact Hu|]. unfold inject_Z. lra. }
  assert (Hzero : Qfloor (0 / u) = 0%Z).
  { assert (E : (0 / u == inject_Z 0)%Q) by (unfold inject_Z; field; lra).
    rewrite E. apply Qfloor_Z. }
  assert (Hdue :
            RunTracker.split_due ls
              (fst (fst (RunTracker.restoreTracking ls now nowStart
                           savedState (RunTracker.constructor ls0) r)))
            = true).
  { unfold RunTracker.split_due, RunTracker.restoreTracking.
    cbv zeta.
    cbn [fst distance lastSplitDistance RunTracker.with_saved
         RunTracker.constructor].
    rewrite Eu, Hd. unfold nz. rewrite !(div_pos_Fin _ Hu).
    cbn [JS.floor]. unfold gt. apply lt_Fin.
    change (0 # 1)%Q with (inject_Z 0) in Hzero.
    rewrite Hzero. rewrite <- Zlt_Qlt. lia. }
  split; [reflexivity|]. split; [reflexivity|]. split; [reflexivity|].
  split; [exact Hdue|]. split.
  - rewrite recordSplit_cases, Hdue. cbv zeta.
    cbn [fst splits RunTracker.with_split].
    unfold RunTracker.restoreTracking. cbv zeta.
    cbn [fst splits distance duration RunTracker.with_saved].
    rewrite Eu, Hd. reflexivity.
  - rewrite (div_pos_Fin _ Hu). cbn [JS.floor]. unfold nz.
    apply le_Fin. rewrite <- Zle_Qle. exact Hone.
Qed.

Lemma restoring_leaves_the_split_marker_witness :
  let restored :=
    fst (fst (RunTracker.restoreTracking Scenario.storage
                1700000960000%Z 1700000960000%Z Saved.state
                (RunTracker.constructor Scenario.storage) Saved.readouts)) in
  let unit :=
    RunTracker.splitDistanceOf (RunTracker.getDistanceUnit Scenario.storage)
  in
  let previous :=
    match last_of (sv_splits Saved.state) with
    | Some s => split_time s
    | None => nz 0
    end in
  sv_distance Saved.state = Fin 2500
  /\ (unit <=? Fin 2500) = true
  /\ positions restored = []
  /\ lastSplitDistance restored = 0%Z
  /\ splits restored = sv_splits Saved.state
  /\ RunTracker.split_due Scenario.storage restored = true
  /\ splits (fst (RunTracker.recordSplit Scenario.storage restored))
     = sv_splits Saved.state
       ++ [ {| split_km := JS.floor (Fin 2500 / unit);
               split_time := duration restored;
               split_pace := (duration restored - previous) / unit;
               split_isPartial := false |} ]
  /\ (1%Z <=? JS.floor (Fin 2500 / unit)) = true.
Proof.
  cbv zeta. split; [reflexivity|]. split; [reflexivity|].
  exact (@restoring_leaves_the_split_marker Scenario.storage
           Scenario.storage Saved.state 2500 1700000960000%Z
           1700000960000%Z Saved.readouts eq_refl eq_refl).
Defined.

(* ================================================================== *)
(** * Stopping *)
(* ================================================================== *)

Lemma floor_div_1000 (a b : Q) :
  (a == b)%Q ->
  JS.floor (Fin a / Fin (inject_Z 1000))
  = Fin (inject_Z (Qfloor (b / 1000))).
Proof.
  intros E. rewrite div_Fin_1000. cbn [JS.floor].
  assert (E' : (a / inject_Z 1000 == b / 1000)%Q)
    by (rewrite E; reflexivity).
  rewrite E'. reflexivity.
Qed.

(** X25.  [stop()] subtracts only the pauses that [resume()] has ended.
    A session started at [t0], paused at [paused] and stopped at [stopped]
    while still paused is given the final duration
    [floor((stopped - t0) / 1000)]: the open pause counts as activity.
    Resumed at [resumed] before it is stopped, it is given
    [floor((stopped - t0 - (resumed - paused)) / 1000)]. *)
Theorem stop_counts_an_open_pause :
  forall (calculatePace : num -> num -> string -> num)
         (calculateStats : list Position -> num -> option (list Split))
         (ls : LocalStorage) (t0 paused resumed stopped : Q)
         (t : RunTracker) (r : Readouts),
    isTracking t && negb (isPaused t) = false ->
    let started := fst (RunTracker.start ls (Fin t0) t) in
    let whilePaused := fst (RunTracker.pause (Fin paused) started) in
    let afterResume := fst (RunTracker.resume (Fin resumed) whilePaused) in
    let resultsOf session :=
      fst (fst (fst (RunTracker.stop calculatePace calculateStats ls
                       (Fin stopped) session r))) in
    (exists results,
        resultsOf whilePaused = Some results
        /\ fr_duration results
           = Fin (inject_Z (Qfloor ((stopped - t0) / 1000))))
    /\ (exists results,
           resultsOf afterResume = Some results
           /\ fr_duration results
              = Fin (inject_Z
                       (Qfloor ((stopped - t0 - (resumed - paused)) / 1000)))).
Proof.
  intros calculatePace calculateStats ls t0 paused resumed stopped t r
    Hidle.
  cbv zeta. unfold RunTracker.start. rewrite Hidle. cbn [fst].
  unfold RunTracker.pause.
  cbn [isTracking isPaused negb orb fst RunTracker.with_pause].
  unfold RunTracker.resume.
  cbn [isTracking isPaused negb orb fst RunTracker.with_pause pausedTime
       lastPauseTime].
  unfold RunTracker.stop.
  cbn [isTracking negb fst startTime pausedTime RunTracker.with_pause].
  split; eexists; (split; [reflexivity|]); cbn [fr_duration];
    unfold nz; cbn [JS.sub JS.add JS.neg];
    apply floor_div_1000; unfold inject_Z; ring.
Qed.

Lemma stop_counts_an_open_pause_witness :
  let calculatePace := fun (distance duration : num) (_ : string) =>
                         duration / distance in
  let calculateStats := fun (_ : list Position) (_ : num) =>
                          @None (list Split) in
  let t := RunTracker.constructor Scenario.storage in
  isTracking t && negb (isPaused t) = false
  /\ let started := fst (RunTracker.start Scenario.storage (Fin 1000) t) in
     let whilePaused := fst (RunTracker.pause (Fin 61000) started) in
     let afterResume :=
       fst (RunTracker.resume (Fin 91000) whilePaused) in
     let resultsOf session :=
       fst (fst (fst (RunTracker.stop calculatePace calculateStats
                        Scenario.storage (Fin 121500) session
                        Saved.readouts))) in
     (exists results,
         resultsOf whilePaused = Some results
         /\ fr_duration results
            = Fin (inject_Z (Qfloor ((121500 - 1000) / 1000))))
     /\ (exists results,
            resultsOf afterResume = Some results
            /\ fr_duration results
               = Fin (inject_Z
                        (Qfloor ((121500 - 1000 - (91000 - 61000)) / 1000)))).
Proof.
  cbv zeta. split; [reflexivity|].
  exact (@stop_counts_an_open_pause
           (fun (distance duration : num) (_ : string) =>
              duration / distance)
           (fun (_ : list Position) (_ : num) => @None (list Split))
           Scenario.storage 1000 61000 91000 121500
           (RunTracker.constructor Scenario.storage) Saved.readouts
           eq_refl).
Defined.

(** X26.  A stopped session is inert.  [stop()] on a tracking session
    clears the tracking and paused flags and the distance goal and keeps
    the distance and the stored positions; afterwards every fix, pause,
    resume, timer tick and outage check leaves the session as it is and
    emits nothing, and a second [stop()] returns nothing and changes
    nothing. *)
Theorem a_stopped_session_is_inert :
  forall (Math : MathLib) (Math_pow : num -> num -> num)
         (filterLocation : StdPosition -> StdPosition -> bool)
         (calculatePace : num -> num -> string -> num)
         (calculateStats : list Position -> num -> option (list Split))
         (ls : LocalStorage) (now : num) (t : RunTracker) (r : Readouts),
    isTracking t = true ->
    let stopped :=
      RunTracker.stop calculatePace calculateStats ls now t r in
    let t' := snd (fst (fst stopped)) in
    let r' := snd (fst stopped) in
    isTracking t' = false /\ isPaused t' = false /\ distanceGoal t' = None
    /\ distance t' = distance t /\ positions t' = positions t
    /\ (forall ls' later pos,
           RunTracker.addPosition Math filterLocation ls' later pos t'
           = (t', []))
    /\ (forall later, RunTracker.pause later t' = (t', []))
    /\ (forall later, RunTracker.resume later t' = (t', []))
    /\ (forall later, RunTracker.timerTick later t' = (t', []))
    /\ (forall ls' later laterFill laterAdd stepCount,
           RunTracker.gpsOutageTick Math filterLocation Math_pow ls'
             later laterFill laterAdd stepCount t' = (t', []))
    /\ (forall ls' later,
           RunTracker.stop calculatePace calculateStats ls' later t' r'
           = (None, t', r', [])).
Proof.
  intros Math Math_pow fl calculatePace calculateStats ls now t r Htracking.
  cbv zeta.
  set (stopped := RunTracker.stop calculatePace calculateStats ls now t r).
  set (t' := snd (fst (fst stopped))).
  set (r' := snd (fst stopped)).
  assert (Hfields :
            isTracking t' = false /\ isPaused t' = false
            /\ distanceGoal t' = None
            /\ distance t' = distance t /\ positions t' = positions t).
  { unfold t', stopped, RunTracker.stop. rewrite Htracking.
    cbn [negb fst snd isTracking isPaused distanceGoal distance positions].
    repeat split. }
  destruct Hfields as (H1 & H2 & H3 & H4 & H5).
  repeat (split; [assumption|]).
  split.
  { intros ls' later pos. apply addPosition_not_active.
    rewrite H1. reflexivity. }
  split.
  { intros later. unfold RunTracker.pause. rewrite H1. reflexivity. }
  split.
  { intros later. unfold RunTracker.resume. rewrite H1. reflexivity. }
  split.
  { intros later. unfold RunTracker.timerTick. rewrite H1. reflexivity. }
  split.
  { intros ls' later laterFill laterAdd stepCount.
    unfold RunTracker.gpsOutageTick. rewrite H1. reflexivity. }
  intros ls' later. unfold RunTracker.stop. rewrite H1. reflexivity.
Qed.

Lemma a_stopped_session_is_inert_witness :
  let calculatePace := fun (distance duration : num) (_ : string) =>
                         duration / distance in
  let calculateStats := fun (_ : list Position) (_ : num) =>
                          @None (list Split) in
  let t := Scenario.after_fix1 Scenario.started_with_goal in
  let now : num := 1700000600000%Z in
  isTracking t = true
  /\ let stopped :=
       RunTracker.stop calculatePace calculateStats Scenario.storage now t
         Saved.readouts in
     let t' := snd (fst (fst stopped)) in
     let r' := snd (fst stopped) in
     isTracking t' = false /\ isPaused t' = false /\ distanceGoal t' = None
     /\ distance t' = distance t /\ positions t' = positions t
     /\ (forall ls' later pos,
            RunTracker.addPosition RefMath.lib Scenario.accept_all ls' later
              pos t' = (t', []))
     /\ (forall later, RunTracker.pause later t' = (t', []))
     /\ (forall later, RunTracker.resume later t' = (t', []))
     /\ (forall later, RunTracker.timerTick later t' = (t', []))
     /\ (forall ls' later laterFill laterAdd stepCount,
            RunTracker.gpsOutageTick RefMath.lib Scenario.accept_all
              pow_whole ls' later laterFill laterAdd stepCount t'
            = (t', []))
     /\ (forall ls' later,
            RunTracker.stop calculatePace calculateStats ls' later t' r'
            = (None, t', r', [])).
Proof.
  assert (H : isTracking (Scenario.after_fix1 Scenario.started_with_goal)
              = true) by (vm_compute; reflexivity).
  cbv zeta. split; [exact H|].
  exact (@a_stopped_session_is_inert RefMath.lib pow_whole
           Scenario.accept_all
           (fun (distance duration : num) (_ : string) =>
              duration / distance)
           (fun (_ : list Position) (_ : num) => @None (list Split))
           Scenario.storage 1700000600000%Z
           (Scenario.after_fix1 Scenario.started_with_goal) Saved.readouts
           H).
Defined.

(* ================================================================== *)
(** * The current speed *)
(* ================================================================== *)

Lemma last_of_app {A : Type} (l : list A) (x : A) :
  last_of (l ++ [x]) = Some x.
Proof. unfold last_of. rewrite rev_app_distr. reflexivity. Qed.

Lemma last_of_split {A : Type} (l : list A) (x : A) :
  last_of l = Some x -> exists l', l = l' ++ [x].
Proof.
  unfold last_of. intros H. destruct (rev l) as [|y l'] eqn:E;
    [discriminate|].
  injection H as ->. exists (rev l').
  rewrite <- (rev_involutive l), E. reflexivity.
Qed.

Lemma last_of_filter {A : Type} (f : A -> bool) (l : list A) (x : A) :
  last_of l = Some x -> f x = true -> last_of (List.filter f l) = Some x.
Proof.
  intros Hlast Hx. destruct (last_of_split l Hlast) as (l' & ->).
  rewrite filter_app. cbn [List.filter]. rewrite Hx. apply last_of_app.
Qed.

(** The average [distance / duration] taken when both are positive, 0
    otherwise. *)
Lemma average_speed_nonneg (d u : num) :
  let v := if (d >? 0%Z) && (u >? 0%Z) then d / u else nz 0 in
  (0%Z <=? v) = true \/ (v = NaN /\ d = PInf /\ u = PInf).
Proof.
  cbv zeta. unfold gt, nz.
  destruct d as [| | |d], u as [| | |u]; cbn [JS.lt andb];
    try (left; reflexivity); try (right; repeat split; reflexivity).
  - destruct (Qlt_bool (inject_Z 0) u) eqn:Hu; [|left; reflexivity].
    qbool. unfold inject_Z in Hu. left.
    unfold JS.div, Qsign.
    replace (u ?= 0)%Q with Gt by (symmetry; apply Qgt_alt; exact Hu).
    reflexivity.
  - rewrite andb_false_r. left; reflexivity.
  - destruct (Qlt_bool (inject_Z 0) d); left; reflexivity.
  - rewrite andb_false_r. left; reflexivity.
  - destruct (Qlt_bool (inject_Z 0) d) eqn:Hd; cbn [andb];
      [|left; reflexivity].
    destruct (Qlt_bool (inject_Z 0) u) eqn:Hu; [|left; reflexivity].
    qbool. unfold inject_Z in Hd, Hu. left.
    rewrite (div_pos_Fin _ Hu). cbn. qbool.
    apply Qle_shift_div_l; [exact Hu|]. unfold inject_Z. lra.
Qed.

(** A positive quantity divided by a positive finite one. *)
Lemma positive_over_finite (a : num) (q : Q) :
  (a >? 0%Z) = true -> (0 < q)%Q -> (0%Z <=? a / Fin q) = true.
Proof.
  intros Ha Hq. unfold gt, nz in *.
  destruct a as [| | |a]; cbn in Ha; try discriminate.
  - unfold JS.div, Qsign.
    replace (q ?= 0)%Q with Gt by (symmetry; apply Qgt_alt; exact Hq).
    reflexivity.
  - qbool. unfold inject_Z in Ha. rewrite (div_pos_Fin _ Hq). cbn.
    qbool. apply Qle_shift_div_l; [exact Hq|]. unfold inject_Z. lra.
Qed.

(** The time spanned by the positions of the speed window, when it is
    positive, is finite. *)
Lemma window_duration_finite (lastTs firstTs : num) :
  (firstTs >=? lastTs - nz 10 * 1000%Z) = true ->
  ((lastTs - firstTs) / 1000%Z >? 0%Z) = true ->
  exists q : Q, (lastTs - firstTs) / 1000%Z = Fin q /\ (0 < q)%Q.
Proof.
  unfold ge, gt, nz.
  destruct lastTs as [| | |a], firstTs as [| | |b]; cbn;
    try discriminate.
  intros _ H. qbool. eexists. split; [reflexivity | exact H].
Qed.

(** X27.  The current speed is never negative.  For every history of
    positions, NaN and infinite timestamps and coordinates included, and
    every implementation of the [Math] functions, [calculateCurrentSpeed]
    returns 0, a positive number or +Infinity; the one exception is NaN,
    returned only when the distance and the duration of the session are
    both +Infinity. *)
Theorem current_speed_is_never_negative :
  forall (Math : MathLib) (t : RunTracker),
    let speed := RunTracker.calculateCurrentSpeed Math t in
    (0%Z <=? speed) = true
    \/ (speed = NaN /\ distance t = PInf /\ duration t = PInf).
Proof.
  intros Math t. cbv zeta. unfold RunTracker.calculateCurrentSpeed.
  cbv zeta.
  destruct (List.length (positions t) <? 2)%nat; [left; reflexivity|].
  destruct (last_of (positions t)) as [lastP|] eqn:Hlast;
    [|left; reflexivity].
  set (windowStart := RunTracker.pos_timestamp lastP - nz 10 * 1000%Z).
  set (inWindow := fun pos : Position =>
                     RunTracker.pos_timestamp pos >=? windowStart).
  destruct (List.length (List.filter inWindow (positions t)) <? 2)%nat
    eqn:Hrecent; [apply average_speed_nonneg|].
  destruct (List.filter inWindow (positions t)) as [|firstP others]
    eqn:Efilter; [discriminate|].
  assert (HlastIn : inWindow lastP = true).
  { destruct (inWindow lastP) eqn:E; [reflexivity|]. exfalso.
    assert (Hnan : RunTracker.pos_timestamp lastP = NaN).
    { unfold inWindow, windowStart, ge, nz in E.
      destruct (RunTracker.pos_timestamp lastP) as [| | |a];
        cbn in E; try discriminate; [reflexivity|].
      qbool. unfold inject_Z in E. lra. }
    assert (Hin : In firstP (List.filter inWindow (positions t)))
      by (rewrite Efilter; left; reflexivity).
    apply filter_In in Hin. destruct Hin as [_ Hfirst].
    unfold inWindow, windowStart in Hfirst. rewrite Hnan in Hfirst.
    unfold ge in Hfirst.
    destruct (RunTracker.pos_timestamp firstP); discriminate. }
  assert (HlastR : last_of (firstP :: others) = Some lastP).
  { rewrite <- Efilter. apply last_of_filter; assumption. }
  rewrite HlastR.
  assert (Hfirst : inWindow firstP = true).
  { assert (Hin : In firstP (List.filter inWindow (positions t)))
      by (rewrite Efilter; left; reflexivity).
    apply filter_In in Hin. apply Hin. }
  destruct ((RunTracker.pos_timestamp lastP
             - RunTracker.pos_timestamp firstP) / 1000%Z >? 0%Z)
    eqn:Hduration; cbn [andb]; [|apply average_speed_nonneg].
  destruct (fst (fold_left (RunTracker.speed_step Math) (firstP :: others)
                   (nz 0, None)) >? 0%Z) eqn:Hdistance;
    [|apply average_speed_nonneg].
  destruct (window_duration_finite _ _ Hfirst Hduration)
    as (q & -> & Hq).
  left. apply positive_over_finite; assumption.
Qed.

(* ================================================================== *)
(** * The two-dimensional filter *)
(* ================================================================== *)






(** Three fixes a second apart and about 11 m apart: the first two are
    returned as they are, the third one is smoothed. *)
Example third_fix_is_the_first_smoothed :
  let fixes : list (num * num * num * num) :=
    [ (nz 37, nz (-122), nz 5, nz 1700000000000);
      (nq 370001 10000, nz (-122), nz 5, nz 1700000001000);
      (nq 370002 10000, nz (-122), nz 5, nz 1700000002000) ] in
  let returned :=
    fst (update_all RefMath.lib fixes KalmanFilter.constructor) in
  map ff_lat (firstn 2 returned) = [nz 37; nq 370001 10000]
  /\ exists third : Q,
       map ff_lat (skipn 2 returned) = [Fin third]
       /\ (370001 # 10000 < third < 370002 # 10000)%Q.
Proof.
  cbv zeta. split; [vm_compute; reflexivity|].
  eexists. split; [vm_compute; reflexivity|].
  split; vm_compute; reflexivity.
Qed.

(* ================================================================== *)
(** * The stride length and the sensor fusion manager *)
(* ================================================================== *)

(** X29.  The estimated stride length is always a number between 0.414 m
    and 1.035 m: for a height between 100 cm and 250 cm it is the value
    computed from the height, which lies within these bounds; for every
    other argument, a missing value, 0, NaN and the infinities included,
    it is the average 0.62 m. *)
Theorem stride_length_estimate_is_bounded :
  forall heightCm : option num,
    exists stride : Q,
      RunTracker.estimateStrideLength heightCm = Fin stride
      /\ (414 # 1000 <= stride <= 1035 # 1000)%Q
      /\ ((forall h : Q,
              heightCm = Some (Fin h) -> ~ (100 <= h <= 250)%Q)
          -> (stride == 62 # 100)%Q).
Proof.
  intros heightCm.
  assert (Haverage :
            exists stride : Q,
              RunTracker.AVERAGE_STRIDE_LENGTH_METERS = Fin stride
              /\ (414 # 1000 <= stride <= 1035 # 1000)%Q
              /\ (stride == 62 # 100)%Q).
  { eexists. split; [reflexivity|].
    split; [split; unfold Qle; cbn; lia | reflexivity]. }
  destruct Haverage as (average & Eaverage & Hrange & Havg).
  unfold RunTracker.estimateStrideLength.
  destruct heightCm as [[| | |h]|]; cbn [truthy negb orb JS.lt gt].
  - exists average. split; [exact Eaverage|]. split; [exact Hrange|].
    intros _; exact Havg.
  - exists average. split; [exact Eaverage|]. split; [exact Hrange|].
    intros _; exact Havg.
  - exists average. split; [exact Eaverage|]. split; [exact Hrange|].
    intros _; exact Havg.
  - unfold nz. cbn [JS.lt gt].
    destruct (negb (negb (Qeq_bool h 0)) || Qlt_bool h (inject_Z 100)
              || Qlt_bool (inject_Z 250) h) eqn:Eout.
    + exists average. split; [exact Eaverage|]. split; [exact Hrange|].
      intros _; exact Havg.
    + apply orb_false_iff in Eout. destruct Eout as [Eout Ehi].
      apply orb_false_iff in Eout. destruct Eout as [_ Elo].
      qbool. unfold inject_Z in Elo, Ehi.
      unfold nq. rewrite div_pos_Fin by reflexivity. cbn [JS.mul].
      eexists. split; [reflexivity|].
      assert (E : (h / (254 # 100) * (414 # 1000) * (254 # 10000)
                   == (414 # 100000) * h)%Q) by field.
      split; [rewrite E; split; lra|].
      intros Hno. exfalso. apply (Hno h eq_refl). split; assumption.
  - exists average. split; [exact Eaverage|]. split; [exact Hrange|].
    intros _; exact Havg.
Qed.

(** X30.  Steps taken before a GPS fix are counted after it.
    [updateGPSPosition] sets the steps since the last fix back to 0 while
    the step counter keeps its count, so the estimate asked for right
    after a fix, with no step taken since, is a dead-reckoned one whenever
    the counter holds a positive count: its confidence is
    [Math.pow(decay, count)], and the whole count becomes the steps since
    the fix. *)
Theorem steps_before_a_fix_are_counted_after_it :
  forall (Math : MathLib) (Math_pow : num -> num -> num)
         (now lat lon : num) (heading : option (option num))
         (count : Q) (m : SensorFusionManager),
    sc_stepCount (sf_stepCounter m) = Fin count ->
    (0 < count)%Q ->
    let fixed :=
      SensorFusionManager.updateGPSPosition now lat lon heading m in
    let result :=
      SensorFusionManager.getEstimatedPosition Math Math_pow fixed in
    SensorFusionManager.getStepCount fixed = Fin count
    /\ dr_stepsSinceLastGPS (sf_deadReckoning fixed) = 0%Z
    /\ exists (estimated : EstimatedPosition) (delta : Q),
         fst result = Some estimated
         /\ ep_isEstimated estimated = true
         /\ (delta == count)%Q
         /\ ep_confidence estimated
            = 1%Z * Math_pow (dr_confidenceDecayRate (sf_deadReckoning m))
                      (Fin delta)
         /\ dr_stepsSinceLastGPS (sf_deadReckoning (snd result))
            = Fin count.
Proof.
  intros Math Math_pow now lat lon heading count m Hcount Hpositive.
  cbv zeta.
  split; [exact Hcount|]. split; [reflexivity|].
  unfold SensorFusionManager.getEstimatedPosition,
    SensorFusionManager.updateGPSPosition, StepCounter.getStepCount.
  cbn [sf_stepCounter sf_deadReckoning]. rewrite Hcount.
  unfold DeadReckoning.estimatePosition, DeadReckoning.updateGPSPosition.
  cbn [dr_lastKnownPosition dr_stepsSinceLastGPS dr_currentConfidence
       dr_confidenceDecayRate dr_stepLength].
  replace (Fin count - 0%Z <=? 0%Z) with false.
  - cbn [fst snd sf_deadReckoning dr_stepsSinceLastGPS].
    eexists _, (count + - inject_Z 0)%Q.
    split; [reflexivity|]. split; [reflexivity|].
    split; [unfold inject_Z; ring|]. split; reflexivity.
  - symmetry. unfold nz. cbn. qbool. unfold inject_Z. lra.
Qed.

Lemma steps_before_a_fix_are_counted_after_it_witness :
  let m :=
    {| sf_stepCounter :=
         snd (feed RefMath.lib
                [ (1000%Q, mkAcceleration 0%Z 0%Z 9%Z);
                  (1300%Q, mkAcceleration 0%Z 0%Z 15%Z);
                  (1600%Q, mkAcceleration 0%Z 0%Z 9%Z);
                  (1900%Q, mkAcceleration 0%Z 0%Z 15%Z) ]
                StepCounter.constructor);
       sf_activityClassifier := ActivityClassifier.constructor;
       sf_deadReckoning := DeadReckoning.constructor;
       sf_isMotionAvailable := true |} in
  sc_stepCount (sf_stepCounter m) = Fin 2
  /\ (0 < 2)%Q
  /\ let fixed :=
       SensorFusionManager.updateGPSPosition 2000%Z 37%Z (-122)%Z
         (Some None) m in
     let result :=
       SensorFusionManager.getEstimatedPosition RefMath.lib pow_whole
         fixed in
     SensorFusionManager.getStepCount fixed = Fin 2
     /\ dr_stepsSinceLastGPS (sf_deadReckoning fixed) = 0%Z
     /\ exists (estimated : EstimatedPosition) (delta : Q),
          fst result = Some estimated
          /\ ep_isEstimated estimated = true
          /\ (delta == 2)%Q
          /\ ep_confidence estimated
             = 1%Z * pow_whole
                       (dr_confidenceDecayRate (sf_deadReckoning m))
                       (Fin delta)
          /\ dr_stepsSinceLastGPS (sf_deadReckoning (snd result)) = Fin 2.
Proof.
  set (m := {| sf_stepCounter :=
                 snd (feed RefMath.lib
                        [ (1000%Q, mkAcceleration 0%Z 0%Z 9%Z);
                          (1300%Q, mkAcceleration 0%Z 0%Z 15%Z);
                          (1600%Q, mkAcceleration 0%Z 0%Z 9%Z);
                          (1900%Q, mkAcceleration 0%Z 0%Z 15%Z) ]
                        StepCounter.constructor);
               sf_activityClassifier := ActivityClassifier.constructor;
               sf_deadReckoning := DeadReckoning.constructor;
               sf_isMotionAvailable := true |}).
  assert (H1 : sc_stepCount (sf_stepCounter m) = Fin 2)
    by (vm_compute; reflexivity).
  assert (H2 : (0 < 2)%Q) by reflexivity.
  cbv zeta. split; [exact H1|]. split; [exact H2|].
  exact (@steps_before_a_fix_are_counted_after_it RefMath.lib pow_whole
           2000%Z 37%Z (-122)%Z (Some None) 2 m H1 H2).
Defined.
